(* ===== verification/_CoqProject ===== *)
-Q . S2P
Prelude.v
PyStr.v
Shell.v
Utf8.v
PatchList.v
Sys.v
Trace.v
Heap.v
Raises.v
Checker.v
Scan.v
ReportXml.v
Report.v
Plugin.v
CommandLine.v
