(* ===== verification/Prelude.v ===== *)
(** * Verification of the ISA CVE-checker plugin (ISA_cve_plugin.py)

    ** The program

    [src/lib/isafw/isaplugins/ISA_cve_plugin.py] is a plugin of the ISA
    framework (image security analysis for Yocto builds), written for
    Python 2.  The framework calls four module-level callbacks: [init]
    builds the one [ISA_CVEChecker] object and keeps it in the global
    [CVEChecker]; [process_package] is called once per built package and
    records the package in a batch file; [process_report] is called at the
    end and runs the external scanner cve-check-tool over the batch file,
    twice (CSV and HTML), then removes the batch file and writes a JUnit-style
    XML summary of the CSV report; [getPluginName] returns a constant.

    The class has seven methods.  [__init__] copies the configuration,
    derives three paths and looks the tool up with [which].
    [process_package] writes the lines of a package and of its aliases to the
    batch file, each line [name,version,cve-ids,]; the CVE identifiers come
    from [process_patch_list], which parses the names of the package's
    patches.  [process_report] calls [process_report_type] for "csv" and
    for "html", and [write_report_xml].  [process_report_type] runs the
    kernel-name script ([mapping_of_kernel]) and the tool inside a [try]
    block, retries the tool once when it wrote to standard error, and stores
    the tool's output or returns an error text.  The standard error of the
    tool is decoded from UTF-8, once inside the [try] block and once after
    it, and the error text, a unicode object, is written to the log.

    ** The development, file by file

    - [Prelude] (this file): the notation [c ::: s] for strings, the line
      feed, generic lemmas on string append, the hint databases and the
      tactics the other files share.
    - [PyStr], module [Py]: the Python [str] and [list] operations the
      plugin calls ([partition], [split] with and without a bound, [strip],
      [startswith], [re.findall] of digit runs, the lines of a file,
      [str(int)], truth of a value), as executable functions on [string],
      with their laws.
    - [Shell], module [Shell]: what [/bin/sh -c] reads in a command
      line, since every command of the plugin is a string handed to the
      shell ([shell=True]).  [tokens] is token recognition and quote
      removal for the part of the language the plugin writes: words
      separated by blanks, single quotes, the operators [&&], [;] and
      line feed.  The rest of the language is outside the model: a string
      that uses it is read as [None].  [render] writes tokens with every
      word between single quotes.
    - [Utf8], module [Utf8]: the two codecs of the Python runtime a text of
      the plugin goes through.  A decoded text is represented by its UTF-8
      bytes; [is_ascii] is the domain of the ASCII codec, [utf8_ok] a
      validator of UTF-8 with the ranges CPython 2.7 checks, [encode] the
      encoder it is tested against.
    - [PatchList], module [PatchList]: [process_patch_list] (lines 239-255):
      [cve_partition] is the two [partition] attempts, [cve_id] the indexing
      inside the [try] block with [IndexError] as [None], [process_patch]
      the loop body, [process_patch_list] the loop.
    - [Sys], module [Sys]: the world the plugin acts on.  [World] is the
      file store (a [gmap] from path to contents), the trace of the
      commands run and the heap of the interpreter's objects; [exn] the
      exceptions that can reach the plugin; [M] the
      monad of computations that read and change the world and return or
      raise; [try_] the bare [except:]; [append_file], [write_file],
      [read_file], [isfile], [remove], [popen] the operations the code
      calls; [decode_utf8] is [bytes.decode('utf-8')] (lines 183 and 196)
      and [append_unicode] the write of a unicode text to the log, which
      goes through the ASCII codec (line 211).  What a command does is not
      the plugin's business, nor which bytes the UTF-8 codec accepts: they
      are the class [Env], and every theorem holds for every instance.
      [scripted] is the instance the examples use.  [preserves R m] says
      that [m], whether it returns or raises, takes a world to one that
      [R] relates it to, with rules by the shape of [m] for every reflexive
      and transitive [R]; [writes X m] (the computation [m] changes no
      file outside the paths [X]) is the instance for files, with the
      tactic [solve_writes]; [grows p] (the file at [p] holds what it
      held, with more at its end or nothing) is a second relation on
      worlds, proved preserved with the tactic [solve_preserves];
      [Confined X] is the law of
      an environment whose commands change no file outside [X], [Healthy]
      that of one whose commands all succeed and change no file,
      [AsciiValid] that of a UTF-8 codec that accepts ASCII, [Writable]
      that of one in which every file the plugin writes can be opened.
      Opening a file for writing raises [IOError] where the environment
      says the path cannot be opened ([writable]).
    - [Trace], module [Trace]: [traces Q m], the computation [m] keeps
      the commands started so far and those it starts satisfy [Q],
      whether it returns or raises, with its two instances: [spawns n m],
      at most [n] commands are started (a sequence adds the bounds, a
      branch takes the larger; tactic [solve_spawns]), and [issues P m],
      every command started is one of [P] (tactic [solve_issues]).
    - [Heap], module [Heap]: the objects of the interpreter.  An object is
      a number, the heap ([w_heap]) gives the instance attributes it has
      been assigned; [new_object] creates an object, [getattr] reads an
      attribute, the instance's own or else the class's, [setattr] assigns
      one.  [keeps_heap m] (the computation [m] changes no object) is the
      instance of [preserves] for the heap, with the tactic [solve_keeps];
      files, codecs and commands keep the heap.
    - [Raises], module [Raises]: [raises P m], an exception that leaves
      the computation [m] is one of [P]; its rules ([try_] lets nothing
      through, an operation raises what its definition says) and the
      tactic [solve_raises]; [returns Q m], a value that [m] returns is
      one of [Q], and [printed cmd out], the environment lets the command
      [cmd] print [out].
    - [Checker], module [Checker]: the records [ISA_config], [ISA_pkg] and
      [ISA_CVEChecker], [__init__] (lines 39-67), the call of the class
      that creates the object and runs [__init__] on it
      ([new_ISA_CVEChecker], line 262) and [process_package]
      (lines 69-97).  [ISA_CVEChecker] is a reference: the object [ref]
      together with the attributes assigned once by [__init__].  The
      attribute [initialized], the one a method assigns later, is in the
      heap: [initialized] reads it (with the class attribute of line 37 as
      default), [set_initialized] assigns it, at the place where the code
      does (line 60, before the log is opened; line 89, before the log is
      opened), and [flag self w] is its value in the world [w].
    - [Scan], module [Scan]: [mapping_of_kernel] (lines 214-237) and
      [process_report_type] (lines 158-212), the latter split as the code
      is: [tool_args] (the command line), [run_tool] (the [try] block, the
      first decode included), [after_tool] (the [except] and [else]
      branches, the second decode and the write of the error text
      included).  [issued self] are the commands of a report.
    - [ReportXml], module [ReportXml]: [write_report_xml] (lines 118-156)
      over the element tree [element]; [report_line] is one iteration of the
      loop over the lines of the CSV report.  Serialising a tree is the
      class [Etree] (with or without [pretty_print]).  [is_testsuite],
      [is_testcase] and [is_failure] are the shape of a JUnit report, as
      decidable predicates on trees.
    - [Report], module [Report]: [process_report] (lines 99-116).
    - [Plugin], module [Plugin]: the global [CVEChecker] ([globals]), the
      four callbacks (lines 260-276), the calls of the framework as a data
      type [call], with their [outcome] (returned, or raised an
      exception), the step relation [step] with the steps that return and
      those that raise, the executable [run_calls] (a sequence of calls
      that ends with the first exception) and [attempts] (every call is
      made, whatever the outcome of the ones before), the abstract
      [session] the callbacks implement, and [cost], the commands a call
      may start.
    - [CommandLine], module [CommandLine]: the command lines of
      [tool_args] and [set_linux_kernel_name_arg] read with [Shell.tokens],
      beside the words they are meant to be ([tool_words],
      [script_words]).

    ** What is proved

    - Strings ([PyStr]): [partition], [split], [splitn] and [readlines] lose
      no character ([partition_concat], [join_split], [join_splitn],
      [concat_readlines]); [partition] splits at the leftmost occurrence;
      a field of [split] holds no separator; [split] after [join] is the
      identity on separator-free fields; [strip] is idempotent and removes
      exactly the white space at both ends.
    - [process_patch_list]: it is a map followed by a concatenation; each
      identifier it emits has the shape [" CVE-<year>-<digits>"]; a patch
      named in the usual way gives its identifier; a name that mentions no
      CVE gives nothing; the lower-case key wins over the upper-case one.
    - [__init__] and [process_package]: each raises in one case only, when
      a file it writes cannot be opened ([init_spec],
      [process_package_safe], for every environment); [__init__] runs one
      command and sets the flag exactly when the lookup printed something;
      [process_package] appends the package's line and then the aliases'
      lines, touches the batch file and the log only, switches the checker
      off on an incomplete package and never switches it on; with a log
      that cannot be opened it records the package and raises
      ([process_package_log_unwritable]), and for an incomplete package it
      raises with the flag already cleared
      ([process_package_raise_disables]).  [__init__] returns a new object
      and leaves the others alone; a method changes no object but its
      own.  The batch
      file reads back line by line as written when no field holds a line
      feed, and a line determines its package when name and version hold no
      comma (the code escapes neither).
    - The codecs ([Utf8]): ASCII is valid UTF-8; the validator accepts the
      encoding of every code point, sequence by sequence; [str] of an
      integer is ASCII, so the failure text is as ASCII as the standard
      error it quotes.
    - [process_report_type]: the retry, which happens once at most
      ([run_tool_trace]), the order of the commands, the three outcomes
      (report stored and empty text; error text from standard error and
      exit status; error text from an exception), and the three places
      where an exception escapes: the second call of the kernel-name script
      in a CSV run, the second decode when the tool, run again, writes
      bytes that are not UTF-8 ([process_report_type_decode_escapes]; the
      same bytes in the first run are caught,
      [process_report_type_decode_caught]), and the write of an error text
      that is not ASCII to the log
      ([process_report_type_encode_escapes]); and a fourth when the report
      cannot be opened ([process_report_type_report_unwritable]).
    - The command lines ([CommandLine]): the command line of the tool is
      read by the shell as the words it is meant to be exactly when the
      certificate, the report directory and the time stamp hold no single
      quote ([tool_args_quoting]); that of the kernel-name script is read
      as meant for a plain file name, and in the mode [custom] it ends
      with whatever the shell reads in the name handed to it
      ([script_command_tokens]), which is the text the first run of the
      script printed; the batch file, quoted for the tool, is not quoted
      for the script ([script_path_split]).  No word the shell reads
      holds a single quote, and what [render] writes is read back
      ([Shell.tokens_quotable], [Shell.tokens_render]).
    - [write_report_xml]: one test case per line of the CSV report with
      [tests] their number; which lines fail; the single failing test case
      for an error text; [IOError] when the report is missing; the tree is
      a JUnit test suite whenever there is something to report
      ([write_report_xml_junit]).
    - [process_report]: the two guards; the success path (batch file
      removed, summary written); which run's text reaches the summary (the
      HTML run's: the CSV run's is overwritten); what happens when a run
      raises or the batch file is gone; and, for every [Healthy]
      environment, the whole call: it returns, the five commands run in
      order, the reports and the summary are stored
      ([process_report_healthy]); and, for every environment, at most
      seven commands are started ([process_report_spawns]), a bound that a
      tool which warns on every first run reaches; with a log that cannot
      be opened nothing is started at all
      ([process_report_log_unwritable]); and the exceptions that can leave
      it are those of [escapes] and no others
      ([process_report_raises]): what is raised inside the [try] block
      never leaves.
    - The plugin as a whole: the invariant of the reachable states, the
      states after a call that raised included (the checker is an object
      [__init__] builds, and it is in the heap); the refinement
      [attempts_implements]: from the import, every sequence of calls,
      each with its outcome, is a sequence of steps of the abstract session
      (not started, or flag and lines of the batch file), whose rules say
      what a call that raises leaves behind ([run_calls_implements] is the
      case of a sequence that returns); what the session promises, proved
      by induction on its steps and carried to the plugin by the
      refinement: package calls only append to the batch file, the lines
      of some of the packages in the order of the calls
      ([packages_only_append]), and a checker that is off stays off with
      its batch file until the next [init] ([off_checker_frozen]); the
      step relation and the executable run have the same states
      ([reachable_attempts]); complete packages are all
      recorded, in order; one incomplete package ends the session, also
      when the call raises because the log cannot be opened
      ([unlogged_reject_ends_session]); between two calls of [init] no
      file changes but the five of the checker and those the commands
      change ([attempts_writes], for every [Confined] environment); the
      log of every configuration is append-only over every sequence of
      calls, [init] included ([log_append_only]); a
      sequence of calls starts at most one command for each [init] and
      seven for each report ([attempts_spawns]), and the commands are
      those of the report, the script, the tool and the script on the
      report with the name the first run printed ([attempts_issues]);
      with a plain configuration each of them is read by the shell as it
      is meant, up to that name ([CommandLine.commands_read]); the
      exceptions that can leave each callback ([callbacks_raise]); in a
      [Healthy]
      environment where the tool is installed a whole session, from [init]
      through one package or more to the report, returns with the summary
      written ([session_completes]).

    The invariant, the refinement, the frames, the bounds on the
    commands and the lists of exceptions hold for every environment.  The theorems that follow a
    method through its writes are stated where every file the plugin
    writes can be opened (the sections that assume [Writable] say so); the
    theorems named [..._unwritable] and the two above say what happens
    where one cannot.

    Theorems with hypotheses are followed by an example (suffix
    [_witness]) that applies them to concrete packages, worlds and
    environments.

    ** Assumptions and limits

    - Python 2 semantics: a [str] is a byte string, one [ascii] per byte; a
      unicode text is represented by its UTF-8 bytes, so that decoding
      checks the bytes and keeps them, and the ASCII codec accepts the text
      exactly when every byte is below 128.  The theorems that need a fact
      of the UTF-8 codec assume [AsciiValid] and no more.  The source does
      not run under Python 3 (tabs and spaces mixed at line 205, [str]
      written to a binary file).
    - An attribute that is [None] in Python is the empty string or list
      here: the code only tests such attributes for truth.
    - Whether a file can be opened for writing or appending is a fact of
      the environment that does not change during a session (the report and
      log directories exist and are writable, or not); a write to an open
      file succeeds.  Reading a file that is not there raises [IOError],
      removing one raises [OSError]; removing a file that is there
      succeeds.
    - The heap holds the one attribute that is assigned after
      construction, [initialized]; the attributes [__init__] assigns once
      are carried by the reference, and an object has no other.  An object
      is never freed: the checker a second [init] replaces stays in the
      heap, out of reach.
    - The ISA framework is not in the repository.  Whether it goes on
      after an exception of a callback is its business: [run_calls] is the
      caller that stops, [attempts] the one that goes on, and the
      invariant, the refinement, the frame and the bound on the commands
      are proved for the second, which covers the first.  After a call
      that raised, the global is what it was (the assignment in [init]
      comes after the constructor) and the world, the heap included, is
      what the call had made of it.
    - A command runs to its end: a command that hangs is not modelled.  A
      command may write and delete any file; it does so through [Env].
    - The shell is modelled as far as reading a command line into words
      and operators, for command lines made of plain characters, blanks,
      single quotes, [&&], [;] and line feeds.  The theorems on command
      lines assume the texts written without quotes to be plain, so that
      the command line stays inside this part of the language; where a
      text is not, [tokens] may give [None], which says that the model
      does not know what the shell does, not that the shell fails.  What
      the shell does with the words (assignments, the search for the
      program, [&&]) is not modelled: a command, once started, is [Env].
    - The bytes of the XML file are those [Etree] gives for the tree; the
      XML libraries themselves are not modelled, nor the checks they make
      of the strings put into a tree (lxml refuses control characters).
    - No recursion in the source needs fuel: every loop is over a list or
      over the characters of a string, and every function here is total by
      structural recursion.  The one repetition that is not a loop over
      data, the retry of the tool, is an [if]: the bounds on the commands
      started ([spawns]) are its termination argument.
    - Every line of the source that is code is modelled; what the map
      leaves out is the licence header, the imports and blank lines.
    - Not modelled: the external programs (cve-check-tool, the kernel-name
      script, [which]), the XML libraries, the ISA framework that calls the
      plugin, the contents the script writes into the reports. *)

From Stdlib Require Export Ascii ZArith Lia.
From stdpp Require Export base tactics option list strings gmap pretty.

(** ** Notation *)

Declare Scope pystr_scope.
Delimit Scope pystr_scope with py.

(** [c ::: s] is the string [s] with the character [c] in front. *)
Notation "c ::: s" := (String c s)
  (at level 60, right associativity) : pystr_scope.

#[global] Open Scope pystr_scope.

(** The line feed, Python's ["\n"]. *)
Definition LF : ascii := "010"%char.
Definition nl : string := LF ::: "".

(** ** Strings: append *)

Lemma str_app_nil_l (s : string) : "" +:+ s = s.
Proof. reflexivity. Qed.

Lemma str_app_cons (a : ascii) (s t : string) : (a ::: s) +:+ t = a ::: (s +:+ t).
Proof. reflexivity. Qed.

Lemma str_app_nil_r (s : string) : s +:+ "" = s.
Proof. induction s as [|a s IH]; [done|]. by rewrite str_app_cons, IH. Qed.

Lemma str_app_assoc (s t u : string) : (s +:+ t) +:+ u = s +:+ (t +:+ u).
Proof. induction s as [|a s IH]; [done|]. by rewrite !str_app_cons, IH. Qed.

Lemma str_length_app (s t : string) :
  String.length (s +:+ t) = String.length s + String.length t.
Proof. induction s as [|a s IH]; [done|]. rewrite str_app_cons. simpl. by rewrite IH. Qed.

(** Two splits of one string agree up to the length of their first parts. *)
Lemma str_app_inv_length (s1 t1 s2 t2 : string) :
  s1 +:+ t1 = s2 +:+ t2 → String.length s1 = String.length s2 → s1 = s2 ∧ t1 = t2.
Proof.
  revert s2; induction s1 as [|a s1 IH]; intros [|b s2]; try done.
  rewrite !str_app_cons. intros [= -> H] [= Hl]. by destruct (IH s2 H Hl) as [-> ->].
Qed.

(** Append cancels on the right. *)
Lemma str_app_inv_tail (s1 s2 t : string) : s1 +:+ t = s2 +:+ t → s1 = s2.
Proof.
  intros E. assert (String.length s1 = String.length s2) as Hl.
  { apply (f_equal String.length) in E. rewrite !str_length_app in E. lia. }
  by destruct (str_app_inv_length _ _ _ _ E Hl).
Qed.

Lemma str_app_inv_shorter (s1 t1 s2 t2 : string) :
  s1 +:+ t1 = s2 +:+ t2 → String.length s1 ≤ String.length s2 →
  ∃ m, s2 = s1 +:+ m ∧ t1 = m +:+ t2.
Proof.
  revert s2; induction s1 as [|a s1 IH]; intros s2.
  - intros H _. by exists s2.
  - destruct s2 as [|b s2]; [simpl; lia|]. rewrite !str_app_cons.
    intros [= -> H] Hl. destruct (IH s2 H) as (m & -> & ->); [simpl in Hl; lia|].
    by exists m.
Qed.

Create HintDb pystr discriminated.
Create Rewrite HintDb pystr_rw.
#[export] Hint Rewrite str_app_nil_l str_app_cons str_app_nil_r str_app_assoc : pystr_rw.
#[export] Hint Rewrite str_length_app : pystr_rw.

(** [by_decide] closes a decidable proposition on closed terms by running
    its decision procedure. *)
Ltac by_decide := apply (bool_decide_unpack _); vm_compute; exact I.

Ltac str_simpl := repeat (progress (autorewrite with pystr_rw in *; simpl in *)).
