(* ===== verification/PyStr.v ===== *)
(** * PyStr: the Python 2 [str] and [list] operations the plugin calls

    The plugin is string glue: every value it computes comes out of
    [str.partition], [str.split], [str.strip], [str.startswith],
    [re.findall('\d+', _)], iteration over the lines of a file, [str(int)]
    and [+].  This file gives each of them as an executable function on
    [string] (a Python 2 [str] is a byte string; one [ascii] per byte) and
    proves the laws the components rely on: reassembly ([partition], [split],
    [readlines] lose no character), first-occurrence, field counts, and the
    round trips between [split] and [join].

    Module [Py] holds the operations; its lemmas come after them. *)

From S2P Require Import Prelude.

Module Py.

(** ** Truth values: [if s:] and [if l:] *)

Definition truth (s : string) : bool :=
  match s with "" => false | _ => true end.

Definition truthl {A} (l : list A) : bool :=
  match l with [] => false | _ => true end.

(** ** Character classes *)

(** [\d] on a Python 2 byte string: the ten ASCII digits. *)
Definition is_digit (a : ascii) : bool :=
  match Ascii.is_nat a with Some _ => true | None => false end.

(** [all_chars P s]: every character of [s] satisfies [P]. *)
Fixpoint all_chars (P : ascii → bool) (s : string) : bool :=
  match s with
  | "" => true
  | a ::: s' => P a && all_chars P s'
  end.

(** [count_char c s]: [s.count(c)] for a one-character [c]. *)
Fixpoint count_char (c : ascii) (s : string) : nat :=
  match s with
  | "" => 0
  | a ::: s' => (if decide (a = c) then 1 else 0) + count_char c s'
  end.

(** ** [s.startswith(p)] *)

Fixpoint startswith (s p : string) {struct p} : bool :=
  match p with
  | "" => true
  | a ::: p' =>
      match s with
      | "" => false
      | b ::: s' => if decide (a = b) then startswith s' p' else false
      end
  end.

(** ** [s.partition(sep)] *)

(** [strip_prefix p s] is the rest of [s] after its prefix [p]. *)
Fixpoint strip_prefix (p s : string) : option string :=
  match p with
  | "" => Some s
  | a ::: p' =>
      match s with
      | "" => None
      | b ::: s' => if decide (a = b) then strip_prefix p' s' else None
      end
  end.

(** [find_split sep s]: what stands before and after the first occurrence
    of [sep] in [s], scanning from the left as [str.find] does. *)
Fixpoint find_split (sep s : string) : option (string * string) :=
  match strip_prefix sep s with
  | Some rest => Some ("", rest)
  | None =>
      match s with
      | "" => None
      | c ::: s' =>
          match find_split sep s' with
          | Some (b, a) => Some (c ::: b, a)
          | None => None
          end
      end
  end.

(** [s.partition(sep)] returns [(before, sep, after)] at the first
    occurrence of [sep], and [(s, "", "")] when there is none.  (Python
    raises [ValueError] on an empty [sep]; the plugin passes ["cve"] and
    ["CVE"].) *)
Definition partition (s sep : string) : string * string * string :=
  match find_split sep s with
  | Some (b, a) => (b, sep, a)
  | None => (s, "", "")
  end.

(** ** [s.split(c)] and [s.split(c, n)] for a one-character separator *)

(** [cons_head a l] puts [a] in front of the first string of [l]. *)
Definition cons_head (a : ascii) (l : list string) : list string :=
  match l with
  | h :: t => (a ::: h) :: t
  | [] => [a ::: ""]
  end.

Fixpoint split (c : ascii) (s : string) : list string :=
  match s with
  | "" => [""]
  | a ::: s' =>
      if decide (a = c) then "" :: split c s' else cons_head a (split c s')
  end.

(** [splitn c s n] is [s.split(c, n)]: at most [n] cuts, the rest of the
    string unsplit in the last field. *)
Fixpoint splitn (c : ascii) (s : string) (n : nat) : list string :=
  match s with
  | "" => [""]
  | a ::: s' =>
      match n with
      | 0 => [s]
      | S n' =>
          if decide (a = c) then "" :: splitn c s' n'
          else cons_head a (splitn c s' n)
      end
  end.

(** [join sep l] is [sep.join(l)]. *)
Fixpoint join (sep : string) (l : list string) : string :=
  match l with
  | [] => ""
  | [x] => x
  | x :: l' => x +:+ sep +:+ join sep l'
  end.

(** ** [s.strip()] *)

(** The characters [strip()] removes are those of [string.whitespace]:
    space, tab, line feed, vertical tab, form feed, carriage return. *)
Fixpoint lstrip (s : string) : string :=
  match s with
  | "" => ""
  | a ::: s' => if Ascii.is_space a then lstrip s' else s
  end.

Fixpoint rstrip (s : string) : string :=
  match s with
  | "" => ""
  | a ::: s' =>
      match rstrip s' with
      | "" => if Ascii.is_space a then "" else a ::: ""
      | r => a ::: r
      end
  end.

Definition strip (s : string) : string := rstrip (lstrip s).

(** ** [re.findall('\d+', s)] *)

(** The maximal runs of digits of [s], from left to right. *)
Fixpoint findall_digits (s : string) : list string :=
  match s with
  | "" => []
  | a ::: s' =>
      if is_digit a then
        match s' with
        | b ::: _ =>
            if is_digit b then cons_head a (findall_digits s')
            else (a ::: "") :: findall_digits s'
        | "" => [a ::: ""]
        end
      else findall_digits s'
  end.

(** ** [for line in f]: the lines of a text, line ends kept *)

Fixpoint readlines (s : string) : list string :=
  match s with
  | "" => []
  | a ::: s' =>
      if decide (a = LF) then (a ::: "") :: readlines s'
      else cons_head a (readlines s')
  end.

(** ** [str(n)] *)

Definition str_of_nat (n : nat) : string := pretty n.
Definition str_of_Z (z : Z) : string := pretty z.

(** ** Specification vocabulary *)

(** [occurs sep s]: [sep] is a substring of [s]. *)
Definition occurs (sep s : string) : Prop :=
  ∃ b a, s = b +:+ sep +:+ a.

(** [no_lead_digit s]: [s] is empty or starts with a character that is
    no digit, so that a digit run standing before [s] ends there. *)
Definition no_lead_digit (s : string) : bool :=
  match s with "" => true | a ::: _ => negb (is_digit a) end.

(** The last character of [s]. *)
Fixpoint last_char (s : string) : option ascii :=
  match s with
  | "" => None
  | a ::: s' => match last_char s' with Some b => Some b | None => Some a end
  end.

(** [concat l]: the strings of [l] one after the other. *)
Definition concat (l : list string) : string := foldr String.app "" l.

(** ** Laws of [startswith] and [partition] *)

Lemma truth_true (s : string) : truth s = true ↔ s ≠ "".
Proof. by destruct s. Qed.

Lemma truth_false (s : string) : truth s = false ↔ s = "".
Proof. by destruct s. Qed.

Lemma truthl_true {A} (l : list A) : truthl l = true ↔ l ≠ [].
Proof. by destruct l. Qed.

Lemma strip_prefix_Some (p s r : string) :
  strip_prefix p s = Some r ↔ s = p +:+ r.
Proof.
  revert s; induction p as [|a p IH]; intros s; simpl.
  - rewrite str_app_nil_l. split; congruence.
  - rewrite str_app_cons. destruct s as [|b s]; [done|].
    case_decide; subst; [rewrite IH|]; split; congruence.
Qed.

Lemma startswith_strip_prefix (s p : string) :
  startswith s p = true ↔ is_Some (strip_prefix p s).
Proof.
  revert s; induction p as [|a p IH]; intros s; simpl; [split; eauto|].
  destruct s as [|b s]; [split; [done|by intros []]|].
  case_decide; [done|]. split; [done|by intros []].
Qed.

Lemma startswith_spec (s p : string) :
  startswith s p = true ↔ ∃ r, s = p +:+ r.
Proof.
  rewrite startswith_strip_prefix. unfold is_Some.
  by setoid_rewrite strip_prefix_Some.
Qed.

Lemma startswith_app (p r : string) : startswith (p +:+ r) p = true.
Proof. apply startswith_spec. by exists r. Qed.

Lemma find_split_Some (sep s b a : string) :
  find_split sep s = Some (b, a) → s = b +:+ sep +:+ a.
Proof.
  revert b; induction s as [|c s IH]; intros b; simpl.
  - destruct (strip_prefix sep "") eqn:E; [|done].
    intros [= <- <-]. by apply strip_prefix_Some in E.
  - destruct (strip_prefix sep (c ::: s)) eqn:E.
    + intros [= <- <-]. by apply strip_prefix_Some in E.
    + destruct (find_split sep s) as [[b' a']|]; [|done].
      intros [= <- <-]. by rewrite (IH b').
Qed.

Lemma find_split_None (sep s : string) :
  find_split sep s = None ↔ ¬ occurs sep s.
Proof.
  induction s as [|c s IH]; simpl.
  - destruct (strip_prefix sep "") eqn:E.
    + apply strip_prefix_Some in E. split; [done|]. intros []. by exists "", s.
    + split; [|done]. intros _ (b & a & Hs). destruct b; [|done].
      rewrite str_app_nil_l in Hs. apply strip_prefix_Some in Hs. congruence.
  - destruct (strip_prefix sep (c ::: s)) eqn:E.
    + apply strip_prefix_Some in E. split; [done|]. intros []. by exists "", s0.
    + destruct (find_split sep s) as [[b' a']|] eqn:F.
      * split; [done|]. intros []. apply find_split_Some in F.
        exists (c ::: b'), a'. by rewrite F.
      * split; [|done]. intros _ (b & a & Hs). destruct b as [|c' b].
        -- rewrite str_app_nil_l in Hs. apply strip_prefix_Some in Hs. congruence.
        -- rewrite str_app_cons in Hs. injection Hs as -> Hs.
           apply (proj1 IH); [done|]. by exists b, a.
Qed.

(** No occurrence of [sep] starts to the left of the one [find_split] finds. *)
Lemma find_split_first (sep s b a b' a' : string) :
  find_split sep s = Some (b, a) → s = b' +:+ sep +:+ a' →
  String.length b ≤ String.length b'.
Proof.
  revert b b'; induction s as [|c s IH]; intros b b'; simpl.
  - destruct (strip_prefix sep ""); [|done]. intros [= <- <-] _. simpl; lia.
  - destruct (strip_prefix sep (c ::: s)) eqn:E.
    + intros [= <- <-] _. simpl; lia.
    + destruct (find_split sep s) as [[b1 a1]|] eqn:F; [|done].
      intros [= <- <-] Hs. destruct b' as [|c' b'].
      * rewrite str_app_nil_l in Hs. apply strip_prefix_Some in Hs. congruence.
      * rewrite str_app_cons in Hs. injection Hs as -> Hs.
        simpl. specialize (IH b1 b' eq_refl Hs). lia.
Qed.

(** [find_split] finds the leftmost occurrence, and only that one. *)
Lemma find_split_leftmost sep b a :
  (∀ b' a', b +:+ sep +:+ a = b' +:+ sep +:+ a' → String.length b ≤ String.length b') →
  find_split sep (b +:+ sep +:+ a) = Some (b, a).
Proof.
  intros Hmin. destruct (find_split sep (b +:+ sep +:+ a)) as [[b1 a1]|] eqn:E.
  - pose proof (find_split_first _ _ _ _ b a E eq_refl) as Hle.
    apply find_split_Some in E. pose proof (Hmin _ _ E) as Hge.
    destruct (str_app_inv_length _ _ _ _ E) as [-> H]; [lia|].
    by apply (inj (String.app sep)) in H as ->.
  - apply find_split_None in E. destruct E. by exists b, a.
Qed.

(** The occurrence at [b] is the leftmost when [sep] does not already occur
    in [b] followed by all of [sep] but its last character. *)
Lemma find_split_at init c b a :
  ¬ occurs (init +:+ c ::: "") (b +:+ init) →
  find_split (init +:+ c ::: "") (b +:+ (init +:+ c ::: "") +:+ a) = Some (b, a).
Proof.
  intros Hno. apply find_split_leftmost. intros b' a' E.
  destruct (decide (String.length b ≤ String.length b')) as [|Hlt]; [done|].
  destruct Hno. symmetry in E.
  rewrite <- (str_app_assoc b'), (str_app_assoc init), <- (str_app_assoc b init) in E.
  apply str_app_inv_shorter in E as (m & -> & _).
  - exists b', m. by rewrite str_app_assoc.
  - rewrite !str_length_app. simpl. lia.
Qed.

Lemma find_split_shorter (sep s b a : string) :
  sep ≠ "" → find_split sep s = Some (b, a) → b ≠ s.
Proof.
  intros Hsep E%find_split_Some Hb. apply (f_equal String.length) in E.
  rewrite !str_length_app, Hb in E. destruct sep; [done|simpl in E; lia].
Qed.

(** Whether [sep] occurs in [s] is decided by running [find_split]. *)
#[global] Instance occurs_dec sep s : Decision (occurs sep s).
Proof.
  refine (match find_split sep s as o return find_split sep s = o → _ with
          | Some _ => λ E, left _
          | None => λ E, right _
          end eq_refl).
  - destruct p as [b a]. exists b, a. by apply find_split_Some.
  - by apply find_split_None.
Defined.

Lemma occurs_app_l (sep s t : string) : occurs sep s → occurs sep (s +:+ t).
Proof. intros (b & a & ->). exists b, (a +:+ t). by rewrite !str_app_assoc. Qed.

Lemma occurs_app_r (sep s t : string) : occurs sep t → occurs sep (s +:+ t).
Proof. intros (b & a & ->). exists (s +:+ b), a. by rewrite !str_app_assoc. Qed.

Lemma partition_found (s sep b a : string) :
  find_split sep s = Some (b, a) → partition s sep = (b, sep, a).
Proof. unfold partition. by intros ->. Qed.

Lemma partition_not_found (s sep : string) :
  find_split sep s = None → partition s sep = (s, "", "").
Proof. unfold partition. by intros ->. Qed.

(** [partition] loses nothing: its three parts make up [s]. *)
Lemma partition_concat (s sep : string) :
  (partition s sep).1.1 +:+ (partition s sep).1.2 +:+ (partition s sep).2 = s.
Proof.
  unfold partition. destruct (find_split sep s) as [[b a]|] eqn:E; simpl.
  - by apply find_split_Some in E.
  - by rewrite str_app_nil_l, str_app_nil_r.
Qed.

(** The plugin's test [patch1[0] == patch] holds exactly when [sep] does not
    occur. *)
Lemma partition_fst_eq (s sep : string) :
  sep ≠ "" → (partition s sep).1.1 = s ↔ ¬ occurs sep s.
Proof.
  intros Hsep. rewrite <- find_split_None. unfold partition.
  destruct (find_split sep s) as [[b a]|] eqn:E; simpl; [|done].
  split; [|done]. intros Hb. by destruct (find_split_shorter sep s b a).
Qed.

(** ** Laws of [all_chars], [count_char] and [concat] *)

Lemma all_chars_app P s t : all_chars P (s +:+ t) = all_chars P s && all_chars P t.
Proof. induction s as [|a s IH]; [done|]. simpl. by rewrite IH, andb_assoc. Qed.

Lemma all_chars_impl (P Q : ascii → bool) s :
  (∀ a, P a = true → Q a = true) → all_chars P s = true → all_chars Q s = true.
Proof.
  intros HPQ. induction s as [|a s IH]; [done|]. simpl.
  intros [Ha Hs]%andb_prop. by rewrite HPQ, IH.
Qed.

Lemma all_chars_count_0 P c s :
  P c = false → all_chars P s = true → count_char c s = 0.
Proof.
  intros Hc. induction s as [|a s IH]; [done|]. simpl.
  intros [Ha Hs]%andb_prop. rewrite decide_False by congruence. by rewrite IH.
Qed.

Lemma count_char_app c s t : count_char c (s +:+ t) = count_char c s + count_char c t.
Proof.
  induction s as [|a s IH]; [done|]. simpl. rewrite IH. lia.
Qed.

Lemma concat_cons x l : concat (x :: l) = x +:+ concat l.
Proof. reflexivity. Qed.

Lemma concat_app l1 l2 : concat (l1 ++ l2) = concat l1 +:+ concat l2.
Proof. induction l1 as [|x l1 IH]; [done|]. simpl. by rewrite IH, str_app_assoc. Qed.

Lemma concat_cons_head a l : concat (cons_head a l) = a ::: concat l.
Proof. by destruct l. Qed.

Lemma last_char_app s t : t ≠ "" → last_char (s +:+ t) = last_char t.
Proof.
  intros Ht. induction s as [|a s IH]; [done|]. rewrite str_app_cons. simpl. rewrite IH.
  destruct t as [|b t]; [done|]. simpl. by destruct (last_char t).
Qed.

(** Two strings that end differently are different. *)
Lemma last_char_ne s t : last_char s ≠ last_char t → s ≠ t.
Proof. congruence. Qed.

(** ** Laws of [split], [splitn] and [join] *)

Lemma cons_head_ne a l : cons_head a l ≠ [].
Proof. by destruct l. Qed.

Lemma length_cons_head a l : l ≠ [] → length (cons_head a l) = length l.
Proof. by destruct l. Qed.

Lemma split_ne c s : split c s ≠ [].
Proof. destruct s as [|a s]; simpl; [done|]. case_decide; [done|apply cons_head_ne]. Qed.

Lemma splitn_ne c s n : splitn c s n ≠ [].
Proof.
  destruct s as [|a s]; simpl; [done|]. destruct n; [done|].
  case_decide; [done|apply cons_head_ne].
Qed.

Lemma join_cons sep x l : l ≠ [] → join sep (x :: l) = x +:+ sep +:+ join sep l.
Proof. by destruct l. Qed.

Lemma join_cons_head sep a l :
  l ≠ [] → join sep (cons_head a l) = a ::: join sep l.
Proof. destruct l as [|h [|h' t]]; [done|done|]. intros _. simpl. by rewrite str_app_cons. Qed.

(** Joining the fields with the separator gives the string back. *)
Lemma join_split c s : join (c ::: "") (split c s) = s.
Proof.
  induction s as [|a s IH]; simpl; [done|]. case_decide; subst.
  - rewrite join_cons by apply split_ne. by rewrite IH.
  - rewrite join_cons_head by apply split_ne. by rewrite IH.
Qed.

Lemma join_splitn c s n : join (c ::: "") (splitn c s n) = s.
Proof.
  revert n; induction s as [|a s IH]; intros n; simpl; [done|].
  destruct n; [done|]. case_decide; subst.
  - rewrite join_cons by apply splitn_ne. by rewrite IH.
  - rewrite join_cons_head by apply splitn_ne. by rewrite IH.
Qed.

(** One field more than there are separators. *)
Lemma length_split c s : length (split c s) = S (count_char c s).
Proof.
  induction s as [|a s IH]; simpl; [done|]. case_decide; simpl; [by rewrite IH|].
  by rewrite length_cons_head, IH by apply split_ne.
Qed.

Lemma length_splitn c s n : length (splitn c s n) = S (min n (count_char c s)).
Proof.
  revert n; induction s as [|a s IH]; intros n; simpl; [by rewrite Nat.min_0_r|].
  destruct n; [done|]. case_decide; simpl; [by rewrite IH|].
  by rewrite length_cons_head, IH by apply splitn_ne.
Qed.

Lemma split_count_0 c s : count_char c s = 0 → split c s = [s].
Proof.
  induction s as [|a s IH]; simpl; [done|]. case_decide; [done|].
  intros Hc. by rewrite IH.
Qed.

Lemma splitn_0 c s : splitn c s 0 = [s].
Proof. by destruct s. Qed.

(** [maxsplit] is no limit when it is not below the number of separators. *)
Lemma splitn_split c s n : count_char c s ≤ n → splitn c s n = split c s.
Proof.
  revert n; induction s as [|a s IH]; intros n Hn; [done|].
  destruct n; [by rewrite split_count_0 by lia|]. simpl in *.
  case_decide; rewrite IH by lia; done.
Qed.

Lemma split_app_sep c s t :
  count_char c s = 0 → split c (s +:+ c ::: t) = s :: split c t.
Proof.
  induction s as [|a s IH]; simpl; [by rewrite decide_True|].
  case_decide; [done|]. intros Hc. by rewrite IH.
Qed.

Lemma splitn_app_sep c s t n :
  count_char c s = 0 → splitn c (s +:+ c ::: t) (S n) = s :: splitn c t n.
Proof.
  induction s as [|a s IH]; simpl; [by rewrite decide_True|].
  case_decide; [done|]. intros Hc. by rewrite IH.
Qed.

Lemma split_app_nosep c d t :
  count_char c d = 0 →
  split c (d +:+ t) = (d +:+ default "" (split c t !! 0)) :: drop 1 (split c t).
Proof.
  induction d as [|a d IH]; simpl.
  - intros _. by destruct (split c t) eqn:E; [apply split_ne in E|].
  - case_decide; [done|]. intros Hd. by rewrite IH.
Qed.

Lemma cons_head_inv a l h t :
  l ≠ [] → cons_head a l = h :: t → ∃ h', l = h' :: t ∧ h = a ::: h'.
Proof. destruct l as [|h' t']; [done|]. intros _ [= <- <-]. eauto. Qed.

(** The first field of a split that cuts at least once: it holds no
    separator and the rest of the string is split one time less. *)
Lemma splitn_cons_inv c s n a l :
  splitn c s (S n) = a :: l → l ≠ [] →
  ∃ rest, s = a +:+ c ::: rest ∧ count_char c a = 0 ∧ splitn c rest n = l.
Proof.
  revert a; induction s as [|x s IH]; intros a; simpl.
  - by intros [= <- <-].
  - case_decide as Hx.
    + intros [= <- <-] _. subst. by exists s.
    + intros (h' & Hs & ->)%cons_head_inv Hl; [|apply splitn_ne].
      destruct (IH h' Hs Hl) as (rest & -> & Hc & Hr).
      exists rest. simpl. by rewrite decide_False.
Qed.

Lemma splitn_head c s n a l :
  splitn c s (S n) = a :: l → count_char c a = 0.
Proof.
  destruct l as [|b l].
  - revert a; induction s as [|x s IH]; intros a; simpl; [by intros [= <-]|].
    case_decide; [intros [= <- Hs]; by apply splitn_ne in Hs|].
    intros (h' & Hs & ->)%cons_head_inv; [|apply splitn_ne].
    simpl. rewrite decide_False by done. by apply IH.
  - intros Hs. by destruct (splitn_cons_inv c s n a (b :: l) Hs) as (? & _ & ? & _).
Qed.

(** No field holds the separator. *)
Lemma split_fields_no_sep c s : Forall (λ x, count_char c x = 0) (split c s).
Proof.
  induction s as [|a s IH]; simpl; [by constructor|]. case_decide; [by constructor|].
  destruct (split c s) as [|h t]; simpl; [by constructor; [simpl; rewrite decide_False|]|].
  apply Forall_cons in IH as [Hh Ht]. constructor; [|done].
  simpl. by rewrite decide_False.
Qed.

(** A character that is not in a string is in none of its fields. *)
Lemma count_char_split c d s :
  count_char c s = 0 → Forall (λ x, count_char c x = 0) (split d s).
Proof.
  induction s as [|a s IH]; simpl; [by repeat constructor|].
  case_decide as Hac; [done|]. intros Hs%IH. case_decide.
  - by constructor.
  - destruct Hs as [|h t Hh Ht]; constructor; simpl; by rewrite ?decide_False.
Qed.

(** Splitting what [join] built from separator-free fields gives them back. *)
Lemma split_join c l :
  l ≠ [] → Forall (λ x, count_char c x = 0) l → split c (join (c ::: "") l) = l.
Proof.
  induction l as [|x l IH]; [done|]. intros _ [Hx Hl]%Forall_cons.
  destruct l as [|y l]; [by apply split_count_0|].
  rewrite join_cons, str_app_cons, str_app_nil_l by done.
  rewrite split_app_sep by done. by rewrite IH.
Qed.

Lemma split_head_no_lead_digit c t h l :
  is_digit c = false → no_lead_digit t = true → split c t = h :: l →
  no_lead_digit h = true.
Proof.
  intros Hc. destruct t as [|a t]; simpl; [by intros _ [= <- _]|].
  intros Ha. case_decide; [by intros [= <- _]|].
  destruct (split c t); simpl; by intros [= <- _].
Qed.

(** ** Laws of [strip] *)

Lemma lstrip_app_ws l s : all_chars Ascii.is_space l = true → lstrip (l +:+ s) = lstrip s.
Proof.
  induction l as [|a l IH]; [done|]. simpl. intros [-> Hl]%andb_prop. by apply IH.
Qed.

Lemma lstrip_decomp s : ∃ l, s = l +:+ lstrip s ∧ all_chars Ascii.is_space l = true.
Proof.
  induction s as [|a s (l & Hs & Hl)]; [by exists ""|]. simpl.
  destruct (Ascii.is_space a) eqn:Ha; [|by exists ""].
  exists (a ::: l). simpl. by rewrite str_app_cons, Ha, Hl, <- Hs.
Qed.

Lemma lstrip_head a t s : lstrip s = a ::: t → Ascii.is_space a = false.
Proof.
  induction s as [|b s IH]; [done|]. simpl.
  destruct (Ascii.is_space b) eqn:Hb; [done|]. by intros [= <- _].
Qed.

Lemma lstrip_id a s : Ascii.is_space a = false → lstrip (a ::: s) = a ::: s.
Proof. simpl. by intros ->. Qed.

Lemma lstrip_app s r : lstrip s ≠ "" → lstrip (s +:+ r) = lstrip s +:+ r.
Proof.
  induction s as [|a s IH]; [done|]. simpl.
  by destruct (Ascii.is_space a).
Qed.

Lemma rstrip_ws r : all_chars Ascii.is_space r = true → rstrip r = "".
Proof.
  induction r as [|a r IH]; [done|]. simpl. intros [-> Hr]%andb_prop. by rewrite IH.
Qed.

Lemma rstrip_app_ws s r : all_chars Ascii.is_space r = true → rstrip (s +:+ r) = rstrip s.
Proof.
  intros Hr. induction s as [|a s IH]; simpl; [by apply rstrip_ws|]. by rewrite IH.
Qed.

Lemma rstrip_decomp s : ∃ r, s = rstrip s +:+ r ∧ all_chars Ascii.is_space r = true.
Proof.
  induction s as [|a s (r & Hs & Hr)]; [by exists ""|]. simpl.
  destruct (rstrip s) as [|b t] eqn:E.
  - rewrite str_app_nil_l in Hs. subst s. destruct (Ascii.is_space a) eqn:Ha.
    + exists (a ::: r). simpl. by rewrite Ha, Hr.
    + by exists r.
  - exists r. by rewrite str_app_cons, <- Hs.
Qed.

Lemma rstrip_cons a s : rstrip s ≠ "" → rstrip (a ::: s) = a ::: rstrip s.
Proof. simpl. by destruct (rstrip s). Qed.

Lemma rstrip_idemp s : rstrip (rstrip s) = rstrip s.
Proof.
  induction s as [|a s IH]; [done|]. simpl.
  destruct (rstrip s) as [|b t] eqn:E.
  - destruct (Ascii.is_space a) eqn:Ha; [done|]. simpl. by rewrite Ha.
  - by rewrite rstrip_cons, IH by (by rewrite IH).
Qed.

Lemma rstrip_head a s : Ascii.is_space a = false → ∃ t, rstrip (a ::: s) = a ::: t.
Proof. simpl. intros ->. destruct (rstrip s); eauto. Qed.

(** White space around a string does not change what [strip] returns. *)
Lemma strip_app_ws l s r :
  all_chars Ascii.is_space l = true → all_chars Ascii.is_space r = true →
  strip (l +:+ s +:+ r) = strip s.
Proof.
  intros Hl Hr. unfold strip. rewrite lstrip_app_ws by done.
  destruct (lstrip s) as [|a t] eqn:E.
  - destruct (lstrip_decomp s) as (l' & -> & Hl'). rewrite E, str_app_nil_r.
    rewrite lstrip_app_ws by done.
    destruct (lstrip_decomp r) as (l'' & Hr' & _). apply rstrip_ws.
    rewrite Hr', all_chars_app in Hr. by apply andb_prop in Hr as [_ ?].
  - rewrite lstrip_app, E by (by rewrite E). by apply rstrip_app_ws.
Qed.

(** [strip] removes white space and nothing else. *)
Lemma strip_decomp s :
  ∃ l r, s = l +:+ strip s +:+ r ∧
    all_chars Ascii.is_space l = true ∧ all_chars Ascii.is_space r = true.
Proof.
  destruct (lstrip_decomp s) as (l & Hs & Hl).
  destruct (rstrip_decomp (lstrip s)) as (r & Hs' & Hr).
  exists l, r. unfold strip. by rewrite <- Hs', <- Hs.
Qed.

Lemma strip_idemp s : strip (strip s) = strip s.
Proof.
  unfold strip. destruct (lstrip s) as [|a t] eqn:E; [done|].
  pose proof (lstrip_head _ _ _ E) as Ha.
  destruct (rstrip_head a t Ha) as [t' Ht']. rewrite Ht', lstrip_id by done.
  by rewrite <- Ht', rstrip_idemp.
Qed.

Lemma strip_head a t s : strip s = a ::: t → Ascii.is_space a = false.
Proof.
  unfold strip. destruct (lstrip s) as [|b u] eqn:E; [done|].
  pose proof (lstrip_head _ _ _ E) as Hb.
  destruct (rstrip_head b u Hb) as [t' ->]. by intros [= <- _].
Qed.

(** ** Laws of [findall_digits] *)

Lemma findall_digits_skip pre s :
  all_chars (λ a, negb (is_digit a)) pre = true →
  findall_digits (pre +:+ s) = findall_digits s.
Proof.
  induction pre as [|a pre IH]; [done|]. simpl.
  intros [Ha Hp]%andb_prop. apply negb_true_iff in Ha. rewrite Ha. by apply IH.
Qed.

Lemma findall_digits_digit a s :
  is_digit a = true →
  findall_digits (a ::: s) =
    if no_lead_digit s then (a ::: "") :: findall_digits s
    else cons_head a (findall_digits s).
Proof.
  intros Ha. simpl. rewrite Ha. destruct s as [|b s]; [done|].
  unfold no_lead_digit. by destruct (is_digit b).
Qed.

(** A run of digits that ends where [post] starts is the first match. *)
Lemma findall_digits_run d post :
  d ≠ "" → all_chars is_digit d = true → no_lead_digit post = true →
  findall_digits (d +:+ post) = d :: findall_digits post.
Proof.
  induction d as [|a d IH]; [done|]. intros _ Had Hp.
  apply andb_prop in Had as [Ha Hd].
  rewrite str_app_cons, findall_digits_digit by done. destruct d as [|b d].
  - by rewrite str_app_nil_l, Hp.
  - rewrite IH by done. pose proof Hd as [Hb _]%andb_prop.
    rewrite str_app_cons. simpl. by rewrite Hb.
Qed.

Lemma findall_digits_none s :
  all_chars (λ a, negb (is_digit a)) s = true ↔ findall_digits s = [].
Proof.
  induction s as [|a s IH]; [done|]. simpl. destruct (is_digit a) eqn:Ha; simpl.
  - split; [done|]. destruct s as [|b s]; [done|].
    destruct (is_digit b); [|done]. intros H. by apply cons_head_ne in H.
  - done.
Qed.

(** Every match is a string of one digit at least, and of digits only. *)
Lemma findall_digits_Forall s :
  Forall (λ d, d ≠ "" ∧ all_chars is_digit d = true) (findall_digits s).
Proof.
  induction s as [|a s IH]; simpl; [by constructor|].
  destruct (is_digit a) eqn:Ha; [|done]. destruct s as [|b s].
  - constructor; [|done]. simpl. by rewrite Ha.
  - destruct (is_digit b) eqn:Hb.
    + destruct (findall_digits (b ::: s)) as [|h t]; simpl.
      * constructor; [|done]. simpl. by rewrite Ha.
      * apply Forall_cons in IH as [[Hh1 Hh2] Ht]. constructor; [|done].
        simpl. by rewrite Ha, Hh2.
    + constructor; [|done]. simpl. by rewrite Ha.
Qed.

Lemma findall_digits_first pre d post :
  all_chars (λ a, negb (is_digit a)) pre = true →
  d ≠ "" → all_chars is_digit d = true → no_lead_digit post = true →
  findall_digits (pre +:+ d +:+ post) !! 0 = Some d.
Proof.
  intros Hpre Hd1 Hd2 Hpost.
  by rewrite findall_digits_skip, findall_digits_run.
Qed.

(** ** Laws of [readlines] and [str] *)

(** Iterating over the lines of a text loses no character. *)
Lemma concat_readlines s : concat (readlines s) = s.
Proof.
  induction s as [|a s IH]; [done|]. simpl. case_decide.
  - simpl. by rewrite IH.
  - by rewrite concat_cons_head, IH.
Qed.

Lemma readlines_line l s :
  count_char LF l = 0 → readlines (l +:+ nl +:+ s) = (l +:+ nl) :: readlines s.
Proof.
  induction l as [|a l IH]; simpl.
  - done.
  - case_decide; [done|]. intros Hl. by rewrite IH.
Qed.

(** Lines written one after the other are read back one by one. *)
Lemma readlines_lines ls :
  Forall (λ l, count_char LF l = 0) ls →
  readlines (concat ((λ l, l +:+ nl) <$> ls)) = (λ l, l +:+ nl) <$> ls.
Proof.
  induction 1 as [|l ls Hl _ IH]; [done|].
  rewrite fmap_cons, concat_cons, str_app_assoc, readlines_line by done. by rewrite IH.
Qed.

Lemma readlines_last l :
  l ≠ "" → count_char LF l = 0 → readlines l = [l].
Proof.
  induction l as [|a l IH]; [done|]. simpl. case_decide; [done|]. intros _ Hl.
  destruct l as [|b l]; [done|]. by rewrite IH.
Qed.

Lemma readlines_nonempty s : Forall (λ l, l ≠ "") (readlines s).
Proof.
  induction s as [|a s IH]; simpl; [done|]. case_decide; [by constructor|].
  destruct (readlines s); simpl; [by repeat constructor|].
  apply Forall_cons in IH as [_ ?]. by constructor.
Qed.

Lemma str_of_nat_inj : Inj (=) (=) str_of_nat.
Proof. unfold str_of_nat. apply _. Qed.

Lemma str_of_Z_inj : Inj (=) (=) str_of_Z.
Proof. unfold str_of_Z. apply _. Qed.

End Py.
