(* ===== verification/Shell.v ===== *)
(** * Shell: the words of a command line

    Every command of the plugin is a string handed to [/bin/sh -c]
    ([subprocess.Popen(..., shell=True)]).  What is run is what the shell
    reads in that string, so this file gives the first thing the shell
    does with it: token recognition and quote removal, for the part of
    the language the plugin's command lines are written in.  [tokens]
    reads a string into words and the operators [&&], [;] and the line
    feed; blanks separate words, and between single quotes every character
    stands for itself.  A string that uses anything else of the language
    (double quotes, backslash, [$], back quotes, redirections, pipes,
    patterns, comments, a single [&] or a doubled [;]) is outside the
    model: [tokens] gives [None] for it, as it does for a quote that is
    not closed.

    [render] prints tokens with every word between single quotes, and
    [tokens] reads them back. *)

From S2P Require Import Prelude PyStr.
Import Py.

Module Shell.

(** ** Tokens *)

Inductive token : Type :=
| Word (w : string)
| AndIf
| Semi
| Newline.

#[global] Instance token_eq_dec : EqDecision token.
Proof. solve_decision. Defined.

(** ** Characters *)

Definition TAB : ascii := "009"%char.
(** The single quote and the double quote. *)
Definition SQ : ascii := "'"%char.
Definition DQ : ascii := Eval cbv in ascii_of_nat 34.

(** Blanks separate words. *)
Definition is_blank (c : ascii) : bool := (c =? " ")%char || (c =? TAB)%char.

(** The characters that start an operator the model reads. *)
Definition is_operator (c : ascii) : bool := (c =? "&")%char || (c =? ";")%char || (c =? LF)%char.

(** The characters that mean something to the shell outside quotes and
    that the model does not interpret. *)
Definition specials : list ascii :=
  [DQ; "\"; "$"; "`"; "|"; "<"; ">"; "("; ")"; "*"; "?"; "["; "#"; "~"; "{"; "}"; "!"]%char.

Definition is_special (c : ascii) : bool := existsb (Ascii.eqb c) specials.

(** A character that stands for itself outside quotes. *)
Definition plain_char (c : ascii) : bool :=
  negb (is_blank c || (c =? SQ)%char || is_operator c || is_special c).

(** [plain s]: [s] written as it is, without quotes, is read as itself
    (as one word, or as nothing when it is empty). *)
Definition plain (s : string) : bool := all_chars plain_char s.

(** [quote_free s]: there is no single quote in [s]. *)
Definition quote_free (s : string) : bool := all_chars (λ c, negb (c =? SQ)%char) s.

(** ** Reading *)

(** The word being read, with one more character. *)
Fixpoint snoc (s : string) (c : ascii) : string :=
  match s with
  | "" => c ::: ""
  | a ::: s' => a ::: snoc s' c
  end.

Definition push (cur : option string) (c : ascii) : option string :=
  Some (snoc (default "" cur) c).
Arguments push _ _ /.

(** The word being read, if any, is complete. *)
Definition emit (cur : option string) (ts : list token) : list token :=
  match cur with
  | Some w => Word w :: ts
  | None => ts
  end.
Arguments emit !_ _ /.

(** Where the reader is: outside quotes, between single quotes, after a
    first [&], after a [;]. *)
Inductive state : Type := Plain | Quoted | Amp | Semicolon.

(** [lex st cur s] reads [s]; [cur] is the word read so far, [None]
    between two words. *)
Fixpoint lex (st : state) (cur : option string) (s : string) : option (list token) :=
  match s with
  | "" =>
      match st with
      | Plain | Semicolon => Some (emit cur [])
      | Quoted | Amp => None
      end
  | c ::: s' =>
      match st with
      | Quoted =>
          if (c =? SQ)%char then lex Plain cur s' else lex Quoted (push cur c) s'
      | Amp =>
          if (c =? "&")%char then cons AndIf <$> lex Plain None s' else None
      | Plain | Semicolon =>
          if (c =? SQ)%char then lex Quoted (Some (default "" cur)) s'
          else if is_blank c then emit cur <$> lex Plain None s'
          else if (c =? LF)%char then (λ ts, emit cur (Newline :: ts)) <$> lex Plain None s'
          else if (c =? ";")%char then
            match st with
            | Semicolon => None
            | _ => (λ ts, emit cur (Semi :: ts)) <$> lex Semicolon None s'
            end
          else if (c =? "&")%char then emit cur <$> lex Amp None s'
          else if is_special c then None
          else lex Plain (push cur c) s'
      end
  end.

(** What the shell reads in a command line. *)
Definition tokens (s : string) : option (list token) := lex Plain None s.

(** ** Writing *)

(** [s] between single quotes, as the plugin writes a path into a command
    line. *)
Definition quote (s : string) : string := SQ ::: s +:+ SQ ::: "".

Definition render_token (t : token) : string :=
  match t with
  | Word w => quote w
  | AndIf => "&&"
  | Semi => ";"
  | Newline => nl
  end.

(** Tokens as a command line, a blank after each. *)
Fixpoint render (ts : list token) : string :=
  match ts with
  | [] => ""
  | t :: ts' => render_token t +:+ " " ::: render ts'
  end.

(** A token the shell can be given between single quotes. *)
Definition quotable (t : token) : bool :=
  match t with
  | Word w => quote_free w
  | _ => true
  end.

(** [cur], the word being read, has no single quote in it. *)
Definition quotable_cur (cur : option string) : Prop :=
  ∀ u, cur = Some u → quote_free u = true.

(** [cur] with the characters of [w] added. *)
Definition extend (cur : option string) (w : string) : option string :=
  if truth w then Some (default "" cur +:+ w) else cur.

(** ** Facts *)

Lemma snoc_app s c : snoc s c = s +:+ c ::: "".
Proof. induction s as [|a s IH]; [done|]. simpl. by rewrite IH. Qed.

Lemma plain_char_quote_free c : plain_char c = true → (c =? SQ)%char = false.
Proof. unfold plain_char. by destruct (is_blank c), (c =? SQ)%char. Qed.

Lemma plain_quote_free s : plain s = true → quote_free s = true.
Proof.
  apply all_chars_impl. intros c Hc. by rewrite plain_char_quote_free.
Qed.

Lemma plain_app s t : plain (s +:+ t) = plain s && plain t.
Proof. apply all_chars_app. Qed.

Lemma quote_free_app s t : quote_free (s +:+ t) = quote_free s && quote_free t.
Proof. apply all_chars_app. Qed.

Lemma extend_nil cur : extend cur "" = cur.
Proof. done. Qed.

Lemma extend_cons cur c w : extend cur (c ::: w) = extend (push cur c) w.
Proof.
  unfold extend, push. rewrite snoc_app. destruct w as [|a w]; simpl; [done|].
  by rewrite str_app_assoc.
Qed.

Lemma extend_Some u w : extend (Some u) w = Some (u +:+ w).
Proof. unfold extend. destruct w; simpl; [by rewrite str_app_nil_r|done]. Qed.

Lemma extend_None w : w ≠ "" → extend None w = Some w.
Proof. by destruct w. Qed.

(** A plain character is one more character of the word. *)
Lemma lex_plain_char cur c s :
  plain_char c = true → lex Plain cur (c ::: s) = lex Plain (push cur c) s.
Proof.
  unfold plain_char, is_operator. cbn [lex].
  by destruct (c =? SQ)%char, (is_blank c), (is_special c),
    (c =? "&")%char, (c =? ";")%char, (c =? LF)%char.
Qed.

(** Plain text outside quotes goes into the word as it is. *)
Lemma lex_plain cur w s :
  plain w = true → lex Plain cur (w +:+ s) = lex Plain (extend cur w) s.
Proof.
  revert cur. induction w as [|c w IH]; intros cur; [done|].
  intros [Hc Hw]%andb_prop. rewrite str_app_cons, lex_plain_char, IH, extend_cons by done. done.
Qed.

(** Between quotes, text without a quote goes into the word as it is, up
    to the closing quote. *)
Lemma lex_quoted u w s :
  quote_free w = true → lex Quoted (Some u) (w +:+ SQ ::: s) = lex Plain (Some (u +:+ w)) s.
Proof.
  revert u. induction w as [|c w IH]; intros u.
  - intros _. by rewrite str_app_nil_r.
  - intros [Hc Hw]%andb_prop. rewrite str_app_cons. cbn [lex].
    apply negb_true_iff in Hc. rewrite Hc. unfold push. cbn [default]. rewrite IH by done.
    by rewrite snoc_app, str_app_assoc.
Qed.

(** A quoted text is a word, or the next part of one. *)
Lemma lex_quote cur w s :
  quote_free w = true →
  lex Plain cur (quote w +:+ s) = lex Plain (Some (default "" cur +:+ w)) s.
Proof.
  intros Hw. unfold quote. rewrite str_app_cons. cbn [lex Ascii.eqb Bool.eqb SQ].
  by rewrite str_app_assoc, str_app_cons, str_app_nil_l, lex_quoted.
Qed.

Lemma lex_blank cur s : lex Plain cur (" " ::: s) = emit cur <$> lex Plain None s.
Proof. done. Qed.

Lemma quote_free_snoc u c :
  quote_free u = true → (c =? SQ)%char = false → quote_free (snoc u c) = true.
Proof.
  intros Hu Hc. rewrite snoc_app, quote_free_app, Hu. unfold quote_free.
  cbn [all_chars andb]. by rewrite Hc.
Qed.

Lemma quotable_push cur c :
  quotable_cur cur → (c =? SQ)%char = false → quotable_cur (push cur c).
Proof.
  intros Hcur Hc u [= <-]. apply quote_free_snoc; [|done].
  destruct cur as [u|]; [by apply Hcur|done].
Qed.

Lemma quotable_default cur : quotable_cur cur → quotable_cur (Some (default "" cur)).
Proof. intros Hcur u [= <-]. destruct cur; [by apply Hcur|done]. Qed.

Lemma quotable_emit cur ts :
  quotable_cur cur → Forall (λ t, quotable t = true) ts →
  Forall (λ t, quotable t = true) (emit cur ts).
Proof. intros Hcur Hts. destruct cur as [u|]; [|done]. constructor; [by apply Hcur|done]. Qed.

(** No word the shell reads has a single quote in it. *)
Lemma lex_quotable st cur s ts :
  lex st cur s = Some ts → quotable_cur cur → Forall (λ t, quotable t = true) ts.
Proof.
  revert st cur ts. induction s as [|c s IH]; intros st cur ts; cbn [lex].
  { destruct st; try done; intros [= <-] Hcur; by apply quotable_emit. }
  intros Hl Hcur. assert (quotable_cur None) as Hn by done.
  destruct st; repeat case_match; simplify_option_eq;
    eauto 6 using quotable_emit, quotable_push, quotable_default, Forall_cons_2.
Qed.

Lemma tokens_quotable s ts : tokens s = Some ts → Forall (λ t, quotable t = true) ts.
Proof. intros Hs. by eapply lex_quotable. Qed.

(** After a [;] the reader goes on as before, unless a second [;] follows. *)
Lemma lex_semicolon cur c s :
  (c =? ";")%char = false → lex Semicolon cur (c ::: s) = lex Plain cur (c ::: s).
Proof. intros Hc. cbn [lex]. by rewrite Hc. Qed.

(** What is written with [render] is read back. *)
Lemma tokens_render ts :
  Forall (λ t, quotable t = true) ts → tokens (render ts) = Some ts.
Proof.
  unfold tokens. induction 1 as [|t ts Ht _ IH]; [done|]. cbn [render].
  destruct t as [w| | |]; cbn [quotable render_token] in *.
  - by rewrite lex_quote, lex_blank, IH.
  - rewrite !str_app_cons, str_app_nil_l. cbn. by rewrite IH.
  - rewrite !str_app_cons, str_app_nil_l. cbn. by rewrite IH.
  - unfold nl. rewrite !str_app_cons, str_app_nil_l. cbn. by rewrite IH.
Qed.

End Shell.
