(* ===== verification/Utf8.v ===== *)
(** * Utf8: the two codecs [process_report_type] goes through

    The standard error of cve-check-tool is a byte string that the method
    decodes with [decode('utf-8')] (twice: once inside the [try] block, once
    after it), and the text it builds from it is written to the log, which
    in Python 2 encodes it with the ASCII codec.  Both steps can raise.

    A decoded text is represented by its UTF-8 bytes: decoding a valid byte
    string gives these same bytes, a text is empty exactly when its bytes
    are, putting an ASCII [str] before or after it puts the bytes there, and
    the ASCII codec accepts it exactly when all its bytes are below 128 and
    then writes these bytes.

    [is_ascii] is the domain of the ASCII codec.  Which byte strings the
    UTF-8 codec accepts is a parameter of the development (a field of the
    environment, see [Sys]); [utf8_ok] is the validator the examples use,
    with the ranges of RFC 3629 as CPython 2.7 implements them. *)

From Stdlib Require Import ZifyN.
From S2P Require Import Prelude PyStr.
Import Py.

Module Utf8.

Local Open Scope N_scope.

(** ** Bytes *)

(** The value of a byte, between 0 and 255. *)
Definition byte (c : ascii) : N := N_of_ascii c.

(** [byte c] lies between [lo] and [hi]. *)
Definition between (lo hi : N) (c : ascii) : bool :=
  (lo <=? byte c) && (byte c <=? hi).

(** ** The ASCII codec *)

Definition is_ascii_char (c : ascii) : bool := byte c <? 128.

(** [is_ascii s]: [s.encode('ascii')] does not raise. *)
Definition is_ascii (s : string) : bool := all_chars is_ascii_char s.

(** ** A UTF-8 validator *)

(** A continuation byte, [10xxxxxx]. *)
Definition is_cont (c : ascii) : bool := between 128 191 c.

(** [utf8_ok s]: [s] is a sequence of well-formed UTF-8 sequences of one
    to four bytes: no overlong form, nothing above U+10FFFF; encoded
    surrogates are let through. *)
Fixpoint utf8_ok (s : string) : bool :=
  match s with
  | "" => true
  | c ::: s1 =>
      if is_ascii_char c then utf8_ok s1
      else if between 194 223 c then
        match s1 with
        | c1 ::: s2 => is_cont c1 && utf8_ok s2
        | _ => false
        end
      else if between 224 239 c then
        match s1 with
        | c1 ::: c2 ::: s3 =>
            is_cont c1 && is_cont c2
            && negb ((byte c =? 224) && (byte c1 <? 160))
            && utf8_ok s3
        | _ => false
        end
      else if between 240 244 c then
        match s1 with
        | c1 ::: c2 ::: c3 ::: s4 =>
            is_cont c1 && is_cont c2 && is_cont c3
            && negb ((byte c =? 240) && (byte c1 <? 144))
            && negb ((byte c =? 244) && (143 <? byte c1))
            && utf8_ok s4
        | _ => false
        end
      else false
  end.

(** The UTF-8 encoding of the code point [n], for [n] below [0x110000]. *)
Definition encode_point (n : N) : string :=
  let b (k : N) := ascii_of_N k in
  if n <? 128 then b n ::: ""
  else if n <? 2048 then b (192 + n / 64) ::: b (128 + n mod 64) ::: ""
  else if n <? 65536 then
    b (224 + n / 4096) ::: b (128 + (n / 64) mod 64) ::: b (128 + n mod 64) ::: ""
  else
    b (240 + n / 262144) ::: b (128 + (n / 4096) mod 64) ::: b (128 + (n / 64) mod 64)
    ::: b (128 + n mod 64) ::: "".

(** [u.encode('utf-8')] for a text given by its code points. *)
Definition encode (u : list N) : string := concat (encode_point <$> u).

(** ** Bytes are below 256 *)

(** [lia] knows division and remainder by a constant. *)
#[local] Ltac Zify.zify_post_hook ::= Z.div_mod_to_equations.

(** Decides the comparisons of byte values in the goal. *)
Ltac byte_cases :=
  unfold is_ascii_char, is_cont, between;
  repeat match goal with
  | |- context [?a <? ?b] => destruct (N.ltb_spec a b); try lia
  | |- context [?a <=? ?b] => destruct (N.leb_spec a b); try lia
  | |- context [?a =? ?b] => destruct (N.eqb_spec a b); try lia
  end.

Lemma byte_lt c : byte c < 256.
Proof. apply N_ascii_bounded. Qed.

Lemma byte_of_N n : n < 256 → byte (ascii_of_N n) = n.
Proof. apply N_ascii_embedding. Qed.

Lemma between_spec lo hi c : between lo hi c = true ↔ lo ≤ byte c ≤ hi.
Proof. unfold between. rewrite andb_true_iff, !N.leb_le. tauto. Qed.

Lemma is_ascii_char_spec c : is_ascii_char c = true ↔ byte c < 128.
Proof. unfold is_ascii_char. apply N.ltb_lt. Qed.

(** ** The ASCII codec *)

Lemma is_ascii_cons c s : is_ascii (c ::: s) = is_ascii_char c && is_ascii s.
Proof. reflexivity. Qed.

Lemma is_ascii_app s t : is_ascii (s +:+ t) = is_ascii s && is_ascii t.
Proof. apply all_chars_app. Qed.

(** The digits are ASCII. *)
Lemma is_digit_ascii c : is_digit c = true → is_ascii_char c = true.
Proof. unfold is_digit, Ascii.is_nat. by repeat case_match. Qed.

Lemma pretty_N_char_ascii x : is_ascii_char (pretty_N_char x) = true.
Proof. unfold pretty_N_char. by repeat case_match. Qed.

Lemma pretty_N_go_ascii x s : is_ascii s = true → is_ascii (pretty_N_go x s) = true.
Proof.
  revert s. induction (N.lt_wf_0 x) as [x _ IH]; intros s Hs.
  destruct (decide (x = 0)) as [->|]; [by rewrite pretty_N_go_0|].
  rewrite pretty_N_go_step by lia. apply IH; [lia|].
  by rewrite is_ascii_cons, pretty_N_char_ascii.
Qed.

Lemma pretty_N_ascii (x : N) : is_ascii (pretty x) = true.
Proof.
  unfold pretty, pretty_N. case_decide; [done|]. by apply pretty_N_go_ascii.
Qed.

(** [str(n)] is ASCII, whatever the integer. *)
Lemma str_of_Z_ascii z : is_ascii (str_of_Z z) = true.
Proof.
  unfold str_of_Z, pretty, pretty_Z. destruct z as [|p|p]; [done|apply pretty_N_ascii|].
  rewrite is_ascii_app. apply pretty_N_ascii.
Qed.

Lemma str_of_nat_ascii n : is_ascii (str_of_nat n) = true.
Proof. apply pretty_N_ascii. Qed.

(** ** The validator, sequence by sequence *)

Lemma utf8_ok_1 c s : byte c < 128 → utf8_ok (c ::: s) = utf8_ok s.
Proof. intros. cbn [utf8_ok]. by byte_cases. Qed.

Lemma utf8_ok_2 c c1 s :
  194 ≤ byte c ≤ 223 → 128 ≤ byte c1 ≤ 191 →
  utf8_ok (c ::: c1 ::: s) = utf8_ok s.
Proof. intros. cbn [utf8_ok]. by byte_cases. Qed.

Lemma utf8_ok_3 c c1 c2 s :
  224 ≤ byte c ≤ 239 → 128 ≤ byte c1 ≤ 191 → 128 ≤ byte c2 ≤ 191 →
  (byte c = 224 → 160 ≤ byte c1) →
  utf8_ok (c ::: c1 ::: c2 ::: s) = utf8_ok s.
Proof. intros. cbn [utf8_ok]. by byte_cases. Qed.

Lemma utf8_ok_4 c c1 c2 c3 s :
  240 ≤ byte c ≤ 244 → 128 ≤ byte c1 ≤ 191 → 128 ≤ byte c2 ≤ 191 →
  128 ≤ byte c3 ≤ 191 →
  (byte c = 240 → 144 ≤ byte c1) → (byte c = 244 → byte c1 ≤ 143) →
  utf8_ok (c ::: c1 ::: c2 ::: c3 ::: s) = utf8_ok s.
Proof. intros. cbn [utf8_ok]. by byte_cases. Qed.

(** A byte that starts no sequence: a continuation byte, [0xC0], [0xC1]
    or one above [0xF4]. *)
Lemma utf8_ok_bad_start c s :
  128 ≤ byte c ≤ 193 ∨ 245 ≤ byte c → utf8_ok (c ::: s) = false.
Proof. intros. cbn [utf8_ok]. by byte_cases. Qed.

(** Every ASCII string is valid UTF-8. *)
Lemma utf8_ok_ascii s : is_ascii s = true → utf8_ok s = true.
Proof.
  induction s as [|c s IH]; [done|]. rewrite is_ascii_cons.
  intros [Hc%is_ascii_char_spec Hs]%andb_prop. rewrite utf8_ok_1; auto.
Qed.

(** A string stays as valid as it is with an ASCII string before it. *)
Lemma utf8_ok_ascii_app s t : is_ascii s = true → utf8_ok (s +:+ t) = utf8_ok t.
Proof.
  induction s as [|c s IH]; [done|]. rewrite is_ascii_cons, str_app_cons.
  intros [Hc%is_ascii_char_spec Hs]%andb_prop. rewrite utf8_ok_1; auto.
Qed.

(** The validator accepts the encoding of every code point. *)
Lemma utf8_ok_encode_point n s :
  n < 1114112 → utf8_ok (encode_point n +:+ s) = utf8_ok s.
Proof.
  intros Hn. unfold encode_point.
  repeat case_match; rewrite ?N.ltb_lt, ?N.ltb_ge in *; rewrite ?str_app_cons, str_app_nil_l;
    [apply utf8_ok_1|apply utf8_ok_2|apply utf8_ok_3|apply utf8_ok_4];
    rewrite ?byte_of_N by lia; lia.
Qed.

Lemma utf8_ok_encode u : Forall (λ n, n < 1114112) u → utf8_ok (encode u) = true.
Proof.
  unfold encode. induction 1 as [|n u Hn _ IH]; [done|].
  by rewrite fmap_cons, concat_cons, utf8_ok_encode_point.
Qed.

End Utf8.
