(* ===== verification/PatchList.v ===== *)
(** * PatchList: [ISA_CVEChecker.process_patch_list]

    The method turns the patch file names of a package into the list of
    CVE identifiers the patches claim to fix, written [" CVE-<year>-<number>"]
    one after the other.  Its loop body is [process_patch]; the two
    [partition] attempts are [cve_partition] and the guarded indexing of the
    [try] block is [cve_id].

    The theorems give the loop as a map-and-concatenate, the shape of every
    identifier it emits, what it does with a conventional patch name and with
    a name that mentions no CVE. *)

From S2P Require Import Prelude PyStr.
Import Py.

Module PatchList.

(** The two [partition] calls: ["cve"] first, ["CVE"] if the first finds
    nothing; [None] is the [continue] of a name with neither. *)
Definition cve_partition (patch : string) : option (string * string * string) :=
  let patch1 := partition patch "cve" in
  if decide (patch1.1.1 = patch) then
    (* no cve substring, try CVE *)
    let patch1 := partition patch "CVE" in
    if decide (patch1.1.1 = patch) then None else Some patch1
  else Some patch1.

(** The body of the [try]: [patchstripped[1]], [patchstripped[2]] and
    [re.findall('\d+', _)[0]] each raise [IndexError] when out of range;
    [None] is that exception. *)
Definition cve_id (patchstripped : list string) : option string :=
  year ← patchstripped !! 1;
  field ← patchstripped !! 2;
  number ← findall_digits field !! 0;
  Some (" CVE-" +:+ year +:+ "-" +:+ number).

(** One iteration of [for patch in patch_files], on the accumulator
    [patch_info]. *)
Definition process_patch (patch_info patch : string) : string :=
  match cve_partition patch with
  | None => patch_info
  | Some patch1 =>
      let patchstripped := split "-" patch1.2 in
      match cve_id patchstripped with
      | Some id => patch_info +:+ id
      | None => patch_info
      end
  end.

Definition process_patch_list (patch_files : list string) : string :=
  foldl process_patch "" patch_files.

(** ** Reference definitions *)

(** What one patch contributes. *)
Definition patch_tag (patch : string) : string := process_patch "" patch.

(** [cve_token t]: [t] is [" CVE-" year "-" number] with a number of one
    digit at least and a year that holds no dash. *)
Definition cve_token (t : string) : Prop :=
  ∃ year number,
    t = " CVE-" +:+ year +:+ "-" +:+ number ∧
    count_char "-" year = 0 ∧
    number ≠ "" ∧ all_chars is_digit number = true.

(** ** The loop as a map *)

Lemma process_patch_acc acc patch :
  process_patch acc patch = acc +:+ patch_tag patch.
Proof.
  unfold patch_tag, process_patch. destruct (cve_partition patch) as [p|].
  - destruct (cve_id _); [reflexivity|by rewrite str_app_nil_r].
  - by rewrite str_app_nil_r.
Qed.

Lemma foldl_process_patch acc ps :
  foldl process_patch acc ps = acc +:+ concat (patch_tag <$> ps).
Proof.
  revert acc; induction ps as [|p ps IH]; intros acc; simpl.
  - by rewrite str_app_nil_r.
  - by rewrite IH, process_patch_acc, str_app_assoc.
Qed.

(** C39. [process_patch_list] returns the contributions of the patches, each
    computed on its own by [patch_tag], one after the other in the order of
    [patch_files]: the accumulating loop is a map followed by a
    concatenation. *)
Theorem process_patch_list_concat ps :
  process_patch_list ps = concat (patch_tag <$> ps).
Proof. unfold process_patch_list. by rewrite foldl_process_patch, str_app_nil_l. Qed.

(** The result for two lists of patches put together is the result for
    the first followed by the result for the second. *)
Theorem process_patch_list_app ps qs :
  process_patch_list (ps ++ qs) = process_patch_list ps +:+ process_patch_list qs.
Proof.
  unfold process_patch_list.
  by rewrite !foldl_process_patch, !str_app_nil_l, fmap_app, concat_app.
Qed.

(** ** Which names are skipped, which are read *)

Lemma cve_partition_None patch :
  cve_partition patch = None ↔ ¬ occurs "cve" patch ∧ ¬ occurs "CVE" patch.
Proof.
  unfold cve_partition. rewrite <- !(partition_fst_eq patch) by done.
  repeat case_decide; split; (done || by intros []).
Qed.

Lemma cve_partition_lower patch b a :
  find_split "cve" patch = Some (b, a) → cve_partition patch = Some (b, "cve", a).
Proof.
  intros E. unfold cve_partition. rewrite (partition_found _ _ _ _ E). simpl.
  rewrite decide_False; [done|]. by apply (find_split_shorter "cve" patch b a).
Qed.

Lemma cve_partition_upper patch b a :
  find_split "cve" patch = None → find_split "CVE" patch = Some (b, a) →
  cve_partition patch = Some (b, "CVE", a).
Proof.
  intros E1 E2. unfold cve_partition.
  rewrite (partition_not_found _ _ E1), (partition_found _ _ _ _ E2). simpl.
  rewrite decide_True by done.
  rewrite decide_False; [done|]. by apply (find_split_shorter "CVE" patch b a).
Qed.

(** What [cve_partition] returns is the leftmost occurrence of one of the
    two keys. *)
Lemma cve_partition_Some patch p :
  cve_partition patch = Some p →
  ∃ key, (key = "cve" ∨ key = "CVE") ∧ p.1.2 = key ∧
    find_split key patch = Some (p.1.1, p.2).
Proof.
  destruct (find_split "cve" patch) as [[b a]|] eqn:E1.
  - rewrite (cve_partition_lower _ _ _ E1). intros [= <-]. eauto.
  - destruct (find_split "CVE" patch) as [[b a]|] eqn:E2.
    + rewrite (cve_partition_upper _ _ _ E1 E2). intros [= <-]. eauto 6.
    + intros H. exfalso. revert H.
      rewrite (proj2 (cve_partition_None patch)); [done|].
      by rewrite <- !find_split_None.
Qed.

Lemma cve_id_Some l id :
  cve_id l = Some id ↔
  ∃ year field number, l !! 1 = Some year ∧ l !! 2 = Some field ∧
    findall_digits field !! 0 = Some number ∧
    id = " CVE-" +:+ year +:+ "-" +:+ number.
Proof.
  unfold cve_id. split.
  - destruct (l !! 1) as [year|]; [|done]. destruct (l !! 2) as [field|]; [|done].
    simpl. destruct (findall_digits field !! 0) as [number|] eqn:Hn; [|done].
    intros [= <-]. by exists year, field, number.
  - intros (year & field & number & Hy & Hf & Hn & ->).
    rewrite Hy, Hf. simpl. by rewrite Hn.
Qed.

Lemma cve_id_token s id :
  cve_id (split "-" s) = Some id → cve_token id.
Proof.
  intros (year & field & number & Hy & Hf & Hn & ->)%cve_id_Some.
  exists year, number. split; [done|].
  pose proof (Forall_lookup_1 _ _ _ _ (split_fields_no_sep "-" s) Hy) as Hs.
  by pose proof (Forall_lookup_1 _ _ _ _ (findall_digits_Forall field) Hn) as Hd.
Qed.

Lemma patch_tag_shape patch : patch_tag patch = "" ∨ cve_token (patch_tag patch).
Proof.
  unfold patch_tag, process_patch. destruct (cve_partition patch) as [p|]; [|by left].
  destruct (cve_id _) as [id|] eqn:E; [|by left]. right. by eapply cve_id_token.
Qed.

(** C22. Whatever the patch names are, the result is a sequence of
    identifiers of the shape [" CVE-<year>-<number>"], the number made of
    digits and not empty, the year free of dashes, and there is at most one
    identifier per patch. *)
Theorem process_patch_list_tokens ps :
  ∃ ts, process_patch_list ps = concat ts ∧ Forall cve_token ts ∧
    length ts ≤ length ps.
Proof.
  unfold process_patch_list. rewrite foldl_process_patch, str_app_nil_l.
  induction ps as [|p ps (ts & Hc & Ht & Hl)]; [by exists []|].
  rewrite fmap_cons, concat_cons, Hc. destruct (patch_tag_shape p) as [Hp|Hp].
  - exists ts. rewrite Hp. split_and!; [done|done|simpl; lia].
  - exists (patch_tag p :: ts). split_and!; [done|by constructor|simpl; lia].
Qed.

(** ** The characters of the result *)

(** A character that is no digit and none of [" CVE-"] is in the result
    only if it is in a patch name. *)
Lemma patch_tag_chars c patch :
  is_digit c = false → count_char c " CVE-" = 0 →
  count_char c patch = 0 → count_char c (patch_tag patch) = 0.
Proof.
  intros Hd Hk Hp. unfold patch_tag, process_patch.
  destruct (cve_partition patch) as [p|] eqn:E; [|done].
  destruct (cve_partition_Some _ _ E) as (key & _ & _ & ->%find_split_Some).
  rewrite !count_char_app in Hp.
  destruct (cve_id _) as [id|] eqn:Hid; [|done].
  apply cve_id_Some in Hid as (year & field & number & Hy & _ & Hn & ->).
  pose proof (Forall_lookup_1 _ _ _ _ (count_char_split c "-" p.2 ltac:(lia)) Hy).
  pose proof (Forall_lookup_1 _ _ _ _ (findall_digits_Forall _) Hn) as [_ Hnum].
  rewrite str_app_nil_l, !count_char_app, (all_chars_count_0 is_digit c number) by done.
  simpl in *. repeat case_decide; simplify_eq; lia.
Qed.

Lemma process_patch_list_chars c ps :
  is_digit c = false → count_char c " CVE-" = 0 →
  Forall (λ p, count_char c p = 0) ps → count_char c (process_patch_list ps) = 0.
Proof.
  intros Hd Hk Hps. unfold process_patch_list. rewrite foldl_process_patch, str_app_nil_l.
  induction Hps as [|p ps Hp _ IH]; [done|].
  by rewrite fmap_cons, concat_cons, count_char_app, patch_tag_chars, IH.
Qed.

(** ** Names without and with a CVE *)

(** A patch whose name holds neither ["cve"] nor ["CVE"] adds nothing
    to [patch_info]. *)
Theorem process_patch_no_cve acc patch :
  ¬ occurs "cve" patch → ¬ occurs "CVE" patch → process_patch acc patch = acc.
Proof.
  intros H1 H2. unfold process_patch.
  by rewrite (proj2 (cve_partition_None patch)).
Qed.

Lemma process_patch_no_cve_witness :
  process_patch " CVE-2015-1" "fix-build.patch" = " CVE-2015-1".
Proof. apply process_patch_no_cve; by_decide. Defined.

(** A digit run at the start of the third dash-separated field is what
    [re.findall('\d+', _)[0]] returns. *)
Lemma findall_digits_field number tail :
  number ≠ "" → all_chars is_digit number = true → no_lead_digit tail = true →
  (split "-" (number +:+ tail) !! 0) ≫= (λ field, findall_digits field !! 0)
  = Some number.
Proof.
  intros Hn Hd Ht. rewrite split_app_nosep by by apply (all_chars_count_0 is_digit).
  simpl. destruct (split "-" tail) as [|h l] eqn:E; [by apply split_ne in E|]. simpl.
  rewrite findall_digits_run; [done..|]. by eapply (split_head_no_lead_digit "-").
Qed.

Lemma split_dash_fields year rest :
  count_char "-" year = 0 →
  split "-" ("-" +:+ year +:+ "-" +:+ rest) = "" :: year :: split "-" rest.
Proof.
  intros Hy.
  change ("-" +:+ year +:+ "-" +:+ rest) with ("" +:+ "-" ::: (year +:+ "-" ::: rest)).
  by rewrite !split_app_sep.
Qed.

Lemma process_patch_id acc patch b key year number tail :
  cve_partition patch = Some (b, key, "-" +:+ year +:+ "-" +:+ number +:+ tail) →
  count_char "-" year = 0 →
  number ≠ "" → all_chars is_digit number = true → no_lead_digit tail = true →
  process_patch acc patch = acc +:+ " CVE-" +:+ year +:+ "-" +:+ number.
Proof.
  intros Hp Hy Hn Hd Ht. unfold process_patch. rewrite Hp.
  cbv beta iota zeta delta [snd]. rewrite split_dash_fields by done.
  unfold cve_id. simpl. pose proof (findall_digits_field number tail Hn Hd Ht) as Hf.
  destruct (split "-" (number +:+ tail)) as [|field l]; [done|]. simpl in *.
  by rewrite Hf.
Qed.

(** C3. A patch named [<pre>CVE-<year>-<number><tail>], where ["cve"] occurs
    nowhere, ["CVE"] does not occur earlier, the year holds no dash, the
    number is a run of digits and the tail does not go on with a digit, adds
    [" CVE-<year>-<number>"] to [patch_info]. *)
Theorem process_patch_upper acc pre year number tail :
  ¬ occurs "cve" (pre +:+ "CVE-" +:+ year +:+ "-" +:+ number +:+ tail) →
  ¬ occurs "CVE" (pre +:+ "CV") →
  count_char "-" year = 0 →
  number ≠ "" → all_chars is_digit number = true → no_lead_digit tail = true →
  process_patch acc (pre +:+ "CVE-" +:+ year +:+ "-" +:+ number +:+ tail)
  = acc +:+ " CVE-" +:+ year +:+ "-" +:+ number.
Proof.
  intros H1%find_split_None H2. apply process_patch_id with (b := pre) (key := "CVE").
  apply cve_partition_upper; [done|]. by apply (find_split_at "CV" "E").
Qed.

Lemma process_patch_upper_witness :
  process_patch "" ("0001-" +:+ "CVE-" +:+ "2015" +:+ "-" +:+ "1234" +:+ ".patch")
  = "" +:+ " CVE-" +:+ "2015" +:+ "-" +:+ "1234".
Proof. apply process_patch_upper; (by_decide || done). Defined.

(** C38. The same for the lower-case spelling [<pre>cve-<year>-<number><tail>],
    which is looked for first: nothing is asked of ["CVE"]. *)
Theorem process_patch_lower acc pre year number tail :
  ¬ occurs "cve" (pre +:+ "cv") →
  count_char "-" year = 0 →
  number ≠ "" → all_chars is_digit number = true → no_lead_digit tail = true →
  process_patch acc (pre +:+ "cve-" +:+ year +:+ "-" +:+ number +:+ tail)
  = acc +:+ " CVE-" +:+ year +:+ "-" +:+ number.
Proof.
  intros H1. apply process_patch_id with (b := pre) (key := "cve").
  apply cve_partition_lower. by apply (find_split_at "cv" "e").
Qed.

Lemma process_patch_lower_witness :
  process_patch "" ("fix-" +:+ "cve-" +:+ "CVE" +:+ "-" +:+ "2015" +:+ "-1234.patch")
  = "" +:+ " CVE-" +:+ "CVE" +:+ "-" +:+ "2015".
Proof. apply process_patch_lower; (by_decide || done). Defined.

End PatchList.
