(* ===== verification/Sys.v ===== *)
(** * Sys: the world the plugin runs in

    The plugin reads and writes files, appends to a log and runs shell
    commands.  This file models that world: the file store as a finite map
    from paths to contents, the commands run so far as a trace, the
    objects of the interpreter as a heap (the operations on it are in
    [Heap]), the exceptions of the Python runtime as values, and
    computations as functions of the world that either return or raise
    (monad [M]).

    What a shell command does is not the plugin's: it is the parameter
    [Env], an interface with one operation for running a command (which may
    fail to start, may write files, and answers with an exit status and two
    output streams), one for the text of [sys.exc_info()], one for the
    byte strings the UTF-8 codec accepts and one for the paths that can be
    opened for writing.  Theorems about the plugin hold for every [Env];
    examples instantiate it.

    [append_file] and [write_file] open a file and write to it: they raise
    [IOError], and do nothing, where the file cannot be opened.

    [decode_utf8] and [append_unicode] are the two places where a text of
    the plugin goes through a codec: the first raises [UnicodeDecodeError]
    on bytes the codec refuses, the second opens the file and raises
    [UnicodeEncodeError] on a text that is not ASCII.

    [preserves R m] says that the computation [m], whether it returns or
    raises, takes a world to one that [R] relates it to; its rules for the
    monad's combinators hold for every reflexive and transitive [R].
    [writes X m], the instance for the relation [same_outside X], says that
    [m] changes no file outside the set of paths [X]; the frame rules give
    it for each operation, and [solve_writes] applies them by the shape of
    the computation.  [Confined X] is the law of an environment whose
    commands change no file outside [X], [Healthy] that of an environment
    whose commands all start, end with status 0 and change no file,
    [AsciiValid] that of a UTF-8 codec that accepts ASCII, [Writable] that
    of an environment in which every file can be opened. *)

From S2P Require Import Prelude PyStr Utf8.
Import Py Utf8.

Module Sys.

(** ** Exceptions *)

(** The exceptions that reach the plugin's own [try] blocks or its caller. *)
Inductive exn : Type :=
| IOError (path : string)     (* [open(path, 'r')] of a file that is not there *)
| OSError (what : string)     (* [os.remove] of a missing file; a command that cannot start *)
| AttributeError (attr : string) (* a method of [None] *)
| UnicodeDecodeError (bytes : string) (* [bytes.decode('utf-8')] of invalid bytes *)
| UnicodeEncodeError (text : string). (* a text outside ASCII written to a file *)

#[global] Instance exn_eq_dec : EqDecision exn.
Proof. solve_decision. Defined.

(** ** Processes *)

(** What [Popen(...).communicate()] and [popen.returncode] give once the
    command has ended. *)
Record completed : Type := Completed {
  stdout : string;
  stderr : string;
  returncode : Z;
}.

(** ** The world *)

Record World : Type := mkWorld {
  w_files : gmap string string;  (* regular files: path to contents *)
  w_trace : list string;         (* the commands run, oldest first *)
  w_heap : gmap nat (gmap string bool);
                                 (* the objects: the instance attributes of each *)
}.

(** The environment: what running a command does, given the commands run
    before it and the files, how an exception prints, and which byte strings
    the UTF-8 codec accepts. *)
Class Env : Type := {
  exec : list string → gmap string string → string →
         (exn + completed) * gmap string string;
  exc_info : exn → string;
  utf8_valid : string → bool;  (* the byte strings [decode('utf-8')] accepts *)
  writable : string → bool;    (* the paths [open(path, 'a')] and [open(path, 'wb')] open *)
}.

(** ** Computations *)

Inductive result (A : Type) : Type :=
| Ok (a : A) (w : World)
| Raise (e : exn) (w : World).
Arguments Ok {A} a w.
Arguments Raise {A} e w.

Definition M (A : Type) : Type := World → result A.

Definition ret {A} (a : A) : M A := λ w, Ok a w.

Definition bind {A B} (m : M A) (k : A → M B) : M B :=
  λ w, match m w with
       | Ok a w' => k a w'
       | Raise e w' => Raise e w'
       end.

Definition raise {A} (e : exn) : M A := λ w, Raise e w.

(** [try_ m] is [try: m] with a bare [except:]: the exception becomes a
    value; what [m] did to the world before raising stays done. *)
Definition try_ {A} (m : M A) : M (exn + A) :=
  λ w, match m w with
       | Ok a w' => Ok (inr a) w'
       | Raise e w' => Ok (inl e) w'
       end.

(** The world after a computation, whether it returned or raised. *)
Definition world_of {A} (r : result A) : World :=
  match r with Ok _ w => w | Raise _ w => w end.

Definition value_of {A} (r : result A) : option A :=
  match r with Ok a _ => Some a | Raise _ _ => None end.

(** [M] is a monad in stdpp's sense, which gives it the notations
    [x ← m; k] and [m;; k]. *)
#[global] Instance M_ret : MRet M := @ret.
#[global] Instance M_bind : MBind M := λ A B k m, bind m k.

(** [for x in l: f x] *)
Fixpoint for_each {A} (f : A → M unit) (l : list A) : M unit :=
  match l with
  | [] => ret tt
  | x :: l' => f x;; for_each f l'
  end.

(** ** Files *)

(** The contents of the file at [path]; the empty text when there is none. *)
Definition content (w : World) (path : string) : string :=
  default "" (w_files w !! path).

(** The world with [s] as the contents of the file at [path]. *)
Definition store (path s : string) (w : World) : World :=
  mkWorld (<[path := s]> (w_files w)) (w_trace w) (w_heap w).

(** [with open(path, 'a') as f: f.write(s)]: [IOError] when the file
    cannot be opened (no such directory, no permission). *)
Definition append_file `{Env} (path s : string) : M unit :=
  λ w, if writable path then Ok tt (store path (content w path +:+ s) w)
       else Raise (IOError path) w.

(** [with open(path, 'wb') as f: f.write(s)] *)
Definition write_file `{Env} (path s : string) : M unit :=
  λ w, if writable path then Ok tt (store path s w) else Raise (IOError path) w.

(** [open(path, 'r')] and the reading of all of it. *)
Definition read_file (path : string) : M string :=
  λ w, match w_files w !! path with
       | Some s => Ok s w
       | None => Raise (IOError path) w
       end.

(** [os.path.isfile(path)] *)
Definition isfile (path : string) : M bool :=
  λ w, Ok (bool_decide (is_Some (w_files w !! path))) w.

(** The world without the file at [path]. *)
Definition unlink (path : string) (w : World) : World :=
  mkWorld (delete path (w_files w)) (w_trace w) (w_heap w).

(** [os.remove(path)] *)
Definition remove (path : string) : M unit :=
  λ w, match w_files w !! path with
       | Some _ => Ok tt (unlink path w)
       | None => Raise (OSError path) w
       end.

(** ** Commands *)

(** The world once the command [cmd] has run and left the files [fs]: a
    command reaches the files, not the objects of the interpreter. *)
Definition executed (cmd : string) (fs : gmap string string) (w : World) : World :=
  mkWorld fs (w_trace w ++ [cmd]) (w_heap w).

(** [subprocess.Popen(cmd, shell=True, stdout=PIPE, stderr=PIPE)] run to its
    end ([wait()] or [communicate()]). *)
Definition popen `{Env} (cmd : string) : M completed :=
  λ w, let '(r, fs) := exec (w_trace w) (w_files w) cmd in
       let w' := executed cmd fs w in
       match r with
       | inr p => Ok p w'
       | inl e => Raise e w'
       end.

(** ** Codecs *)

(** [bytes.decode('utf-8')]: the text, given by the same bytes, or
    [UnicodeDecodeError]. *)
Definition decode_utf8 `{Env} (bytes : string) : M string :=
  λ w, if utf8_valid bytes then Ok bytes w else Raise (UnicodeDecodeError bytes) w.

(** [with open(path, 'a') as f: f.write(text)] for a unicode [text]: the
    file is opened, which creates it, and the text goes through the ASCII
    codec. *)
Definition append_unicode `{Env} (path text : string) : M unit :=
  λ w, if writable path then
         if is_ascii text then Ok tt (store path (content w path +:+ text) w)
         else Raise (UnicodeEncodeError text) (store path (content w path) w)
       else Raise (IOError path) w.

(** The law of the UTF-8 codec the development relies on: it accepts
    ASCII. *)
Class AsciiValid `{Env} : Prop :=
  utf8_valid_ascii : ∀ s, is_ascii s = true → utf8_valid s = true.

(** An environment in which every file the plugin writes can be opened:
    the directories of the log and of the reports exist and are writable. *)
Class Writable `{Env} : Prop :=
  writable_all : ∀ path, writable path = true.

(** ** Frames *)

(** [same_outside X w w']: the files of [w'] are those of [w], the paths in
    [X] apart. *)
Definition same_outside (X : gset string) (w w' : World) : Prop :=
  ∀ path, path ∉ X → w_files w' !! path = w_files w !! path.

(** [preserves R m]: whether it returns or raises, [m] takes a world to
    one that [R] relates it to. *)
Definition preserves {A} (R : relation World) (m : M A) : Prop :=
  ∀ w, R w (world_of (m w)).

(** [writes X m]: whether it returns or raises, [m] changes no file
    outside [X]. *)
Definition writes {A} (X : gset string) (m : M A) : Prop :=
  preserves (same_outside X) m.

(** [grows path w w']: the file at [path] holds in [w'] what it held in
    [w], with more text after it or none; a file that is not there holds
    nothing. *)
Definition grows (path : string) (w w' : World) : Prop :=
  ∃ s, content w' path = content w path +:+ s.

(** An environment whose commands change no file outside [X]. *)
Class Confined `{Env} (X : gset string) : Prop :=
  exec_confined : ∀ trace fs cmd path, path ∉ X → (exec trace fs cmd).2 !! path = fs !! path.

(** The world after the command [cmd]. *)
Definition ran (cmd : string) (w : World) : World := executed cmd (w_files w) w.

(** ** A scripted environment *)

(** A command that prints [out] and ends with status 0. *)
Definition ok (out : string) : exn + completed := inr (Completed out "" 0).


(** The environment in which the [i]-th command run gets the [i]-th of
    [answers] (an empty success once they are used up) and touches no
    file, and in which the files at the paths [ro] cannot be opened for
    writing. *)
Definition scripted_ro (ro : list string) (answers : list (exn + completed)) : Env := {|
  exec := λ trace fs cmd,
    (default (inr (Completed "" "" 0)) (answers !! length trace), fs);
  exc_info := λ e,
    match e with
    | IOError p => "IOError: " +:+ p
    | OSError p => "OSError: " +:+ p
    | AttributeError a => "AttributeError: " +:+ a
    | UnicodeDecodeError b => "UnicodeDecodeError: " +:+ b
    | UnicodeEncodeError t => "UnicodeEncodeError: " +:+ t
    end;
  utf8_valid := utf8_ok;
  writable := λ path, bool_decide (path ∉ ro);
|}.

(** The same, every file writable. *)
Definition scripted (answers : list (exn + completed)) : Env := scripted_ro [] answers.

(** An environment in which every command starts, writes nothing to its
    standard error, ends with status 0 and changes no file. *)
Class Healthy `{Env} : Prop :=
  exec_healthy : ∀ trace fs cmd, ∃ out, exec trace fs cmd = (ok out, fs).

(** ** Laws of the monad *)

Lemma run_bind {A B} (m : M A) (k : A → M B) w :
  (m ≫= k) w = match m w with Ok a w' => k a w' | Raise e w' => Raise e w' end.
Proof. reflexivity. Qed.

Lemma run_ret {A} (a : A) w : (mret a : M A) w = Ok a w.
Proof. reflexivity. Qed.

Lemma bind_ret_l {A B} (a : A) (k : A → M B) w : ((mret a : M A) ≫= k) w = k a w.
Proof. reflexivity. Qed.

Lemma bind_ret_r {A} (m : M A) w : (m ≫= mret) w = m w.
Proof. rewrite run_bind. by destruct (m w). Qed.

Lemma bind_assoc {A B C} (m : M A) (k : A → M B) (h : B → M C) w :
  ((m ≫= k) ≫= h) w = (m ≫= λ x, k x ≫= h) w.
Proof. rewrite !run_bind. by destruct (m w). Qed.

Lemma bind_Ok {A B} (m : M A) (k : A → M B) w a w' :
  m w = Ok a w' → (m ≫= k) w = k a w'.
Proof. rewrite run_bind. by intros ->. Qed.

Lemma bind_Raise {A B} (m : M A) (k : A → M B) w e w' :
  m w = Raise e w' → (m ≫= k) w = Raise e w'.
Proof. rewrite run_bind. by intros ->. Qed.

(** [try_] never raises. *)
Lemma try_Ok {A} (m : M A) w : ∃ r w', try_ m w = Ok r w'.
Proof. unfold try_. destruct (m w); eauto. Qed.

(** ** Laws of the file store *)

Section Opens.
Context `{HE : Env}.

Lemma run_append_ok path s w :
  writable path = true →
  append_file path s w = Ok tt (store path (content w path +:+ s) w).
Proof. unfold append_file. by intros ->. Qed.

Lemma run_write_ok path s w :
  writable path = true → write_file path s w = Ok tt (store path s w).
Proof. unfold write_file. by intros ->. Qed.

(** A file that cannot be opened: [IOError], and nothing is done. *)
Lemma run_append_ro path s w :
  writable path = false → append_file path s w = Raise (IOError path) w.
Proof. unfold append_file. by intros ->. Qed.

Lemma run_write_ro path s w :
  writable path = false → write_file path s w = Raise (IOError path) w.
Proof. unfold write_file. by intros ->. Qed.

Context {HW : Writable}.

Lemma run_append path s w :
  append_file path s w = Ok tt (store path (content w path +:+ s) w).
Proof. apply run_append_ok, writable_all. Qed.

Lemma run_write path s w : write_file path s w = Ok tt (store path s w).
Proof. apply run_write_ok, writable_all. Qed.

End Opens.

Lemma content_store path s w : content (store path s w) path = s.
Proof. unfold content, store. simpl. by rewrite lookup_insert_eq. Qed.

Lemma content_store_ne path path' s w :
  path ≠ path' → content (store path s w) path' = content w path'.
Proof. intros. unfold content, store. simpl. by rewrite lookup_insert_ne. Qed.

Lemma store_store path s t w : store path t (store path s w) = store path t w.
Proof. unfold store. simpl. by rewrite insert_insert_eq. Qed.

Lemma trace_store path s w : w_trace (store path s w) = w_trace w.
Proof. reflexivity. Qed.

Lemma files_store_ne path path' s w :
  path ≠ path' → w_files (store path s w) !! path' = w_files w !! path'.
Proof. intros. unfold store. simpl. by rewrite lookup_insert_ne. Qed.

Lemma files_store path s w : w_files (store path s w) !! path = Some s.
Proof. unfold store. simpl. by rewrite lookup_insert_eq. Qed.

(** Writing the strings of a list one after the other to a file that has
    just been written is one write of all of them. *)
Lemma for_each_append `{Env} path s l w :
  writable path = true →
  for_each (append_file path) l (store path s w)
  = Ok tt (store path (s +:+ concat l) w).
Proof.
  intros Hw.
  revert s; induction l as [|x l IH]; intros s.
  - by rewrite str_app_nil_r.
  - change (for_each (append_file path) (x :: l))
      with (append_file path x;; for_each (append_file path) l).
    rewrite run_bind, run_append_ok, content_store, store_store, IH by done.
    by rewrite concat_cons, str_app_assoc.
Qed.

(** ** Laws of commands *)

Lemma world_of_bind {A B} (m : M A) (k : A → M B) w :
  world_of ((m ≫= k) w)
  = match m w with Ok a w' => world_of (k a w') | Raise _ w' => w' end.
Proof. rewrite run_bind. by destruct (m w). Qed.

Section WithEnv.
Context `{Env}.

Lemma popen_trace cmd w : w_trace (world_of (popen cmd w)) = w_trace w ++ [cmd].
Proof. unfold popen. by destruct (exec _ _ _) as [[e|p] fs]. Qed.

Lemma popen_Ok cmd w p w' :
  popen cmd w = Ok p w' →
  exec (w_trace w) (w_files w) cmd = (inr p, w_files w') ∧
  w_trace w' = w_trace w ++ [cmd].
Proof.
  unfold popen. destruct (exec _ _ _) as [[e|p'] fs]; [done|]. by intros [= <- <-].
Qed.

Lemma popen_Raise cmd w e w' :
  popen cmd w = Raise e w' →
  exec (w_trace w) (w_files w) cmd = (inl e, w_files w') ∧
  w_trace w' = w_trace w ++ [cmd].
Proof.
  unfold popen. destruct (exec _ _ _) as [[e'|p] fs]; [|done]. by intros [= <- <-].
Qed.
End WithEnv.


(** ** Frame rules *)

#[global] Instance same_outside_equiv X : Equivalence (same_outside X).
Proof.
  split.
  - by intros w path _.
  - intros w w' H path Hp. by rewrite H.
  - intros w1 w2 w3 H12 H23 path Hp. by rewrite H23, H12.
Qed.

#[global] Instance same_outside_mono :
  Proper ((⊆) ==> (=) ==> (=) ==> impl) same_outside.
Proof. intros X Y HXY w ? <- w' ? <- H path Hp. apply H. set_solver. Qed.

#[global] Instance writes_mono {A} : Proper ((⊆) ==> (=) ==> impl) (@writes A).
Proof.
  intros X Y HXY m ? <- H w. apply (same_outside_mono X Y HXY w w eq_refl _ _ eq_refl), H.
Qed.

Lemma same_outside_store X path s w : path ∈ X → same_outside X w (store path s w).
Proof. intros Hin p Hp. apply files_store_ne. set_solver. Qed.

(** The rules of [preserves], for a relation that is reflexive and
    transitive: they follow the shape of the computation. *)
Section Preserves.
Context {A B : Type} (R : relation World) `{!PreOrder R}.

Lemma preserves_ret (a : A) : preserves R (mret a : M A).
Proof. intros w. simpl. reflexivity. Qed.

Lemma preserves_raise e : preserves R (raise e : M A).
Proof. intros w. simpl. reflexivity. Qed.

Lemma preserves_bind (m : M A) (k : A → M B) :
  preserves R m → (∀ a, preserves R (k a)) → preserves R (m ≫= k).
Proof.
  intros Hm Hk w. rewrite world_of_bind. specialize (Hm w).
  destruct (m w) as [a w1|e w1]; [|done]. etrans; [exact Hm|apply Hk].
Qed.

Lemma preserves_try (m : M A) : preserves R m → preserves R (try_ m).
Proof. intros Hm w. specialize (Hm w). unfold try_. by destruct (m w). Qed.

End Preserves.

Lemma preserves_for_each {A} R `{!PreOrder R} (f : A → M unit) l :
  (∀ a, preserves R (f a)) → preserves R (for_each f l).
Proof.
  intros Hf. induction l as [|a l IH]; [by apply preserves_ret|].
  apply preserves_bind; [done|apply Hf|by intros _].
Qed.

Lemma preserves_ext {A} R (m m' : M A) :
  (∀ w, m w = m' w) → preserves R m' → preserves R m.
Proof. intros E Hm w. rewrite E. apply Hm. Qed.

(** A computation preserves every relation that holds of the worlds its
    relation holds of. *)
Lemma preserves_impl {A} (R R' : relation World) (m : M A) :
  (∀ w w', R w w' → R' w w') → preserves R m → preserves R' m.
Proof. intros HR Hm w. apply HR, Hm. Qed.

(** The rules for [writes]. *)
Section Frame.
Context {A B : Type} (X : gset string).

Lemma writes_ret (a : A) : writes X (mret a : M A).
Proof. apply (preserves_ret (same_outside X)). Qed.

Lemma writes_raise e : writes X (raise e : M A).
Proof. apply (preserves_raise (same_outside X)). Qed.

Lemma writes_bind (m : M A) (k : A → M B) :
  writes X m → (∀ a, writes X (k a)) → writes X (m ≫= k).
Proof. apply (preserves_bind (same_outside X)). Qed.

Lemma writes_try (m : M A) : writes X m → writes X (try_ m).
Proof. apply (preserves_try (same_outside X)). Qed.

Lemma writes_for_each (f : A → M unit) l :
  (∀ a, writes X (f a)) → writes X (for_each f l).
Proof. apply (preserves_for_each (same_outside X)). Qed.

Lemma writes_ext (m m' : M A) : (∀ w, m w = m' w) → writes X m' → writes X m.
Proof. apply preserves_ext. Qed.

End Frame.

Lemma writes_append_file `{Env} X path s : path ∈ X → writes X (append_file path s).
Proof.
  intros Hin w. unfold append_file. destruct (writable path); [|done].
  by apply same_outside_store.
Qed.

Lemma writes_write_file `{Env} X path s : path ∈ X → writes X (write_file path s).
Proof.
  intros Hin w. unfold write_file. destruct (writable path); [|done].
  by apply same_outside_store.
Qed.

Lemma writes_read_file X path : writes X (read_file path).
Proof. intros w. unfold read_file. by destruct (w_files w !! path). Qed.

Lemma writes_isfile X path : writes X (isfile path).
Proof. by intros w. Qed.

Lemma writes_remove X path : path ∈ X → writes X (remove path).
Proof.
  intros Hin w. unfold remove. destruct (w_files w !! path); [|done].
  intros p Hp. simpl. apply lookup_delete_ne. set_solver.
Qed.

Lemma writes_decode_utf8 `{Env} X bytes : writes X (decode_utf8 bytes).
Proof. intros w. unfold decode_utf8. by destruct (utf8_valid bytes). Qed.

Lemma writes_append_unicode `{Env} X path text :
  path ∈ X → writes X (append_unicode path text).
Proof.
  intros Hin w. unfold append_unicode. destruct (writable path); [|done].
  destruct (is_ascii text); by apply same_outside_store.
Qed.

Lemma writes_popen `{Confined X} Y cmd : X ⊆ Y → writes Y (popen cmd).
Proof.
  intros HXY w path Hp. unfold popen.
  pose proof (exec_confined (w_trace w) (w_files w) cmd path ltac:(set_solver)) as Hc.
  by destruct (exec _ _ _) as [[e|p] fs].
Qed.

(** ** Files that only grow *)

#[global] Instance grows_preorder path : PreOrder (grows path).
Proof.
  split.
  - intros w. exists "". by rewrite str_app_nil_r.
  - intros w1 w2 w3 [s Hs] [t Ht]. exists (s +:+ t). by rewrite Ht, Hs, str_app_assoc.
Qed.

(** A computation that leaves the file as it is. *)
Lemma grows_same {A} p (m : M A) :
  (∀ w, content (world_of (m w)) p = content w p) → preserves (grows p) m.
Proof. intros Hm w. exists "". by rewrite Hm, str_app_nil_r. Qed.

Section Grows.
Context `{Env} (p : string).

(** Opening a file with the mode ['a'] keeps what is in it, whichever
    file it is. *)
Lemma grows_append_file path s : preserves (grows p) (append_file path s).
Proof.
  intros w. unfold append_file. destruct (writable path); [|reflexivity]. simpl.
  destruct (decide (path = p)) as [->|Hne].
  - exists s. by rewrite content_store.
  - exists "". by rewrite content_store_ne, str_app_nil_r.
Qed.

Lemma grows_append_unicode path text : preserves (grows p) (append_unicode path text).
Proof.
  intros w. unfold append_unicode. destruct (writable path); [|reflexivity].
  destruct (decide (path = p)) as [->|Hne]; destruct (is_ascii text); simpl.
  - exists text. by rewrite content_store.
  - exists "". by rewrite content_store, str_app_nil_r.
  - exists "". by rewrite content_store_ne, str_app_nil_r.
  - exists "". by rewrite content_store_ne, str_app_nil_r.
Qed.

(** The mode ['wb'] and [os.remove] keep every other file. *)
Lemma grows_write_file path s : path ≠ p → preserves (grows p) (write_file path s).
Proof.
  intros Hne. apply grows_same. intros w. unfold write_file.
  destruct (writable path); [|done]. by apply content_store_ne.
Qed.

Lemma grows_remove path : path ≠ p → preserves (grows p) (remove path).
Proof.
  intros Hne. apply grows_same. intros w. unfold remove.
  destruct (w_files w !! path); [|done]. unfold content. simpl. by rewrite lookup_delete_ne.
Qed.

Lemma grows_read_file path : preserves (grows p) (read_file path).
Proof. apply grows_same. intros w. unfold read_file. by destruct (w_files w !! path). Qed.

Lemma grows_isfile path : preserves (grows p) (isfile path).
Proof. by apply grows_same. Qed.

Lemma grows_decode_utf8 bytes : preserves (grows p) (decode_utf8 bytes).
Proof. apply grows_same. intros w. unfold decode_utf8. by destruct (utf8_valid bytes). Qed.

End Grows.

(** A command keeps the files it cannot reach. *)
Lemma grows_popen `{Confined X} p cmd : p ∉ X → preserves (grows p) (popen cmd).
Proof.
  intros Hp. apply grows_same. intros w. unfold popen, content.
  pose proof (exec_confined (w_trace w) (w_files w) cmd p Hp) as Hc.
  destruct (exec _ _ _) as [[e|r] fs]; simpl in *; by rewrite Hc.
Qed.

#[global] Instance scripted_ro_ascii_valid ro answers : @AsciiValid (scripted_ro ro answers).
Proof. intros s. apply utf8_ok_ascii. Qed.

#[global] Instance scripted_ascii_valid answers : @AsciiValid (scripted answers).
Proof. apply scripted_ro_ascii_valid. Qed.

#[global] Instance scripted_writable answers : @Writable (scripted answers).
Proof. by intros path. Qed.

(** ** Laws of the codecs *)

Lemma run_decode_utf8 `{Env} bytes w :
  utf8_valid bytes = true → decode_utf8 bytes w = Ok bytes w.
Proof. unfold decode_utf8. by intros ->. Qed.

Lemma run_decode_ascii `{AsciiValid} bytes w :
  is_ascii bytes = true → decode_utf8 bytes w = Ok bytes w.
Proof. intros. by apply run_decode_utf8, utf8_valid_ascii. Qed.

Lemma run_decode_invalid `{Env} bytes w :
  utf8_valid bytes = false → decode_utf8 bytes w = Raise (UnicodeDecodeError bytes) w.
Proof. unfold decode_utf8. by intros ->. Qed.

Lemma run_append_unicode `{Writable} path text w :
  is_ascii text = true →
  append_unicode path text w = Ok tt (store path (content w path +:+ text) w).
Proof. unfold append_unicode. rewrite writable_all. by intros ->. Qed.

Lemma run_append_unicode_bad `{Writable} path text w :
  is_ascii text = false →
  append_unicode path text w
  = Raise (UnicodeEncodeError text) (store path (content w path) w).
Proof. unfold append_unicode. rewrite writable_all. by intros ->. Qed.

Lemma run_append_unicode_ro `{Env} path text w :
  writable path = false → append_unicode path text w = Raise (IOError path) w.
Proof. unfold append_unicode. by intros ->. Qed.

#[global] Instance scripted_ro_confined ro answers : @Confined (scripted_ro ro answers) ∅.
Proof. by intros trace fs cmd path _. Qed.

#[global] Instance scripted_confined answers : @Confined (scripted answers) ∅.
Proof. apply scripted_ro_confined. Qed.

#[global] Instance scripted_healthy outs : @Healthy (scripted (ok <$> outs)).
Proof.
  intros trace fs cmd. unfold exec, scripted, scripted_ro. rewrite list_lookup_fmap.
  destruct (outs !! length trace); by eexists.
Qed.

Lemma popen_healthy `{Healthy} cmd w :
  ∃ out, popen cmd w = Ok (Completed out "" 0) (ran cmd w).
Proof.
  unfold popen. destruct (exec_healthy (w_trace w) (w_files w) cmd) as [out ->]. by exists out.
Qed.

Create HintDb sys discriminated.
Create Rewrite HintDb sys_rw.
#[export] Hint Rewrite @run_bind @run_ret @run_append @run_write : sys_rw.
#[export] Hint Rewrite content_store store_store trace_store files_store : sys_rw.
#[export] Hint Rewrite content_store_ne files_store_ne using done : sys_rw.

Create HintDb frame discriminated.
#[export] Hint Resolve writes_ret writes_raise writes_bind writes_try writes_for_each
  @writes_append_file @writes_write_file writes_read_file writes_isfile writes_remove
  writes_popen @writes_decode_utf8 @writes_append_unicode : frame.

#[export] Hint Extern 1 (_ ∈ _) => set_solver : frame.
#[export] Hint Extern 1 (_ ⊆ _) => set_solver : frame.

(** One step of a proof of [writes X m], by the shape of [m]. *)
Ltac writes_step :=
  match goal with
  | |- writes _ (mret _) => apply writes_ret
  | |- writes _ (raise _) => apply writes_raise
  | |- writes _ (mbind _ _) => apply writes_bind; [|intros ?]
  | |- writes _ (try_ _) => apply writes_try
  | |- writes _ (for_each _ _) => apply writes_for_each; intros ?
  | |- writes _ (append_file _ _) => apply writes_append_file
  | |- writes _ (write_file _ _) => apply writes_write_file
  | |- writes _ (read_file _) => apply writes_read_file
  | |- writes _ (isfile _) => apply writes_isfile
  | |- writes _ (remove _) => apply writes_remove
  | |- writes _ (popen _) => eapply writes_popen
  | |- writes _ (decode_utf8 _) => apply writes_decode_utf8
  | |- writes _ (append_unicode _ _) => apply writes_append_unicode
  | |- writes _ (if ?b then _ else _) => destruct b
  | |- writes _ (match ?x with _ => _ end) => destruct x
  | |- writes _ (let _ := _ in _) => cbv zeta
  | |- writes _ _ => solve [eauto with frame]
  | |- (if ?b then _ else _) ∈ _ => destruct b
  | |- _ ∈ _ => set_solver
  | |- _ ⊆ _ => set_solver
  end.
Ltac solve_writes := repeat writes_step.

Create HintDb preserves discriminated.
#[export] Hint Resolve @grows_append_file @grows_append_unicode @grows_write_file @grows_remove
  grows_read_file grows_isfile @grows_decode_utf8 @grows_popen : preserves.

(** One step of a proof of [preserves R m], by the shape of [m]; the
    operations are left to the hints of the database [preserves]. *)
Ltac preserves_step :=
  match goal with
  | |- preserves ?R (mret _) => apply (preserves_ret R)
  | |- preserves ?R (raise _) => apply (preserves_raise R)
  | |- preserves ?R (mbind _ _) => apply (preserves_bind R); [|intros ?]
  | |- preserves ?R (try_ _) => apply (preserves_try R)
  | |- preserves ?R (for_each _ _) => apply (preserves_for_each R); intros ?
  | |- preserves _ (if ?b then _ else _) => destruct b
  | |- preserves _ (match ?x with _ => _ end) => destruct x
  | |- preserves _ (let _ := _ in _) => cbv zeta
  | |- preserves _ _ => solve [eauto with preserves]
  | |- preserves _ ?m => match m with context [if ?b then _ else _] => destruct b end
  end.
Ltac solve_preserves := repeat preserves_step.

(** Closes [path ∉ {[a; b; ...]}] and [a ≠ b] from the inequalities at hand. *)
Ltac split_not_in :=
  repeat match goal with
  | H : _ ∉ _ ∪ _ |- _ => apply not_elem_of_union in H as [? ?]
  | H : _ ∉ {[ _ ]} |- _ => apply not_elem_of_singleton in H
  end.
Ltac solve_not_in :=
  split_not_in; rewrite ?not_elem_of_union, ?not_elem_of_singleton; split_and?;
  (done || by apply not_eq_sym).

End Sys.
