(* ===== verification/Trace.v ===== *)
(** * Trace: the commands a computation starts

    The world records the commands started, in order ([w_trace]).  A
    computation can only add to this record: [traces Q m] says that [m],
    whether it returns or raises, leaves the commands started before it in
    place and that the commands it adds satisfy [Q].  Two instances are
    used.  [spawns n m] bounds how many commands are added; its rules
    follow the shape of a computation, a sequence adding the bounds of its
    parts and a branch taking the larger one, and [solve_spawns] applies
    them and leaves the arithmetic to [lia].  [issues P m] says which
    commands are added: each of them is one of [P]; in a sequence the
    second part may rely on the first having returned the value it is
    given, and [solve_issues] applies the rules. *)

From S2P Require Import Prelude PyStr Utf8 Sys.
Import Py Utf8 Sys.

Module Trace.

(** [traces Q m]: [m] keeps the commands already started, and those it
    starts satisfy [Q]. *)
Definition traces {A} (Q : list string → Prop) (m : M A) : Prop :=
  ∀ w, ∃ l, w_trace (world_of (m w)) = w_trace w ++ l ∧ Q l.

(** [spawns n m]: [m] starts at most [n] commands, after those already
    started. *)
Definition spawns {A} (n : nat) (m : M A) : Prop :=
  traces (λ l, length l ≤ n) m.

(** [issues P m]: every command [m] starts is one of [P]. *)
Definition issues {A} (P : string → Prop) (m : M A) : Prop :=
  traces (Forall P) m.

(** ** Rules of [traces] *)

Section Traces.
Context {A B : Type}.
Implicit Types (m : M A) (Q : list string → Prop).

Lemma traces_weaken Q Q' m : traces Q m → (∀ l, Q l → Q' l) → traces Q' m.
Proof. intros Hm HQ w. destruct (Hm w) as (l & ? & ?). exists l. auto. Qed.

Lemma traces_ext Q m m' : (∀ w, m w = m' w) → traces Q m' → traces Q m.
Proof. intros E Hm w. rewrite E. apply Hm. Qed.

(** A computation that leaves the trace alone starts nothing. *)
Lemma traces_none Q m : Q [] → (∀ w, w_trace (world_of (m w)) = w_trace w) → traces Q m.
Proof. intros HQ Hm w. exists []. by rewrite Hm, app_nil_r. Qed.

(** A sequence: the second part runs when the first has returned. *)
Lemma traces_bind Q1 Q2 Q m (f : A → M B) :
  traces Q1 m → (∀ a w w', m w = Ok a w' → traces Q2 (f a)) →
  (∀ l, Q1 l → Q l) → (∀ l1 l2, Q1 l1 → Q2 l2 → Q (l1 ++ l2)) →
  traces Q (m ≫= f).
Proof.
  intros Hm Hf H1 H12 w. rewrite world_of_bind. destruct (Hm w) as (l & Hl & ?).
  destruct (m w) as [a w1|e w1] eqn:E; simpl in Hl.
  - destruct (Hf a w w1 E w1) as (l' & Hl' & ?). exists (l ++ l').
    rewrite Hl', Hl, app_assoc. auto.
  - exists l. auto.
Qed.

Lemma traces_try Q m : traces Q m → traces Q (try_ m).
Proof. intros Hm w. specialize (Hm w). unfold try_. by destruct (m w). Qed.

End Traces.

(** ** Rules of [spawns] *)

Section Rules.
Context {A B : Type}.
Implicit Types (m : M A) (n k : nat).

Lemma spawns_weaken n k m : spawns n m → n ≤ k → spawns k m.
Proof. intros Hm Hle. eapply traces_weaken; [exact Hm|]. simpl. lia. Qed.

Lemma spawns_ext n m m' : (∀ w, m w = m' w) → spawns n m' → spawns n m.
Proof. apply traces_ext. Qed.

(** A computation that leaves the trace alone starts nothing. *)
Lemma spawns_none m : (∀ w, w_trace (world_of (m w)) = w_trace w) → spawns 0 m.
Proof. by apply traces_none. Qed.

Lemma spawns_ret (a : A) : spawns 0 (mret a : M A).
Proof. by apply spawns_none. Qed.

Lemma spawns_raise e : spawns 0 (raise e : M A).
Proof. by apply spawns_none. Qed.

Lemma spawns_bind n k m (f : A → M B) :
  spawns n m → (∀ a, spawns k (f a)) → spawns (n + k) (m ≫= f).
Proof.
  intros Hm Hf. eapply traces_bind; [exact Hm|intros a _ _ _; apply Hf|..]; simpl.
  - lia.
  - intros l1 l2. rewrite length_app. lia.
Qed.

Lemma spawns_try n m : spawns n m → spawns n (try_ m).
Proof. apply traces_try. Qed.

Lemma spawns_if n k (b : bool) m m' :
  spawns n m → spawns k m' → spawns (n `max` k) (if b then m else m').
Proof. intros Hm Hm'. destruct b; eapply spawns_weaken; eauto; lia. Qed.

Lemma spawns_if_dec {P Q : Prop} n k (b : {P} + {Q}) m m' :
  spawns n m → spawns k m' → spawns (n `max` k) (if b then m else m').
Proof. intros Hm Hm'. destruct b; eapply spawns_weaken; eauto; lia. Qed.

End Rules.

(** A branch on a value with two shapes, and on a pair. *)
Lemma spawns_sum {A B C} n k (x : A + B) (f : A → M C) (g : B → M C) :
  (∀ a, spawns n (f a)) → (∀ b, spawns k (g b)) →
  spawns (n `max` k) (match x with inl a => f a | inr b => g b end).
Proof. intros Hf Hg. destruct x; eapply spawns_weaken; eauto; lia. Qed.

Lemma spawns_option {A C} n k (x : option A) (f : A → M C) (g : M C) :
  (∀ a, spawns n (f a)) → spawns k g →
  spawns (n `max` k) (match x with Some a => f a | None => g end).
Proof. intros Hf Hg. destruct x; eapply spawns_weaken; eauto; lia. Qed.

Lemma spawns_prod {A B C} n (x : A * B) (f : A → B → M C) :
  (∀ a b, spawns n (f a b)) → spawns n (let '(a, b) := x in f a b).
Proof. intros Hf. by destruct x. Qed.

Lemma spawns_for_each {A} (f : A → M unit) l :
  (∀ a, spawns 0 (f a)) → spawns 0 (for_each f l).
Proof.
  intros Hf. induction l as [|a l IH]; [apply spawns_ret|].
  apply (spawns_bind 0 0); [apply Hf|by intros _].
Qed.

(** ** Files and codecs start nothing; a command is one command *)

Lemma spawns_append_file `{Env} path s : spawns 0 (append_file path s).
Proof. apply spawns_none. intros w. unfold append_file. by destruct (writable path). Qed.

Lemma spawns_write_file `{Env} path s : spawns 0 (write_file path s).
Proof. apply spawns_none. intros w. unfold write_file. by destruct (writable path). Qed.

Lemma spawns_read_file path : spawns 0 (read_file path).
Proof. apply spawns_none. intros w. unfold read_file. by destruct (w_files w !! path). Qed.

Lemma spawns_isfile path : spawns 0 (isfile path).
Proof. by apply spawns_none. Qed.

Lemma spawns_remove path : spawns 0 (remove path).
Proof. apply spawns_none. intros w. unfold remove. by destruct (w_files w !! path). Qed.

Lemma spawns_append_unicode `{Env} path text : spawns 0 (append_unicode path text).
Proof.
  apply spawns_none. intros w. unfold append_unicode.
  by destruct (writable path), (is_ascii text).
Qed.

Lemma spawns_decode_utf8 `{Env} bytes : spawns 0 (decode_utf8 bytes).
Proof. apply spawns_none. intros w. unfold decode_utf8. by destruct (utf8_valid bytes). Qed.

Lemma spawns_popen `{Env} cmd : spawns 1 (popen cmd).
Proof. intros w. exists [cmd]. by rewrite popen_trace. Qed.

(** What [spawns] promises about the length of the trace. *)
Lemma spawns_length {A} n (m : M A) w :
  spawns n m → length (w_trace w) ≤ length (w_trace (world_of (m w))) ≤ length (w_trace w) + n.
Proof. intros Hm. destruct (Hm w) as (l & -> & ?). rewrite length_app. lia. Qed.

(** The commands started before stay where they are. *)
Lemma spawns_prefix {A} n (m : M A) w :
  spawns n m → w_trace w `prefix_of` w_trace (world_of (m w)).
Proof. intros Hm. destruct (Hm w) as (l & -> & ?). by apply prefix_app_r. Qed.

Create HintDb trace discriminated.
#[export] Hint Resolve @spawns_append_file @spawns_write_file spawns_read_file spawns_isfile
  spawns_remove @spawns_append_unicode @spawns_decode_utf8 @spawns_popen : trace.

(** One step of a proof of [spawns ?n m], by the shape of [m]; the bound
    is found on the way. *)
Ltac spawns_step :=
  match goal with
  | |- spawns _ (mret _) => apply spawns_ret
  | |- spawns _ (raise _) => apply spawns_raise
  | |- spawns _ (mbind _ _) => eapply spawns_bind; [|intros ?]
  | |- spawns _ (try_ _) => apply spawns_try
  | |- spawns _ (for_each _ _) => apply spawns_for_each; intros ?
  | |- spawns _ (if ?b then _ else _) => first [eapply spawns_if|eapply spawns_if_dec]
  | |- spawns _ (match _ with inl _ => _ | inr _ => _ end) =>
      eapply spawns_sum; intros ?
  | |- spawns _ (match _ with Some _ => _ | None => _ end) =>
      eapply spawns_option; [intros ?|]
  | |- spawns _ (let '(_, _) := _ in _) => eapply spawns_prod; intros ? ?
  | |- spawns _ (let _ := _ in _) => cbv zeta
  | |- spawns _ _ => solve [eauto with trace]
  end.

(** Proves [spawns n m] for a given [n]. *)
Ltac solve_spawns :=
  eapply spawns_weaken; [repeat spawns_step|simpl; lia].

(** ** Rules of [issues] *)

Section Issues.
Context {A B : Type} (P : string → Prop).
Implicit Types (m : M A).

Lemma issues_weaken (P' : string → Prop) m : issues P' m → (∀ c, P' c → P c) → issues P m.
Proof. intros Hm HP. eapply traces_weaken; [exact Hm|]. intros l Hl. by eapply Forall_impl. Qed.

Lemma issues_ext m m' : (∀ w, m w = m' w) → issues P m' → issues P m.
Proof. apply traces_ext. Qed.

Lemma issues_none m : (∀ w, w_trace (world_of (m w)) = w_trace w) → issues P m.
Proof. by apply traces_none. Qed.

Lemma issues_ret (a : A) : issues P (mret a : M A).
Proof. by apply issues_none. Qed.

Lemma issues_raise e : issues P (raise e : M A).
Proof. by apply issues_none. Qed.

(** In a sequence the second part is given a value the first has
    returned. *)
Lemma issues_bind m (f : A → M B) :
  issues P m → (∀ a w w', m w = Ok a w' → issues P (f a)) → issues P (m ≫= f).
Proof.
  intros Hm Hf. eapply traces_bind; [exact Hm|exact Hf|done|].
  intros l1 l2 H1 H2. by apply Forall_app.
Qed.

Lemma issues_try m : issues P m → issues P (try_ m).
Proof. apply traces_try. Qed.

End Issues.

Lemma issues_for_each {A} P (f : A → M unit) l :
  (∀ a, issues P (f a)) → issues P (for_each f l).
Proof.
  intros Hf. induction l as [|a l IH]; [apply issues_ret|].
  apply issues_bind; [apply Hf|by intros _ _ _ _].
Qed.

(** A computation that starts nothing issues nothing. *)
Lemma spawns_0_issues {A} P (m : M A) : spawns 0 m → issues P m.
Proof.
  intros Hm. eapply traces_weaken; [exact Hm|]. simpl. intros [|c l] Hl; [done|simpl in Hl; lia].
Qed.

Lemma issues_popen `{Env} (P : string → Prop) cmd : P cmd → issues P (popen cmd).
Proof. intros HP w. exists [cmd]. rewrite popen_trace. split; [done|]. by constructor. Qed.

(** What [issues] promises of the trace. *)
Lemma issues_trace {A} P (m : M A) w :
  issues P m → ∃ l, w_trace (world_of (m w)) = w_trace w ++ l ∧ Forall P l.
Proof. intros Hm. apply Hm. Qed.

(** One step of a proof of [issues P m], by the shape of [m]; what is
    left is that the commands of [m] are among [P].  The values a
    sequence hands on are kept with the equations that say where they
    come from. *)
Ltac issues_step :=
  match goal with
  | |- issues _ (mret _) => apply issues_ret
  | |- issues _ (raise _) => apply issues_raise
  | |- issues _ (mbind _ _) => apply issues_bind; [|intros ? ? ? ?]
  | |- issues _ (try_ _) => apply issues_try
  | |- issues _ (for_each _ _) => apply issues_for_each; intros ?
  | |- issues _ (popen _) => apply issues_popen
  | |- issues _ (if ?b then _ else _) => destruct b
  | |- issues _ (let '(_, _) := ?x in _) => destruct x
  | |- issues _ (match ?x with _ => _ end) => destruct x
  | |- issues _ (let _ := _ in _) => cbv zeta
  | |- issues _ _ => solve [apply spawns_0_issues; eauto with trace]
  | |- issues _ _ => solve [eauto with trace]
  end.
Ltac solve_issues := repeat issues_step.

End Trace.
