(* ===== verification/Heap.v ===== *)
(** * Heap: the objects of the interpreter and their attributes

    A method of the plugin works on [self], an object that the callbacks
    reach through the global [CVEChecker]: what a method assigns to an
    attribute of [self] is there for the next call, also when the method
    goes on to raise.  The world therefore holds the objects ([w_heap]): an
    object is a number, and the heap gives the instance attributes it has
    been assigned.

    [new_object] is the creation of an object, with no instance attribute
    yet; [getattr l a d] is [obj.a] where the class of the object gives
    [a] the value [d], which is what the lookup finds as long as the
    instance has no attribute [a] of its own; [setattr l a b] is
    [obj.a = b].

    After the operations come their laws (an assignment is read back, it
    leaves the other attributes and the other objects alone, a new object
    is one that was not there and has no attribute), the rules that files
    and commands do not reach the heap ([keeps_heap], [solve_keeps]), and
    the frame and trace rules of the three operations. *)

From S2P Require Import Prelude PyStr Utf8 Sys Trace.
Import Py Utf8 Sys Trace.

Module Heap.

(** ** Objects *)

(** The instance attribute [a] of the object [l] in [w], when it has one. *)
Definition attr_of (w : World) (l : nat) (a : string) : option bool :=
  w_heap w !! l ≫= (.!! a).

(** The world with [heap] for its objects. *)
Definition with_heap (heap : gmap nat (gmap string bool)) (w : World) : World :=
  mkWorld (w_files w) (w_trace w) heap.

(** The world in which the attribute [a] of the object [l] is [b]. *)
Definition assigned (l : nat) (a : string) (b : bool) (w : World) : World :=
  with_heap (<[l := <[a := b]> (default ∅ (w_heap w !! l))]> (w_heap w)) w.

(** The object the next creation gives. *)
Definition next_object (w : World) : nat := fresh (dom (w_heap w)).

(** The world with one more object, which has no attribute. *)
Definition allocated (w : World) : World :=
  with_heap (<[next_object w := ∅]> (w_heap w)) w.

(** The creation of an object: its identity. *)
Definition new_object : M nat :=
  λ w, Ok (next_object w) (allocated w).

(** [obj.a], for an attribute to which the class gives the value [d]. *)
Definition getattr (l : nat) (a : string) (d : bool) : M bool :=
  λ w, Ok (default d (attr_of w l a)) w.

(** [obj.a = b] *)
Definition setattr (l : nat) (a : string) (b : bool) : M unit :=
  λ w, Ok tt (assigned l a b w).

(** [same_heap w w']: the objects of [w'] are those of [w], with the
    same attributes. *)
Definition same_heap (w w' : World) : Prop := w_heap w' = w_heap w.

(** [keeps_heap m]: whether it returns or raises, [m] leaves every object
    as it is. *)
Definition keeps_heap {A} (m : M A) : Prop := preserves same_heap m.

(** [live l w]: the object [l] has been created. *)
Definition live (l : nat) (w : World) : Prop := is_Some (w_heap w !! l).

(** ** Laws of attributes *)

Lemma attr_of_assigned l a b w : attr_of (assigned l a b w) l a = Some b.
Proof. unfold attr_of, assigned. simpl. by rewrite lookup_insert_eq; simpl; rewrite lookup_insert_eq. Qed.

(** An assignment leaves the other attributes of the object alone. *)
Lemma attr_of_assigned_attr l a a' b w :
  a ≠ a' → attr_of (assigned l a b w) l a' = attr_of w l a'.
Proof.
  intros. unfold attr_of, assigned. simpl. rewrite lookup_insert_eq. simpl.
  rewrite lookup_insert_ne by done. by destruct (w_heap w !! l).
Qed.

(** An assignment leaves the other objects alone. *)
Lemma attr_of_assigned_ne l l' a a' b w :
  l ≠ l' → attr_of (assigned l a b w) l' a' = attr_of w l' a'.
Proof. intros. unfold attr_of, assigned. simpl. by rewrite lookup_insert_ne. Qed.

(** The object a creation gives was not there. *)
Lemma next_object_fresh w : w_heap w !! next_object w = None.
Proof. apply not_elem_of_dom. unfold next_object. apply is_fresh. Qed.

(** A new object has no attribute of its own. *)
Lemma attr_of_allocated w a : attr_of (allocated w) (next_object w) a = None.
Proof. unfold attr_of, allocated. simpl. by rewrite lookup_insert_eq. Qed.

(** A creation leaves the objects that are there alone. *)
Lemma attr_of_allocated_ne w l a :
  live l w → attr_of (allocated w) l a = attr_of w l a.
Proof.
  intros [d Hl]. unfold attr_of, allocated. simpl. rewrite lookup_insert_ne; [done|].
  intros <-. by rewrite next_object_fresh in Hl.
Qed.

(** The objects that are there stay there. *)
Lemma allocated_is_Some w l : live l w → live l (allocated w).
Proof.
  unfold live, allocated. intros Hl. simpl.
  destruct (decide (next_object w = l)) as [->|]; [by rewrite lookup_insert_eq|].
  by rewrite lookup_insert_ne.
Qed.

Lemma assigned_is_Some l a b w l' : live l' w → live l' (assigned l a b w).
Proof.
  unfold live, assigned. intros Hl. simpl.
  destruct (decide (l = l')) as [->|]; [by rewrite lookup_insert_eq|].
  by rewrite lookup_insert_ne.
Qed.

Lemma assigned_live l a b w : live l (assigned l a b w).
Proof. unfold live, assigned. simpl. by rewrite lookup_insert_eq. Qed.

Lemma allocated_live w : live (next_object w) (allocated w).
Proof. unfold live, allocated. simpl. by rewrite lookup_insert_eq. Qed.

Lemma live_lookup w w' l : w_heap w' !! l = w_heap w !! l → live l w → live l w'.
Proof. unfold live. by intros ->. Qed.

(** What keeps the heap keeps its objects. *)
Lemma live_heap w w' l : w_heap w' = w_heap w → live l w → live l w'.
Proof. intros E. apply live_lookup. by rewrite E. Qed.

(** Files and commands are no part of the heap. *)
Lemma attr_of_store path s w l a : attr_of (store path s w) l a = attr_of w l a.
Proof. reflexivity. Qed.

Lemma attr_of_unlink path w l a : attr_of (unlink path w) l a = attr_of w l a.
Proof. reflexivity. Qed.

Lemma attr_of_executed cmd fs w l a : attr_of (executed cmd fs w) l a = attr_of w l a.
Proof. reflexivity. Qed.

(** And the heap is no part of the files. *)
Lemma content_assigned l a b w path : content (assigned l a b w) path = content w path.
Proof. reflexivity. Qed.

Lemma content_allocated w path : content (allocated w) path = content w path.
Proof. reflexivity. Qed.

Lemma store_assigned l a b path s w :
  store path s (assigned l a b w) = assigned l a b (store path s w).
Proof. reflexivity. Qed.

Lemma store_allocated path s w : store path s (allocated w) = allocated (store path s w).
Proof. reflexivity. Qed.

(** What is known of the heap when nothing is known of the world. *)
Lemma attr_of_lookup w w' l a :
  w_heap w' !! l = w_heap w !! l → attr_of w' l a = attr_of w l a.
Proof. unfold attr_of. by intros ->. Qed.

Lemma attr_of_heap w w' l a : w_heap w' = w_heap w → attr_of w' l a = attr_of w l a.
Proof. intros E. apply attr_of_lookup. by rewrite E. Qed.


(** ** The operations in closed form *)

Lemma run_getattr l a d w : getattr l a d w = Ok (default d (attr_of w l a)) w.
Proof. reflexivity. Qed.

Lemma run_setattr l a b w : setattr l a b w = Ok tt (assigned l a b w).
Proof. reflexivity. Qed.

Lemma run_new_object w : new_object w = Ok (next_object w) (allocated w).
Proof. reflexivity. Qed.

(** What is assigned is what is read. *)
Lemma getattr_setattr l a b d w :
  (setattr l a b;; getattr l a d) w = Ok b (assigned l a b w).
Proof. rewrite run_bind, run_setattr, run_getattr. by rewrite attr_of_assigned. Qed.

(** A new object has the attributes of its class. *)
Lemma getattr_new_object a d w :
  (l ← new_object; getattr l a d) w = Ok d (allocated w).
Proof. rewrite run_bind, run_new_object, run_getattr. by rewrite attr_of_allocated. Qed.

(** ** What leaves the heap alone *)

#[global] Instance same_heap_equiv : Equivalence same_heap.
Proof.
  split; unfold same_heap.
  - done.
  - by intros w w' ->.
  - by intros w1 w2 w3 -> ->.
Qed.

Section Keeps.
Context {A B : Type}.
Implicit Types (m : M A).

Lemma keeps_ret (a : A) : keeps_heap (mret a : M A).
Proof. apply (preserves_ret same_heap). Qed.

Lemma keeps_raise e : keeps_heap (raise e : M A).
Proof. apply (preserves_raise same_heap). Qed.

Lemma keeps_bind m (k : A → M B) :
  keeps_heap m → (∀ a, keeps_heap (k a)) → keeps_heap (m ≫= k).
Proof. apply (preserves_bind same_heap). Qed.

Lemma keeps_try m : keeps_heap m → keeps_heap (try_ m).
Proof. apply (preserves_try same_heap). Qed.

Lemma keeps_for_each (f : A → M unit) l :
  (∀ a, keeps_heap (f a)) → keeps_heap (for_each f l).
Proof. apply (preserves_for_each same_heap). Qed.

Lemma keeps_ext m m' : (∀ w, m w = m' w) → keeps_heap m' → keeps_heap m.
Proof. apply preserves_ext. Qed.

End Keeps.

Lemma keeps_append_file `{Env} path s : keeps_heap (append_file path s).
Proof. intros w. unfold append_file. by destruct (writable path). Qed.

Lemma keeps_write_file `{Env} path s : keeps_heap (write_file path s).
Proof. intros w. unfold write_file. by destruct (writable path). Qed.

Lemma keeps_read_file path : keeps_heap (read_file path).
Proof. intros w. unfold read_file. by destruct (w_files w !! path). Qed.

Lemma keeps_isfile path : keeps_heap (isfile path).
Proof. by intros w. Qed.

Lemma keeps_remove path : keeps_heap (remove path).
Proof. intros w. unfold remove. by destruct (w_files w !! path). Qed.

Lemma keeps_popen `{Env} cmd : keeps_heap (popen cmd).
Proof. intros w. unfold popen. by destruct (exec _ _ _) as [[e|p] fs]. Qed.

Lemma keeps_decode_utf8 `{Env} bytes : keeps_heap (decode_utf8 bytes).
Proof. intros w. unfold decode_utf8. by destruct (utf8_valid bytes). Qed.

Lemma keeps_append_unicode `{Env} path text : keeps_heap (append_unicode path text).
Proof. intros w. unfold append_unicode. by destruct (writable path), (is_ascii text). Qed.

Lemma keeps_getattr l a d : keeps_heap (getattr l a d).
Proof. by intros w. Qed.

(** What [keeps_heap] promises about an attribute. *)
Lemma keeps_attr_of {A} (m : M A) w l a :
  keeps_heap m → attr_of (world_of (m w)) l a = attr_of w l a.
Proof. intros Hm. apply attr_of_heap, Hm. Qed.

Create HintDb heap discriminated.
#[export] Hint Resolve keeps_ret keeps_raise keeps_bind keeps_try keeps_for_each
  @keeps_append_file @keeps_write_file keeps_read_file keeps_isfile
  keeps_remove @keeps_popen @keeps_decode_utf8 @keeps_append_unicode keeps_getattr : heap.

(** One step of a proof of [keeps_heap m], by the shape of [m]. *)
Ltac keeps_step :=
  match goal with
  | |- keeps_heap (mret _) => apply keeps_ret
  | |- keeps_heap (raise _) => apply keeps_raise
  | |- keeps_heap (mbind _ _) => apply keeps_bind; [|intros ?]
  | |- keeps_heap (try_ _) => apply keeps_try
  | |- keeps_heap (for_each _ _) => apply keeps_for_each; intros ?
  | |- keeps_heap (if ?b then _ else _) => destruct b
  | |- keeps_heap (match ?x with _ => _ end) => destruct x
  | |- keeps_heap (let _ := _ in _) => cbv zeta
  | |- keeps_heap _ => solve [eauto with heap]
  end.
Ltac solve_keeps := repeat keeps_step.

(** ** The heap holds no file and starts no command *)

Lemma writes_new_object X : writes X new_object.
Proof. by intros w. Qed.

Lemma writes_getattr X l a d : writes X (getattr l a d).
Proof. by intros w. Qed.

Lemma writes_setattr X l a b : writes X (setattr l a b).
Proof. by intros w. Qed.

Lemma spawns_new_object : spawns 0 new_object.
Proof. by apply spawns_none. Qed.

Lemma spawns_getattr l a d : spawns 0 (getattr l a d).
Proof. by apply spawns_none. Qed.

Lemma spawns_setattr l a b : spawns 0 (setattr l a b).
Proof. by apply spawns_none. Qed.

Lemma grows_new_object p : preserves (grows p) new_object.
Proof. apply grows_same. intros w. apply content_allocated. Qed.

Lemma grows_getattr p l a d : preserves (grows p) (getattr l a d).
Proof. by apply grows_same. Qed.

Lemma grows_setattr p l a b : preserves (grows p) (setattr l a b).
Proof. apply grows_same. intros w. apply content_assigned. Qed.

#[export] Hint Resolve grows_new_object grows_getattr grows_setattr : preserves.
#[export] Hint Resolve writes_new_object writes_getattr writes_setattr : frame.
#[export] Hint Resolve spawns_new_object spawns_getattr spawns_setattr : trace.

End Heap.
