(* ===== verification/Raises.v ===== *)
(** * Raises: how a computation can end

    [raises P m] says that an exception that leaves the computation [m]
    is one of [P], and [returns Q m] that a value it returns is one of
    [Q]; the values that matter are those the commands print
    ([printed]), which the plugin hands on.  To begin with the
    exceptions:  The rules follow the shape of [m]: a sequence raises
    what its parts raise, [try_] raises nothing, and each operation of the
    world raises what its definition says, [IOError] for a file that
    cannot be opened or is not there, [OSError] for the removal of a file
    that is not there, the two codec errors, and for a command whatever
    the environment raises when a command cannot be started
    ([command_fails]).  [solve_raises] applies the rules and leaves the
    membership of each exception in [P] to the hints of the database
    [raises]. *)

From S2P Require Import Prelude PyStr Utf8 Sys Trace Heap.
Import Py Utf8 Sys Trace Heap.

Module Raises.

(** [raises P m]: an exception that leaves [m] is one of [P]. *)
Definition raises {A} (P : exn → Prop) (m : M A) : Prop :=
  ∀ w e w', m w = Raise e w' → P e.

(** The exceptions the environment raises for a command that cannot be
    started. *)
Definition command_fails `{Env} (e : exn) : Prop :=
  ∃ trace fs cmd, (exec trace fs cmd).1 = inl e.

(** An environment in which every command starts. *)
Class Starts `{Env} : Prop :=
  exec_starts : ∀ trace fs cmd, ∃ p, (exec trace fs cmd).1 = inr p.

(** [returns Q m]: a value that [m] returns is one of [Q]. *)
Definition returns {A} (Q : A → Prop) (m : M A) : Prop :=
  ∀ w a w', m w = Ok a w' → Q a.

(** [printed cmd out]: the environment lets the command [cmd] end with
    [out] on its standard output. *)
Definition printed `{Env} (cmd out : string) : Prop :=
  ∃ trace fs p, (exec trace fs cmd).1 = inr p ∧ stdout p = out.

(** ** Rules *)

Section Rules.
Context {A B : Type} (P : exn → Prop).
Implicit Types (m : M A).

Lemma raises_weaken (Q : exn → Prop) m : raises Q m → (∀ e, Q e → P e) → raises P m.
Proof. intros Hm HQ w e w' Hr. eapply HQ, Hm, Hr. Qed.

Lemma raises_ext m m' : (∀ w, m w = m' w) → raises P m' → raises P m.
Proof. intros E Hm w e w'. rewrite E. apply Hm. Qed.

(** A computation that always returns raises nothing. *)
Lemma raises_never m : (∀ w, ∃ a w', m w = Ok a w') → raises P m.
Proof. intros Hm w e w' Hr. destruct (Hm w) as (a & w1 & E). by rewrite E in Hr. Qed.

Lemma raises_ret (a : A) : raises P (mret a : M A).
Proof. by intros w e w'. Qed.

Lemma raises_raise e : P e → raises P (raise e : M A).
Proof. by intros He w e' w' [= <- _]. Qed.

Lemma raises_bind m (k : A → M B) :
  raises P m → (∀ a, raises P (k a)) → raises P (m ≫= k).
Proof.
  intros Hm Hk w e w'. rewrite run_bind.
  destruct (m w) as [a w1|e1 w1] eqn:E; [apply Hk|].
  intros [= <- _]. by eapply Hm.
Qed.

(** [try:] with a bare [except:] lets nothing through. *)
Lemma raises_try m : raises P (try_ m).
Proof. intros w e w'. unfold try_. by destruct (m w). Qed.

End Rules.

Lemma raises_for_each {A} P (f : A → M unit) l :
  (∀ a, raises P (f a)) → raises P (for_each f l).
Proof.
  intros Hf. induction l as [|a l IH]; [apply raises_ret|].
  apply raises_bind; [apply Hf|by intros _].
Qed.

(** ** The operations *)

Section Operations.
Context `{HE : Env} (P : exn → Prop).

Lemma raises_append_file path s :
  (writable path = false → P (IOError path)) → raises P (append_file path s).
Proof.
  intros HP w e w'. unfold append_file.
  destruct (writable path); [done|]. intros [= <- _]. by apply HP.
Qed.

Lemma raises_write_file path s :
  (writable path = false → P (IOError path)) → raises P (write_file path s).
Proof.
  intros HP w e w'. unfold write_file.
  destruct (writable path); [done|]. intros [= <- _]. by apply HP.
Qed.

Lemma raises_append_unicode path text :
  (writable path = false → P (IOError path)) →
  (is_ascii text = false → P (UnicodeEncodeError text)) →
  raises P (append_unicode path text).
Proof.
  intros HP HQ w e w'. unfold append_unicode.
  destruct (writable path); [destruct (is_ascii text); [done|]|];
    intros [= <- _]; auto.
Qed.

Lemma raises_read_file path : P (IOError path) → raises P (read_file path).
Proof.
  intros HP w e w'. unfold read_file. destruct (w_files w !! path); [done|].
  by intros [= <- _].
Qed.

Lemma raises_remove path : P (OSError path) → raises P (remove path).
Proof.
  intros HP w e w'. unfold remove. destruct (w_files w !! path); [done|].
  by intros [= <- _].
Qed.

Lemma raises_decode_utf8 bytes :
  (utf8_valid bytes = false → P (UnicodeDecodeError bytes)) →
  raises P (decode_utf8 bytes).
Proof.
  intros HP w e w'. unfold decode_utf8. destruct (utf8_valid bytes); [done|].
  intros [= <- _]. by apply HP.
Qed.

Lemma raises_popen cmd : (∀ e, command_fails e → P e) → raises P (popen cmd).
Proof.
  intros HP w e w' [Hx _]%popen_Raise. apply HP.
  exists (w_trace w), (w_files w), cmd. by rewrite Hx.
Qed.

Lemma raises_isfile path : raises P (isfile path).
Proof. by intros w e w'. Qed.

Lemma raises_getattr l a d : raises P (getattr l a d).
Proof. by intros w e w'. Qed.

Lemma raises_setattr l a b : raises P (setattr l a b).
Proof. by intros w e w'. Qed.

Lemma raises_new_object : raises P new_object.
Proof. by intros w e w'. Qed.

End Operations.

(** Where every command starts, no command fails. *)
Lemma starts_no_failure `{Starts} e : ¬ command_fails e.
Proof.
  intros (trace & fs & cmd & Hx). destruct (exec_starts trace fs cmd) as [p Hp]. congruence.
Qed.

(** What [raises] promises of an outcome. *)
Lemma raises_Raise {A} P (m : M A) w e w' : raises P m → m w = Raise e w' → P e.
Proof. intros Hm. apply Hm. Qed.

(** ** What returns *)

Section Returns.
Context {A B : Type}.
Implicit Types (m : M A).

Lemma returns_weaken (Q Q' : A → Prop) m : returns Q m → (∀ a, Q a → Q' a) → returns Q' m.
Proof. intros Hm HQ w a w' Hr. eapply HQ, Hm, Hr. Qed.

Lemma returns_ret (Q : A → Prop) a : Q a → returns Q (mret a : M A).
Proof. by intros Ha w a' w' [= <- _]. Qed.

Lemma returns_bind (Q1 : A → Prop) (Q : B → Prop) m (k : A → M B) :
  returns Q1 m → (∀ a, Q1 a → returns Q (k a)) → returns Q (m ≫= k).
Proof.
  intros Hm Hk w b w'. rewrite run_bind.
  destruct (m w) as [a w1|e w1] eqn:E; [|done]. by eapply Hk, Hm.
Qed.

(** What comes out of a [try] is what the block returned, or an
    exception. *)
Lemma returns_try (Q : A → Prop) m :
  returns Q m → returns (λ r, ∀ a, r = inr a → Q a) (try_ m).
Proof.
  intros Hm w r w'. unfold try_. destruct (m w) as [a w1|e w1] eqn:E.
  - intros [= <- _] a' [= <-]. by eapply Hm.
  - by intros [= <- _].
Qed.

End Returns.

(** Nothing is known of a value that is not looked at. *)
Lemma returns_any {A} (m : M A) : returns (λ _, True) m.
Proof. by intros w a w'. Qed.

(** A command returns what the environment lets it print. *)
Lemma returns_popen `{Env} cmd : returns (λ p, printed cmd (stdout p)) (popen cmd).
Proof.
  intros w p w' [Hx _]%popen_Ok. exists (w_trace w), (w_files w), p. by rewrite Hx.
Qed.

Create HintDb raises discriminated.
#[export] Hint Resolve raises_isfile raises_getattr raises_setattr raises_new_object : raises.
#[export] Hint Extern 1 (_ ∈ _) => set_solver : raises.

(** One step of a proof of [raises P m], by the shape of [m]; what is
    left is the membership in [P] of the exceptions of the operations. *)
Ltac raises_step :=
  match goal with
  | |- raises _ (mret _) => apply raises_ret
  | |- raises _ (raise _) => apply raises_raise
  | |- raises _ (mbind _ _) => apply raises_bind; [|intros ?]
  | |- raises _ (try_ _) => apply raises_try
  | |- raises _ (for_each _ _) => apply raises_for_each; intros ?
  | |- raises _ (append_file _ _) => apply raises_append_file; intros ?
  | |- raises _ (write_file _ _) => apply raises_write_file; intros ?
  | |- raises _ (append_unicode _ _) => apply raises_append_unicode; intros ?
  | |- raises _ (read_file _) => apply raises_read_file
  | |- raises _ (remove _) => apply raises_remove
  | |- raises _ (decode_utf8 _) => apply raises_decode_utf8; intros ?
  | |- raises _ (popen _) => apply raises_popen; intros ? ?
  | |- raises _ (if ?b then _ else _) => destruct b
  | |- raises _ (match ?x with _ => _ end) => destruct x
  | |- raises _ (let _ := _ in _) => cbv zeta
  | |- raises _ _ => solve [eauto with raises]
  | H : context [if ?b then _ else _] |- _ => destruct b
  end.
Ltac solve_raises := repeat raises_step; try solve [eauto with raises].

End Raises.
