(* ===== verification/Checker.v ===== *)
(** * Checker: the [ISA_CVEChecker] object, its construction and
    [process_package]

    [ISA_config] and [ISA_pkg] are what the ISA framework hands to the
    plugin; [ISA_CVEChecker] is the object [__init__] builds from the
    configuration.  Only its attribute [initialized] is ever assigned
    after construction: it is kept in the heap, at the object's identity
    [ref], and read and assigned there ([initialized], [set_initialized]),
    so that an assignment is there for every later call, also when the
    method that made it goes on to raise.  The other attributes travel
    with the reference.  [flag self w] is the value of the attribute in
    the world [w].

    [process_package] records one package in the batch file
    <reportdir>/cve_check_tool_pkglist_<timestamp>.faux, one line for the
    package and one for each of its aliases, each line
    [name,version,cve-ids,] and a line feed.

    An attribute that is [None] or empty in Python is the empty string or
    the empty list here: the plugin only tests such attributes for truth.

    After the methods come their closed forms for every environment
    ([init_run], [process_package_gen]: the log or the batch file may fail
    to open), what a call that returns has done, the closed form where
    every file can be opened ([process_package_run]), the theorems on each
    branch, the format of the batch file (its lines read back as written,
    a line determines its package), the files the two methods write and
    the commands they start. *)

From S2P Require Import Prelude PyStr Utf8 PatchList Sys Trace Heap Raises.
Import Py Utf8 Sys PatchList Trace Heap Raises.

Module Checker.

(** ** What the framework passes in *)

Record ISA_config : Type := mkConfig {
  cfg_proxy : string;
  cfg_cacert : string;
  cfg_reportdir : string;
  cfg_timestamp : string;
  cfg_logdir : string;
  cfg_tmp_dir : string;
}.

Record ISA_pkg : Type := mkPkg {
  name : string;
  version : string;
  patch_files : list string;
  aliases : list string;
}.

(** ** The checker object *)

Record ISA_CVEChecker : Type := mkChecker {
  ref : nat;                     (* the object; its [initialized] is in the heap *)
  proxy : string;
  cacert : string;
  reportdir : string;
  timestamp : string;
  logfile : string;
  csv_report_name : string;
  html_report_name : string;
  tmp_dir : string;
}.

(** The class attribute [initialized = False]: the value of
    [self.initialized] as long as the object has not been assigned one. *)
Definition initialized_default : bool := false.

(** [self.initialized] *)
Definition initialized (self : ISA_CVEChecker) : M bool :=
  getattr (ref self) "initialized" initialized_default.

(** [self.initialized = b] *)
Definition set_initialized (b : bool) (self : ISA_CVEChecker) : M unit :=
  setattr (ref self) "initialized" b.

(** The module constant [pkglist]. *)
Definition pkglist : string := "/cve_check_tool_pkglist".

(** [pkglist + "_" + self.timestamp + ".faux"], which four methods compute. *)
Definition pkglist_faux (self : ISA_CVEChecker) : string :=
  pkglist +:+ "_" +:+ timestamp self +:+ ".faux".

(** [self.reportdir + pkglist_faux]: the path of the batch file. *)
Definition faux_path (self : ISA_CVEChecker) : string :=
  reportdir self +:+ pkglist_faux self.

(** [with open(self.logfile, 'a') as flog: flog.write(s)] *)
Definition log `{Env} (self : ISA_CVEChecker) (s : string) : M unit :=
  append_file (logfile self) s.

(** ** [__init__] *)

(** [__init__] runs on the object the call of the class has created,
    [l]; what it gives back here is the reference with the attributes it
    has assigned. *)
Definition __init__ `{Env} (l : nat) (ISA_config : ISA_config) : M ISA_CVEChecker :=
  let self :=
    mkChecker l
      (cfg_proxy ISA_config)
      (cfg_cacert ISA_config)
      (cfg_reportdir ISA_config)
      (cfg_timestamp ISA_config)
      (cfg_logdir ISA_config +:+ "/isafw_cvelog")
      (cfg_reportdir ISA_config +:+ "/cve_report")
      (cfg_reportdir ISA_config +:+ "/cve_check")
      (cfg_tmp_dir ISA_config) in
  (* check that cve-check-tool is installed *)
  r ← try_ (popen "which cve-check-tool");
  match r with
  | inl _ =>
      log self ("error executing which cve-check-tool" +:+ nl);;
      mret self
  | inr p =>
      let output := stdout p in
      if truth output then
        set_initialized true self;;
        log self (nl +:+ "Plugin ISA_CVEChecker initialized!" +:+ nl);;
        mret self
      else
        log self ("cve-check-tool is missing!" +:+ nl);;
        log self ("Please install it from https://github.com/ikeydoherty/cve-check-tool."
                  +:+ nl);;
        mret self
  end.

(** [ISA_CVEChecker(ISA_config)], the call of the class: an object is
    created and [__init__] runs on it. *)
Definition new_ISA_CVEChecker `{Env} (ISA_config : ISA_config) : M ISA_CVEChecker :=
  l ← new_object;
  __init__ l ISA_config.

(** ** [process_package] *)

(** A line of the batch file: [n + "," + v + "," + info + ",\n"]. *)
Definition faux_line (n v info : string) : string :=
  n +:+ "," +:+ v +:+ "," +:+ info +:+ "," +:+ nl.

Definition process_package `{Env} (self : ISA_CVEChecker) (ISA_pkg : ISA_pkg)
  : M unit :=
  is_on ← initialized self;
  if is_on : bool then
    if truth (name ISA_pkg) && truth (version ISA_pkg) && truthl (patch_files ISA_pkg)
    then
      (* need to compose faux format line for cve-check-tool *)
      let cve_patch_info := process_patch_list (patch_files ISA_pkg) in
      let pkgline_faux := faux_line (name ISA_pkg) (version ISA_pkg) cve_patch_info in
      let alias_pkgs_faux :=
        (λ a, faux_line a (version ISA_pkg) cve_patch_info) <$> aliases ISA_pkg in
      append_file (faux_path self) pkgline_faux;;
      for_each (append_file (faux_path self)) alias_pkgs_faux;;
      log self (nl +:+ "pkg info: " +:+ pkgline_faux)
    else
      set_initialized false self;;
      log self ("Mandatory arguments such as pkg name, version and list of patches are not provided!"
                +:+ nl);;
      log self ("Not performing the call." +:+ nl)
  else
    log self ("Plugin hasn't initialized! Not performing the call." +:+ nl).

(** ** Reference definitions *)

(** The object [l] as [__init__] builds it from a configuration. *)
Definition of_config (ISA_config : ISA_config) (l : nat) : ISA_CVEChecker :=
  mkChecker l
    (cfg_proxy ISA_config) (cfg_cacert ISA_config) (cfg_reportdir ISA_config)
    (cfg_timestamp ISA_config)
    (cfg_logdir ISA_config +:+ "/isafw_cvelog")
    (cfg_reportdir ISA_config +:+ "/cve_report")
    (cfg_reportdir ISA_config +:+ "/cve_check")
    (cfg_tmp_dir ISA_config).

(** [wf_checker self]: [self] is an object [__init__] can have built. *)
Definition wf_checker (self : ISA_CVEChecker) : Prop :=
  ∃ ISA_config, self = of_config ISA_config (ref self).

(** The value of [self.initialized] in the world [w]. *)
Definition flag (self : ISA_CVEChecker) (w : World) : bool :=
  default initialized_default (attr_of w (ref self) "initialized").

(** The world after [self.initialized = b]. *)
Definition switched (b : bool) (self : ISA_CVEChecker) (w : World) : World :=
  assigned (ref self) "initialized" b w.

(** The world after [log self s] where the log can be opened. *)
Definition logged (self : ISA_CVEChecker) (s : string) (w : World) : World :=
  store (logfile self) (content w (logfile self) +:+ s) w.

(** The path of the XML summary. *)
Definition xml_path (self : ISA_CVEChecker) : string := csv_report_name self +:+ ".xml".

(** The files of a checker: the log, the two reports, the batch file and
    the XML summary. *)
Definition own_files (self : ISA_CVEChecker) : gset string :=
  {[ logfile self; csv_report_name self; html_report_name self;
     faux_path self; xml_path self ]}.

(** The files [process_report] opens for writing. *)
Definition report_files (self : ISA_CVEChecker) : gset string :=
  {[ logfile self; csv_report_name self; html_report_name self; xml_path self ]}.

(** The exceptions that can leave a method of the checker that opens the
    files [X] for writing: [IOError] for one of them that cannot be
    opened, or for the CSV report when it is read and is not there;
    [OSError] for the batch file when it is removed and is not there; the
    errors of the two codecs; and what the environment raises for a
    command that cannot be started. *)
Inductive escapes `{Env} (X : gset string) (self : ISA_CVEChecker) : exn → Prop :=
| escapes_open path :
    path ∈ X → writable path = false → escapes X self (IOError path)
| escapes_no_report : escapes X self (IOError (csv_report_name self))
| escapes_no_batch : escapes X self (OSError (faux_path self))
| escapes_decode bytes :
    utf8_valid bytes = false → escapes X self (UnicodeDecodeError bytes)
| escapes_encode text :
    is_ascii text = false → escapes X self (UnicodeEncodeError text)
| escapes_command e : command_fails e → escapes X self e.

(** What [__init__] writes to the log, by the outcome of the lookup of the
    tool. *)
Definition init_text (r : exn + completed) : string :=
  match r with
  | inl _ => "error executing which cve-check-tool" +:+ nl
  | inr p =>
      if truth (stdout p) then nl +:+ "Plugin ISA_CVEChecker initialized!" +:+ nl
      else "cve-check-tool is missing!" +:+ nl
           +:+ "Please install it from https://github.com/ikeydoherty/cve-check-tool."
           +:+ nl
  end.

(** Whether the lookup of the tool found it: it ran and printed
    something. *)
Definition found (r : exn + completed) : bool :=
  match r with
  | inr p => truth (stdout p)
  | inl _ => false
  end.

(** The lines [process_package] adds to the batch file for a package. *)
Definition faux_lines (ISA_pkg : ISA_pkg) : list string :=
  let info := process_patch_list (patch_files ISA_pkg) in
  faux_line (name ISA_pkg) (version ISA_pkg) info
  :: ((λ a, faux_line a (version ISA_pkg) info) <$> aliases ISA_pkg).

(** [complete ISA_pkg]: the package has a name, a version and a patch. *)
Definition complete (ISA_pkg : ISA_pkg) : bool :=
  truth (name ISA_pkg) && truth (version ISA_pkg) && truthl (patch_files ISA_pkg).

(** A line of the batch file without its line feed. *)
Definition faux_record (n v info : string) : string :=
  n +:+ "," +:+ v +:+ "," +:+ info +:+ ",".

(** The lines of a package without their line feeds. *)
Definition faux_records (ISA_pkg : ISA_pkg) : list string :=
  let info := process_patch_list (patch_files ISA_pkg) in
  faux_record (name ISA_pkg) (version ISA_pkg) info
  :: ((λ a, faux_record a (version ISA_pkg) info) <$> aliases ISA_pkg).

(** [free_of c ISA_pkg]: the character [c] is in none of the package's
    texts. *)
Definition free_of (c : ascii) (ISA_pkg : ISA_pkg) : Prop :=
  count_char c (name ISA_pkg) = 0 ∧ count_char c (version ISA_pkg) = 0 ∧
  Forall (λ p, count_char c p = 0) (patch_files ISA_pkg) ∧
  Forall (λ a, count_char c a = 0) (aliases ISA_pkg).

(** Whether [which cve-check-tool] starts and prints something in [w]. *)
Definition tool_found `{Env} (w : World) : bool :=
  found (exec (w_trace w) (w_files w) "which cve-check-tool").1.

(** ** Sample values *)

Definition demo_config : ISA_config :=
  mkConfig "" "" "/build/report" "20160101" "/build/log" "/build/tmp".

Definition demo_pkg : ISA_pkg :=
  mkPkg "busybox" "1.24.1" ["0001-CVE-2016-2147.patch"; "fix-build.patch"] ["busybox-static"].

(** A world without files, in which no command has run yet; it has two
    objects, the first with [initialized] assigned [True], the second with
    no attribute of its own. *)
Definition demo_world : World :=
  mkWorld ∅ [] {[ 0 := {[ "initialized" := true ]}; 1 := ∅ ]}.

(** The checker of the sample configuration, on and off. *)
Definition demo_self : ISA_CVEChecker := of_config demo_config 0.
Definition demo_off : ISA_CVEChecker := of_config demo_config 1.

(** An environment without surprises: every command prints nothing and
    succeeds, every file can be written. *)
Definition plain_env : Env := scripted [].

(** The same, with a log that cannot be opened. *)
Definition no_log_env : Env := scripted_ro ["/build/log/isafw_cvelog"] [].

(** ** Paths *)

Lemma of_config_wf cfg l : wf_checker (of_config cfg l).
Proof. by exists cfg. Qed.

Lemma faux_path_last self : last_char (faux_path self) = Some "x"%char.
Proof. unfold faux_path, pkglist_faux. by rewrite <- !str_app_assoc, last_char_app. Qed.

Lemma logfile_last self : wf_checker self → last_char (logfile self) = Some "g"%char.
Proof. intros [cfg ->]. simpl. by rewrite last_char_app. Qed.

Lemma csv_report_last self : wf_checker self → last_char (csv_report_name self) = Some "t"%char.
Proof. intros [cfg ->]. simpl. by rewrite last_char_app. Qed.

Lemma html_report_last self : wf_checker self → last_char (html_report_name self) = Some "k"%char.
Proof. intros [cfg ->]. simpl. by rewrite last_char_app. Qed.

Lemma faux_ne_logfile self : wf_checker self → faux_path self ≠ logfile self.
Proof.
  intros Hwf. apply last_char_ne. by rewrite faux_path_last, logfile_last.
Qed.

(** ** The flag *)

Lemma flag_switched b self w : flag self (switched b self w) = b.
Proof. unfold flag, switched. by rewrite attr_of_assigned. Qed.

(** An assignment to one checker leaves the others as they are. *)
Lemma flag_switched_ne b self self' w :
  ref self ≠ ref self' → flag self' (switched b self w) = flag self' w.
Proof. intros. unfold flag, switched. by rewrite attr_of_assigned_ne. Qed.

(** The flag is a matter of the object alone. *)
Lemma flag_lookup self w w' :
  w_heap w' !! ref self = w_heap w !! ref self → flag self w' = flag self w.
Proof. intros E. unfold flag. by rewrite (attr_of_lookup w w'). Qed.

Lemma flag_heap self w w' : w_heap w' = w_heap w → flag self w' = flag self w.
Proof. intros E. apply flag_lookup. by rewrite E. Qed.

Lemma flag_store self path s w : flag self (store path s w) = flag self w.
Proof. reflexivity. Qed.

Lemma flag_logged self self' s w : flag self (logged self' s w) = flag self w.
Proof. reflexivity. Qed.

Lemma flag_keeps {A} (m : M A) self w :
  keeps_heap m → flag self (world_of (m w)) = flag self w.
Proof. intros Hm. apply flag_heap, Hm. Qed.

(** A new object is off, as its class has it. *)
Lemma flag_allocated cfg w : flag (of_config cfg (next_object w)) (allocated w) = false.
Proof. unfold flag. simpl. by rewrite attr_of_allocated. Qed.

Lemma run_initialized self w : initialized self w = Ok (flag self w) w.
Proof. reflexivity. Qed.

Lemma run_set_initialized b self w : set_initialized b self w = Ok tt (switched b self w).
Proof. reflexivity. Qed.

(** Files of the worlds the closed forms are written with. *)
Lemma files_logged_ne self s w path :
  path ≠ logfile self → w_files (logged self s w) !! path = w_files w !! path.
Proof. intros. unfold logged. by rewrite files_store_ne. Qed.

Lemma content_logged self s w : content (logged self s w) (logfile self) = content w (logfile self) +:+ s.
Proof. unfold logged. by rewrite content_store. Qed.

Lemma content_logged_ne self s w path :
  logfile self ≠ path → content (logged self s w) path = content w path.
Proof. intros. unfold logged. by rewrite content_store_ne. Qed.

Lemma trace_logged self s w : w_trace (logged self s w) = w_trace w.
Proof. reflexivity. Qed.

Lemma logged_logged self s t w : logged self t (logged self s w) = logged self (s +:+ t) w.
Proof. unfold logged. by rewrite content_store, store_store, str_app_assoc. Qed.

(** ** [__init__] and [process_package] in closed form *)

Section WithEnv.
Context `{HE : Env}.

(** A write to the log, in closed form. *)
Lemma run_log_gen self s w :
  log self s w =
    if writable (logfile self)
    then Ok tt (store (logfile self) (content w (logfile self) +:+ s) w)
    else Raise (IOError (logfile self)) w.
Proof. reflexivity. Qed.

(** Two writes to the log are one write of both texts. *)
Lemma run_log_twice {A} self s t (k : M A) w :
  (log self s;; log self t;; k) w = (log self (s +:+ t);; k) w.
Proof.
  rewrite !run_bind, !run_log_gen. destruct (writable (logfile self)) eqn:Hw; [|done].
  by rewrite run_bind, run_log_gen, Hw, content_store, store_store, str_app_assoc.
Qed.

Lemma run_log_pair self s t w : (log self s;; log self t) w = log self (s +:+ t) w.
Proof.
  rewrite !run_bind, !run_log_gen. destruct (writable (logfile self)) eqn:Hw; [|done].
  by rewrite run_log_gen, Hw, content_store, store_store, str_app_assoc.
Qed.

(** [__init__] in closed form: the object is created, the lookup of the
    tool is run ([r] is its outcome, [fs] the files it leaves), the flag is
    assigned where the tool is found, and the log is opened last. *)
Lemma init_run cfg w :
  new_ISA_CVEChecker cfg w =
    let self := of_config cfg (next_object w) in
    let '(r, fs) := exec (w_trace w) (w_files w) "which cve-check-tool" in
    let w1 := executed "which cve-check-tool" fs (allocated w) in
    let w2 := if found r then switched true self w1 else w1 in
    if writable (logfile self) then Ok self (logged self (init_text r) w2)
    else Raise (IOError (logfile self)) w2.
Proof.
  unfold new_ISA_CVEChecker, __init__. rewrite run_bind, run_new_object, run_bind.
  unfold try_, popen.
  simpl (exec _ _ _). destruct (exec _ _ _) as [[e|p] fs]; simpl;
    [|destruct (truth (stdout p))];
    rewrite ?run_log_twice, ?run_bind, ?run_set_initialized, ?run_bind, run_log_gen; simpl;
    destruct (writable _); reflexivity.
Qed.

(** [process_package] in closed form: the batch file is opened first, the
    log after it; for a package that is not complete the flag is cleared
    before the log is opened. *)
Lemma process_package_gen self pkg w :
  process_package self pkg w =
    if flag self w then
      if complete pkg then
        if writable (faux_path self) then
          let w1 := store (faux_path self)
                      (content w (faux_path self) +:+ concat (faux_lines pkg)) w in
          if writable (logfile self) then
            Ok tt (logged self (nl +:+ "pkg info: "
                     +:+ faux_line (name pkg) (version pkg)
                           (process_patch_list (patch_files pkg))) w1)
          else Raise (IOError (logfile self)) w1
        else Raise (IOError (faux_path self)) w
      else
        let w1 := switched false self w in
        if writable (logfile self) then
          Ok tt (logged self
                   ("Mandatory arguments such as pkg name, version and list of patches are not provided!"
                    +:+ nl +:+ "Not performing the call." +:+ nl) w1)
        else Raise (IOError (logfile self)) w1
    else
      if writable (logfile self) then
        Ok tt (logged self ("Plugin hasn't initialized! Not performing the call." +:+ nl) w)
      else Raise (IOError (logfile self)) w.
Proof.
  unfold process_package, complete. rewrite run_bind, run_initialized.
  destruct (flag self w); [destruct (_ && _)|].
  - rewrite run_bind. unfold append_file at 1.
    destruct (writable (faux_path self)) eqn:Hf; [|done].
    rewrite run_bind, for_each_append, run_log_gen, str_app_assoc by done.
    by destruct (writable (logfile self)).
  - rewrite run_bind, run_set_initialized, run_log_pair, run_log_gen, str_app_assoc.
    by destruct (writable (logfile self)).
  - rewrite run_log_gen. by destruct (writable (logfile self)).
Qed.

(** The object [__init__] returns is the new one, with the values of the
    configuration. *)
Lemma init_Ok_inv cfg w self w' :
  new_ISA_CVEChecker cfg w = Ok self w' → self = of_config cfg (next_object w).
Proof.
  rewrite init_run. destruct (exec _ _ _) as [r fs]; cbv zeta.
  destruct (writable _); [|done]. by intros [= <- _].
Qed.

(** [__init__] leaves the objects that are there as they are, whether it
    returns or raises. *)
Lemma init_others cfg w l :
  live l w → w_heap (world_of (new_ISA_CVEChecker cfg w)) !! l = w_heap w !! l.
Proof.
  intros Hl. assert (next_object w ≠ l) as Hne
    by (intros <-; destruct Hl as [? Hl]; by rewrite next_object_fresh in Hl).
  rewrite init_run. cbv zeta. destruct (exec _ _ _) as [r fs].
  destruct (writable _), (found r); simpl; by rewrite ?lookup_insert_ne.
Qed.

(** The object [__init__] creates is there when it returns or raises. *)
Lemma init_live cfg w : live (next_object w) (world_of (new_ISA_CVEChecker cfg w)).
Proof.
  rewrite init_run. cbv zeta. destruct (exec _ _ _) as [r fs].
  destruct (writable _), (found r); cbn [world_of];
    first [apply (assigned_live (next_object w))|apply (allocated_live w)].
Qed.

(** [__init__] raises for the log only. *)
Lemma init_Raise cfg w e w' :
  new_ISA_CVEChecker cfg w = Raise e w' →
  e = IOError (cfg_logdir cfg +:+ "/isafw_cvelog") ∧
  writable (cfg_logdir cfg +:+ "/isafw_cvelog") = false.
Proof.
  rewrite init_run. cbv zeta. destruct (exec _ _ _) as [r fs]. simpl.
  destruct (writable _); [done|]. by intros [= <- _].
Qed.

(** [process_package] raises for a file it cannot open, the batch file
    or the log, and for nothing else. *)
Lemma process_package_Raise self pkg w e w' :
  process_package self pkg w = Raise e w' →
  ∃ path, e = IOError path ∧ writable path = false ∧
    (path = faux_path self ∨ path = logfile self).
Proof.
  rewrite process_package_gen. cbv zeta.
  destruct (flag self w); [destruct (complete pkg)|];
    repeat (match goal with |- context [writable ?p] => destruct (writable p) eqn:? end);
    intros [= <- _]; eauto.
Qed.

(** The objects that are there stay there through [process_package]. *)
Lemma process_package_live self pkg w l :
  live l w → live l (world_of (process_package self pkg w)).
Proof.
  intros Hl. rewrite process_package_gen. cbv zeta.
  repeat (case_match; try done); cbn [world_of]; by apply assigned_is_Some.
Qed.

(** A method leaves the objects it does not work on as they are, whether
    it returns or raises. *)
Lemma process_package_others self pkg w l :
  l ≠ ref self →
  w_heap (world_of (process_package self pkg w)) !! l = w_heap w !! l.
Proof.
  intros Hl. rewrite process_package_gen. cbv zeta.
  repeat (case_match; try done); simpl; by rewrite lookup_insert_ne.
Qed.

(** C34. The batch file is written before the log is opened: when the
    log cannot be opened, [process_package] raises [IOError] for a complete
    package after the lines of the package have been added to the batch
    file. *)
Theorem process_package_log_unwritable self pkg w :
  flag self w = true → complete pkg = true →
  writable (faux_path self) = true → writable (logfile self) = false →
  process_package self pkg w
  = Raise (IOError (logfile self))
      (store (faux_path self) (content w (faux_path self) +:+ concat (faux_lines pkg)) w).
Proof. intros Hi Hc Hf Hl. by rewrite process_package_gen, Hi, Hc, Hf, Hl. Qed.

(** C19. The flag is cleared before the log is opened: for a package that
    is not complete and a log that cannot be opened, [process_package]
    raises [IOError], no file has changed and no command has run, and the
    checker is off for every later call all the same. *)
Theorem process_package_raise_disables self pkg w :
  flag self w = true → complete pkg = false → writable (logfile self) = false →
  ∃ w', process_package self pkg w = Raise (IOError (logfile self)) w' ∧
    flag self w' = false ∧ w_files w' = w_files w ∧ w_trace w' = w_trace w.
Proof.
  intros Hi Hc Hl. rewrite process_package_gen, Hi, Hc. cbv zeta. rewrite Hl.
  eexists. split_and!; [reflexivity|apply flag_switched|done..].
Qed.

End WithEnv.

Lemma process_package_log_unwritable_witness :
  @process_package no_log_env demo_self demo_pkg demo_world
  = Raise (IOError "/build/log/isafw_cvelog")
      (store "/build/report/cve_check_tool_pkglist_20160101.faux"
         ("busybox,1.24.1, CVE-2016-2147," +:+ nl +:+ "busybox-static,1.24.1, CVE-2016-2147,"
          +:+ nl) demo_world).
Proof. by apply (process_package_log_unwritable (HE:=no_log_env)). Defined.

Lemma process_package_raise_disables_witness :
  ∃ w', @process_package no_log_env demo_self (mkPkg "zlib" "1.2.8" [] []) demo_world
        = Raise (IOError "/build/log/isafw_cvelog") w' ∧
    flag demo_self w' = false ∧ w_files w' = w_files demo_world ∧
    w_trace w' = w_trace demo_world.
Proof. by apply (process_package_raise_disables (HE:=no_log_env)). Defined.

Section CheckerFacts.
(* In this section the files the plugin writes can be opened ([Writable]). *)
Context `{HE : Env} {HW : Writable}.

Lemma process_package_run self pkg w :
  process_package self pkg w =
    if flag self w then
      if complete pkg then
        let w1 := store (faux_path self)
                    (content w (faux_path self) +:+ concat (faux_lines pkg)) w in
        Ok tt (logged self (nl +:+ "pkg info: "
                 +:+ faux_line (name pkg) (version pkg)
                       (process_patch_list (patch_files pkg))) w1)
      else
        Ok tt (logged self
                 ("Mandatory arguments such as pkg name, version and list of patches are not provided!"
                  +:+ nl +:+ "Not performing the call." +:+ nl)
                 (switched false self w))
    else
      Ok tt (logged self ("Plugin hasn't initialized! Not performing the call." +:+ nl) w).
Proof. by rewrite process_package_gen, !writable_all. Qed.

(** [process_package] returns. *)
Lemma process_package_returns self pkg w : ∃ w', process_package self pkg w = Ok tt w'.
Proof.
  rewrite process_package_run.
  destruct (flag self w); [destruct (complete pkg)|]; eauto.
Qed.

Lemma complete_true pkg :
  complete pkg = true ↔ name pkg ≠ "" ∧ version pkg ≠ "" ∧ patch_files pkg ≠ [].
Proof.
  unfold complete. rewrite !andb_true_iff, !truth_true, truthl_true. tauto.
Qed.

Lemma complete_false pkg :
  complete pkg = false ↔ name pkg = "" ∨ version pkg = "" ∨ patch_files pkg = [].
Proof.
  unfold complete, truth, truthl.
  destruct (name pkg), (version pkg), (patch_files pkg); simpl; intuition discriminate.
Qed.

(** ** [__init__] *)

(** C33. Called on a new object by the call of the class, [__init__]
    raises in one case only, when the log cannot be opened, and not even
    when the lookup of the tool cannot be run.  It runs that one command, and writes to no file that the command left alone but
    the log; where the log can be opened it returns a new object that
    carries the configuration's values and the three derived paths,
    initialized exactly when the lookup printed something, and the objects
    that were there are as they were. *)
Theorem init_spec cfg w :
  let self := of_config cfg (next_object w) in
  ∃ w', w_trace w' = w_trace w ++ ["which cve-check-tool"] ∧
    (∀ path, path ≠ logfile self →
       w_files w' !! path
       = (exec (w_trace w) (w_files w) "which cve-check-tool").2 !! path) ∧
    w_heap w !! ref self = None ∧ flag self w' = tool_found w ∧
    (∀ l, l ≠ ref self → w_heap w' !! l = w_heap w !! l) ∧
    new_ISA_CVEChecker cfg w =
      if writable (logfile self) then Ok self w' else Raise (IOError (logfile self)) w'.
Proof.
  intros self. rewrite init_run. unfold tool_found. fold self.
  destruct (exec _ _ _) as [r fs]; cbv zeta. simpl (_.1). simpl (_.2).
  refine (ex_intro _ (if writable (logfile self) then _ else _)
            (conj _ (conj _ (conj (next_object_fresh w) (conj _ (conj _ _))))));
    [| | | |by destruct (writable (logfile self))];
    destruct (writable (logfile self)), (found r);
    rewrite ?flag_logged, ?flag_switched; try done;
    try apply (flag_allocated cfg w);
    try (intros path Hp; apply files_store_ne; by apply not_eq_sym);
    intros l Hl; simpl; by rewrite ?lookup_insert_ne by done.
Qed.

(** ** [process_package] *)

(** C1. For a complete package and an initialized checker,
    [process_package] returns, the checker still on, and appends to the
    batch file the line of the package and then the lines of its aliases,
    in their order; it appends the package's line to the log, runs no
    command and leaves every other file and every object alone. *)
Theorem process_package_records self pkg w :
  wf_checker self → flag self w = true →
  name pkg ≠ "" → version pkg ≠ "" → patch_files pkg ≠ [] →
  ∃ w', process_package self pkg w = Ok tt w' ∧
    content w' (faux_path self)
    = content w (faux_path self) +:+ concat (faux_lines pkg) ∧
    content w' (logfile self)
    = content w (logfile self) +:+ nl +:+ "pkg info: "
      +:+ faux_line (name pkg) (version pkg) (process_patch_list (patch_files pkg)) ∧
    w_trace w' = w_trace w ∧ w_heap w' = w_heap w ∧
    ∀ path, path ≠ faux_path self → path ≠ logfile self →
      w_files w' !! path = w_files w !! path.
Proof.
  intros Hwf%faux_ne_logfile Hi Hn Hv Hp.
  rewrite process_package_run, Hi, (proj2 (complete_true pkg)) by done.
  eexists; split_and!; [reflexivity|..].
  - by rewrite content_logged_ne, content_store by done.
  - by rewrite content_logged, content_store_ne.
  - done.
  - done.
  - intros path H1 H2. by rewrite files_logged_ne, files_store_ne.
Qed.

(** A package without a name, a version or a patch switches the
    checker off: [process_package] returns with [initialized] false in the
    object, and in no other; it writes two lines to the log and does not
    touch the batch file. *)
Theorem process_package_incomplete self pkg w :
  flag self w = true →
  name pkg = "" ∨ version pkg = "" ∨ patch_files pkg = [] →
  ∃ w', process_package self pkg w = Ok tt w' ∧ flag self w' = false ∧
    (∀ self', ref self' ≠ ref self → flag self' w' = flag self' w) ∧
    w_trace w' = w_trace w ∧
    ∀ path, path ≠ logfile self → w_files w' !! path = w_files w !! path.
Proof.
  intros Hi Hc%complete_false. rewrite process_package_run, Hi, Hc.
  eexists; split_and!; [reflexivity|by rewrite flag_logged, flag_switched| |done|].
  - intros self' Hr. by rewrite flag_logged, flag_switched_ne.
  - intros path Hp. by rewrite files_logged_ne.
Qed.

(** A checker that is not initialized records nothing: it stays as it
    is, the log gets one line, no other file changes. *)
Theorem process_package_off self pkg w :
  flag self w = false →
  ∃ w', process_package self pkg w = Ok tt w' ∧ w_heap w' = w_heap w ∧
    w_trace w' = w_trace w ∧
    ∀ path, path ≠ logfile self → w_files w' !! path = w_files w !! path.
Proof.
  intros Hi. rewrite process_package_run, Hi.
  eexists; split_and!; [reflexivity|done|done|].
  intros path Hp. by rewrite files_logged_ne.
Qed.

End CheckerFacts.

(** Whatever the checker and the package, [process_package] runs no
    command, changes no file but the batch file and the log and no object
    but the checker, and never switches the checker on, whether it returns
    or raises.  It raises in one case only, [IOError] for the batch file or
    the log when that file cannot be opened. *)
Theorem process_package_safe `{HE : Env} self pkg w :
  ∃ w', w_trace w' = w_trace w ∧
    (∀ path, path ≠ faux_path self → path ≠ logfile self →
       w_files w' !! path = w_files w !! path) ∧
    (∀ l, l ≠ ref self → w_heap w' !! l = w_heap w !! l) ∧
    (flag self w' = true → flag self w = true) ∧
    (process_package self pkg w = Ok tt w' ∨
     (∃ path, process_package self pkg w = Raise (IOError path) w' ∧
        writable path = false ∧ (path = faux_path self ∨ path = logfile self))).
Proof.
  exists (world_of (process_package self pkg w)).
  pose proof (process_package_others self pkg w) as Ho. revert Ho.
  rewrite process_package_gen. cbv zeta.
  destruct (flag self w) eqn:Hi; [destruct (complete pkg)|];
    repeat (match goal with |- context [writable ?p] => destruct (writable p) eqn:? end);
    intros Ho; (split_and!; [done| |exact Ho| |first [by left|right; eexists; by eauto]]);
    cbn [world_of]; rewrite ?flag_logged, ?flag_store, ?flag_switched, ?Hi; try done;
    intros path H1 H2; by rewrite ?files_logged_ne, ?files_store_ne.
Qed.

(** ** Witnesses *)

Lemma process_package_records_witness :
  ∃ w', @process_package plain_env demo_self demo_pkg demo_world = Ok tt w' ∧
    content w' (faux_path demo_self)
    = "busybox,1.24.1, CVE-2016-2147," +:+ nl +:+ "busybox-static,1.24.1, CVE-2016-2147," +:+ nl.
Proof.
  destruct (process_package_records (HE:=plain_env) demo_self demo_pkg demo_world)
    as (w' & Hr & Hf & _); [by exists demo_config|by vm_compute|done..|].
  exists w'. split; [exact Hr|]. rewrite Hf. reflexivity.
Defined.

Lemma process_package_incomplete_witness :
  ∃ w', @process_package plain_env demo_self (mkPkg "zlib" "1.2.8" [] []) demo_world
        = Ok tt w' ∧ flag demo_self w' = false ∧
    w_files w' !! faux_path demo_self = None.
Proof.
  destruct (process_package_incomplete (HE:=plain_env) demo_self
              (mkPkg "zlib" "1.2.8" [] []) demo_world)
    as (w' & Hr & Hoff & _ & _ & Hf); [by vm_compute|by right; right|].
  exists w'. split_and!; [exact Hr|exact Hoff|]. by rewrite Hf.
Defined.

Lemma process_package_off_witness :
  ∃ w', @process_package plain_env demo_off demo_pkg demo_world = Ok tt w' ∧
    w_files w' !! faux_path demo_off = None.
Proof.
  destruct (process_package_off (HE:=plain_env) demo_off demo_pkg demo_world)
    as (w' & Hr & _ & _ & Hf); [by vm_compute|].
  exists w'. split; [exact Hr|]. by rewrite Hf.
Defined.

(** ** The format of the batch file *)

Lemma faux_line_record n v info : faux_line n v info = faux_record n v info +:+ nl.
Proof. unfold faux_line, faux_record. by rewrite !str_app_assoc. Qed.

Lemma faux_lines_records pkg : faux_lines pkg = (λ l, l +:+ nl) <$> faux_records pkg.
Proof.
  unfold faux_lines, faux_records. rewrite fmap_cons, faux_line_record, <- list_fmap_compose.
  f_equal. apply list_fmap_ext. intros _ a _. apply faux_line_record.
Qed.

Lemma faux_record_free c n v info :
  c ≠ ","%char → count_char c n = 0 → count_char c v = 0 → count_char c info = 0 →
  count_char c (faux_record n v info) = 0.
Proof.
  intros Hc Hn Hv Hi. unfold faux_record. rewrite !count_char_app, Hn, Hv, Hi.
  simpl. by rewrite decide_False by congruence.
Qed.

Lemma faux_records_free pkg :
  free_of LF pkg → Forall (λ l, count_char LF l = 0) (faux_records pkg).
Proof.
  intros (Hn & Hv & Hp & Ha).
  assert (count_char LF (process_patch_list (patch_files pkg)) = 0) as Hi
    by by apply process_patch_list_chars.
  constructor; [by apply faux_record_free|]. apply Forall_fmap.
  eapply Forall_impl; [exact Ha|]. intros a Hc. by apply faux_record_free.
Qed.

(** C32. The batch file reads back line by line as it was written: when no
    name, version, alias or patch name of the packages holds a line feed, the
    lines of the text [process_package] wrote for them are the lines it
    composed, in order. *)
Theorem faux_lines_readlines pkgs :
  Forall (free_of LF) pkgs →
  readlines (concat (pkgs ≫= faux_lines)) = pkgs ≫= faux_lines.
Proof.
  intros Hp.
  assert (pkgs ≫= faux_lines = (λ l, l +:+ nl) <$> (pkgs ≫= faux_records)) as ->.
  { induction pkgs as [|p ps IH]; [done|].
    apply Forall_cons in Hp as [_ Hp]. by rewrite !bind_cons, fmap_app, faux_lines_records, IH. }
  apply readlines_lines, Forall_bind. eapply Forall_impl; [exact Hp|].
  apply faux_records_free.
Qed.

Lemma splitn_faux_line n v info :
  count_char "," n = 0 → count_char "," v = 0 →
  splitn "," (faux_line n v info) 2 = [n; v; info +:+ "," +:+ nl].
Proof.
  intros Hn Hv. unfold faux_line.
  change (n +:+ "," +:+ v +:+ "," +:+ info +:+ "," +:+ nl)
    with (n +:+ "," ::: (v +:+ "," ::: (info +:+ "," +:+ nl))).
  by rewrite !splitn_app_sep, splitn_0.
Qed.

(** C37. A line of the batch file determines the package it was written for:
    two lines are equal only if name, version and CVE identifiers are, as
    long as names and versions hold no comma. *)
Theorem faux_line_inj n v info n' v' info' :
  count_char "," n = 0 → count_char "," v = 0 →
  count_char "," n' = 0 → count_char "," v' = 0 →
  faux_line n v info = faux_line n' v' info' → n = n' ∧ v = v' ∧ info = info'.
Proof.
  intros Hn Hv Hn' Hv' E%(f_equal (λ s, splitn "," s 2)).
  rewrite !splitn_faux_line in E by done. injection E as -> -> E.
  split_and!; [done..|]. by apply str_app_inv_tail in E.
Qed.

(** Cut at the commas, a line gives back its three fields. *)
Lemma faux_line_fields n v info :
  count_char "," n = 0 → count_char "," v = 0 → count_char "," info = 0 →
  split "," (faux_line n v info) = [n; v; info; nl].
Proof.
  intros Hn Hv Hi. unfold faux_line.
  change (n +:+ "," +:+ v +:+ "," +:+ info +:+ "," +:+ nl)
    with (n +:+ "," ::: (v +:+ "," ::: (info +:+ "," ::: nl))).
  by rewrite !split_app_sep, split_count_0.
Qed.

(** With a comma in a name the format is ambiguous. *)
Lemma faux_line_ambiguous : faux_line "a,b" "1" "" = faux_line "a" "b,1" "".
Proof. reflexivity. Qed.

Lemma faux_lines_readlines_witness :
  readlines ("busybox,1.24.1, CVE-2016-2147," +:+ nl
             +:+ "busybox-static,1.24.1, CVE-2016-2147," +:+ nl)
  = ["busybox,1.24.1, CVE-2016-2147," +:+ nl;
     "busybox-static,1.24.1, CVE-2016-2147," +:+ nl].
Proof.
  apply (faux_lines_readlines [demo_pkg]). repeat constructor.
Defined.

Lemma faux_line_inj_witness :
  "busybox" = "busybox" ∧ "1.24.1" = "1.24.1" ∧ " CVE-2016-2147" = " CVE-2016-2147".
Proof. by apply (faux_line_inj _ _ _ _ _ _). Defined.

(** ** Frames *)

(** [process_package] writes the batch file and the log only. *)
Lemma process_package_frame `{Env} Y self pkg :
  faux_path self ∈ Y → logfile self ∈ Y → writes Y (process_package self pkg).
Proof. intros. unfold process_package, log, initialized, set_initialized. solve_writes. Qed.

(** [__init__] writes the log, and what its command writes. *)
Lemma init_frame `{Confined X} Y cfg :
  X ⊆ Y → cfg_logdir cfg +:+ "/isafw_cvelog" ∈ Y → writes Y (new_ISA_CVEChecker cfg).
Proof. intros. unfold new_ISA_CVEChecker, __init__, log, set_initialized. simpl. solve_writes. Qed.

#[export] Hint Resolve @process_package_frame @init_frame : frame.

(** ** The log only grows *)

(** [__init__] and [process_package] open their files with the mode
    ['a']: every file keeps what is in it. *)
Lemma init_grows `{Confined X} p cfg : p ∉ X → preserves (grows p) (new_ISA_CVEChecker cfg).
Proof. intros Hp. unfold new_ISA_CVEChecker, __init__, log, set_initialized. solve_preserves. Qed.

Lemma process_package_grows `{Env} p self pkg : preserves (grows p) (process_package self pkg).
Proof. unfold process_package, log, initialized, set_initialized. solve_preserves. Qed.

#[export] Hint Resolve @init_grows @process_package_grows : preserves.

(** ** Commands *)

(** [__init__] starts one command, [which]. *)
Lemma init_spawns `{Env} cfg : spawns 1 (new_ISA_CVEChecker cfg).
Proof. unfold new_ISA_CVEChecker, __init__, log, set_initialized. solve_spawns. Qed.

Lemma init_issues `{Env} cfg :
  issues (λ cmd, cmd = "which cve-check-tool") (new_ISA_CVEChecker cfg).
Proof. unfold new_ISA_CVEChecker, __init__, log, set_initialized. by solve_issues. Qed.

(** [process_package] starts none. *)
Lemma process_package_spawns `{Env} self pkg : spawns 0 (process_package self pkg).
Proof. unfold process_package, log, initialized, set_initialized. solve_spawns. Qed.

#[export] Hint Resolve @init_spawns @process_package_spawns : trace.

(** ** Exceptions *)

#[export] Hint Constructors escapes : raises.

(** A write to the log raises for the log. *)
Lemma log_escapes `{Env} X self s : logfile self ∈ X → raises (escapes X self) (log self s).
Proof. intros. unfold log. solve_raises. Qed.

#[export] Hint Resolve @log_escapes : raises.

(** [process_package] raises for the batch file and for the log. *)
Lemma process_package_escapes `{Env} X self pkg :
  faux_path self ∈ X → logfile self ∈ X →
  raises (escapes X self) (process_package self pkg).
Proof. intros. unfold process_package, initialized, set_initialized. solve_raises. Qed.

#[export] Hint Resolve @process_package_escapes : raises.

End Checker.
