(* ===== verification/Scan.v ===== *)
(** * Scan: [mapping_of_kernel] and [process_report_type]

    [process_report_type] builds the command line of cve-check-tool, runs
    the kernel-name script over the batch file, runs the tool (once more if
    it wrote to its standard error), and either stores the tool's output as
    the CSV or HTML report or returns a text that says what went wrong.
    The text it returns is empty only when the tool ran clean and the
    report was stored.

    The tool's standard error goes through two codecs: it is decoded as
    UTF-8, inside the [try] block for the first run of the tool and after it
    for the run that counts, and the text made of it is written to the log
    through the ASCII codec.  [UnicodeDecodeError] is caught in the first
    place and leaves the method in the second; [UnicodeEncodeError] leaves
    the method.

    [issued self] lists the commands of a report; the last sections show
    that a run starts no others, and that it opens the log for appending
    only. *)

From S2P Require Import Prelude PyStr Utf8 Sys Trace Heap Raises Checker.
Import Py Utf8 Sys Trace Heap Raises Checker.

Module Scan.

Section WithEnv.
Context `{Env}.

(** ** [mapping_of_kernel] *)

(** The command [mapping_of_kernel] runs. *)
Definition set_linux_kernel_name_arg
    (self : ISA_CVEChecker) (file_and_dir mapping_mode custom_name : string) : string :=
  let script_directory :=
    tmp_dir self +:+ "/work/x86_64-linux/cve-check-tool-native/git-r0/set_linux_name.sh " in
  let kernel_versions_file_path :=
    tmp_dir self
    +:+ "/work/x86_64-linux/cve-check-tool-native/git-r0/mentor_kernel_versions.txt " in
  if decide (mapping_mode ≠ "custom") then
    "chmod +x " +:+ script_directory +:+ " && " +:+ script_directory +:+ file_and_dir
    +:+ " " +:+ kernel_versions_file_path
  else
    "chmod +x " +:+ script_directory +:+ " && " +:+ script_directory +:+ file_and_dir
    +:+ " " +:+ kernel_versions_file_path +:+ "Custom " +:+ custom_name.

Definition mapping_of_kernel
    (self : ISA_CVEChecker) (file_and_dir mapping_mode custom_name : string) : M string :=
  let arg := set_linux_kernel_name_arg self file_and_dir mapping_mode custom_name in
  log self (nl +:+ "Mine: " +:+ arg);;
  set_linux_name ← popen arg;
  let output := stdout set_linux_name in
  log self (nl +:+ "Kernel Name: " +:+ output +:+ nl);;
  mret output.

(** ** [process_report_type] *)

(** The command line of the tool, and [rtype] as the method normalises it. *)
Definition tool_args (self : ISA_CVEChecker) (rtype : string) : string * string :=
  let args := "" in
  let args :=
    if truth (proxy self)
    then args +:+ "https_proxy=" +:+ proxy self +:+ " http_proxy=" +:+ proxy self +:+ " "
    else args in
  let args := args +:+ "cve-check-tool " in
  let args :=
    if truth (cacert self) then args +:+ "--cacert '" +:+ cacert self +:+ "' " else args in
  let '(args, rtype) :=
    if decide (rtype ≠ "html") then (args +:+ "-c ", "csv") else (args, rtype) in
  let args := args +:+ "-a -t faux '" +:+ reportdir self +:+ pkglist_faux self +:+ "'" in
  (args, rtype).

(** The body of the [try]: the kernel-name script, the tool, and the tool
    once more when its first run wrote to standard error. *)
Definition run_tool (self : ISA_CVEChecker) (args : string) : M (string * completed) :=
  let faux_directory := reportdir self +:+ pkglist_faux self in
  output ← mapping_of_kernel self faux_directory " " " ";
  result ← popen args;
  tool_stderr ← decode_utf8 (stderr result);
  if truth tool_stderr then
    log self (nl +:+ "error occured. Retrying ");;
    result ← popen args;
    mret (output, result)
  else mret (output, result).

(** What follows the [try]: the [except] branch for an exception [e], the
    [else] branch for the result of the tool.  [rtype] is the normalised
    one. *)
Definition after_tool (self : ISA_CVEChecker) (rtype : string)
    (r : exn + string * completed) : M string :=
  match r with
  | inl e =>
      let tool_stderr_value := "Error in executing cve-check-tool" +:+ exc_info e in
      log self ("Error in executing cve-check-tool: " +:+ exc_info e);;
      mret tool_stderr_value
  | inr (output, result) =>
      let stdout_value := stdout result in
      tool_stderr_value ← decode_utf8 (stderr result);
      if negb (truth tool_stderr_value) && bool_decide (returncode result = 0%Z) then
        let report :=
          if decide (rtype ≠ "html") then csv_report_name self
          else html_report_name self in
        write_file report stdout_value;;
        (if decide (rtype = "csv")
         then mapping_of_kernel self report "custom" output;; mret tt
         else mret tt);;
        mret tool_stderr_value
      else
        let tool_stderr_value :=
          tool_stderr_value +:+ nl +:+ "cve-check-tool terminated with exit code "
          +:+ str_of_Z (returncode result) in
        append_unicode (logfile self) ("error: " +:+ tool_stderr_value);;
        mret tool_stderr_value
  end.

Definition process_report_type (self : ISA_CVEChecker) (rtype : string) : M string :=
  (* now faux file is ready and we can process it *)
  let '(args, rtype) := tool_args self rtype in
  log self ("Args: " +:+ args);;
  r ← try_ (run_tool self args);
  after_tool self rtype r.

End WithEnv.

(** ** Reference definitions *)

(** [clean result]: the tool wrote nothing to its standard error and
    ended with status 0. *)
Definition clean (result : completed) : bool :=
  negb (truth (stderr result)) && bool_decide (returncode result = 0%Z).

(** The text [after_tool] returns for a tool that did not run clean. *)
Definition failure_text (result : completed) : string :=
  stderr result +:+ nl +:+ "cve-check-tool terminated with exit code "
  +:+ str_of_Z (returncode result).

(** The world in which the [try] block of [process_report_type] starts. *)
Definition logged_args (self : ISA_CVEChecker) (rtype : string) (w : World) : World :=
  store (logfile self)
    (content w (logfile self) +:+ "Args: " +:+ (tool_args self rtype).1) w.

(** The report a run writes. *)
Definition report_of (self : ISA_CVEChecker) (rtype : string) : string :=
  if decide (rtype = "html") then html_report_name self else csv_report_name self.

(** The commands of a run of [process_report_type] in which nothing fails;
    [output] is what the kernel-name script printed. *)
Definition commands (self : ISA_CVEChecker) (rtype output : string) : list string :=
  [set_linux_kernel_name_arg self (faux_path self) " " " "; (tool_args self rtype).1]
  ++ (if decide (rtype = "html") then []
      else [set_linux_kernel_name_arg self (csv_report_name self) "custom" output]).

(** The commands of a report: the kernel-name script on the batch file,
    the tool, and the script on the CSV report with what its first run
    printed as the name of the kernel. *)
Inductive issued `{Env} (self : ISA_CVEChecker) : string → Prop :=
| issued_script :
    issued self (set_linux_kernel_name_arg self (faux_path self) " " " ")
| issued_tool rtype :
    issued self (tool_args self rtype).1
| issued_custom out :
    printed (set_linux_kernel_name_arg self (faux_path self) " " " ") out →
    issued self (set_linux_kernel_name_arg self (csv_report_name self) "custom" out).

(** ** Sample values *)

(** The script, the tool and the script again, all well. *)
Definition clean_env : Env := scripted [ok "linux"; ok "report"; ok "linux-custom"].
(** The tool warns on its first run and is run again. *)
Definition retry_env : Env :=
  scripted [ok "linux"; inr (Completed "" "warning" 0); ok "report"].
(** The tool ends with status 1. *)
Definition failing_env : Env := scripted [ok "linux"; inr (Completed "" "" 1)].
(** The kernel-name script cannot be started. *)
Definition broken_env : Env := scripted [inl (OSError "fork")].
(** The bytes of [é] in UTF-8, and a byte that starts no sequence. *)
Definition e_acute : string := encode_point 233.
Definition bad_byte : string := String (ascii_of_N 255) "".
(** The tool writes bytes that are not UTF-8 to its standard error. *)
Definition undecodable_env : Env :=
  scripted [ok "linux"; inr (Completed "" bad_byte 0)].
(** The tool warns, and writes bytes that are not UTF-8 when run again. *)
Definition late_undecodable_env : Env :=
  scripted [ok "linux"; inr (Completed "" "warning" 0); inr (Completed "" bad_byte 0)].
(** The tool writes a message with an accent, twice. *)
Definition accent_env : Env :=
  scripted [ok "linux"; inr (Completed "" e_acute 0); inr (Completed "" e_acute 0)].
(** All goes well, but the HTML report cannot be opened. *)
Definition no_report_env : Env :=
  scripted_ro ["/build/report/cve_check"] [ok "linux"; ok "<html/>"].
(** The kernel-name script cannot be started the second time. *)
Definition escape_env : Env := scripted [ok "linux"; ok "report"; inl (OSError "fork")].

(** ** The branches of [after_tool] *)

Section ScanFacts.
(* In this section the files the plugin writes can be opened ([Writable]). *)
Context `{HE : Env} {HA : AsciiValid} {HW : Writable}.
Implicit Types (self : ISA_CVEChecker) (w : World).

Lemma tool_args_snd self rtype :
  (tool_args self rtype).2 = if decide (rtype = "html") then "html" else "csv".
Proof. unfold tool_args. by repeat case_decide; simplify_eq. Qed.

Lemma tool_args_other self rtype :
  rtype ≠ "html" → tool_args self rtype = tool_args self "csv".
Proof. intros. unfold tool_args. by rewrite !decide_True. Qed.

Lemma process_report_type_unfold self rtype w :
  process_report_type self rtype w =
    (log self ("Args: " +:+ (tool_args self rtype).1);;
     r ← try_ (run_tool self (tool_args self rtype).1);
     after_tool self (tool_args self rtype).2 r) w.
Proof. unfold process_report_type. by destruct (tool_args self rtype). Qed.

Lemma clean_true result :
  clean result = true ↔ stderr result = "" ∧ returncode result = 0%Z.
Proof.
  unfold clean. by rewrite andb_true_iff, negb_true_iff, bool_decide_eq_true, truth_false.
Qed.

Lemma failure_text_ne result : failure_text result ≠ "".
Proof.
  unfold failure_text. intros E%(f_equal String.length).
  rewrite !str_length_app in E. simpl in E. lia.
Qed.

Lemma after_tool_exn self rtype e w :
  after_tool self rtype (inl e) w
  = Ok ("Error in executing cve-check-tool" +:+ exc_info e)
       (store (logfile self)
          (content w (logfile self) +:+ "Error in executing cve-check-tool: "
           +:+ exc_info e) w).
Proof. unfold after_tool. by rewrite run_bind, run_log_gen, writable_all. Qed.

(** The text of a failure is as ASCII as the standard error it quotes. *)
Lemma failure_text_ascii result :
  is_ascii ("error: " +:+ failure_text result) = is_ascii (stderr result).
Proof.
  unfold failure_text. rewrite !is_ascii_app, str_of_Z_ascii. simpl.
  by rewrite andb_true_r.
Qed.

(** [after_tool] once the standard error is decoded. *)
Lemma after_tool_decoded self rtype output result w :
  utf8_valid (stderr result) = true →
  after_tool self rtype (inr (output, result)) w
  = if clean result then
      (write_file (if decide (rtype ≠ "html") then csv_report_name self
                   else html_report_name self) (stdout result);;
       (if decide (rtype = "csv")
        then mapping_of_kernel self
               (if decide (rtype ≠ "html") then csv_report_name self
                else html_report_name self) "custom" output;; mret tt
        else mret tt);;
       mret (stderr result)) w
    else
      (append_unicode (logfile self) ("error: " +:+ failure_text result);;
       mret (failure_text result)) w.
Proof.
  intros Hv. unfold after_tool, clean, failure_text.
  rewrite run_bind, run_decode_utf8 by done. by destruct (_ && _).
Qed.

Lemma after_tool_undecodable self rtype output result w :
  utf8_valid (stderr result) = false →
  after_tool self rtype (inr (output, result)) w
  = Raise (UnicodeDecodeError (stderr result)) w.
Proof. intros Hv. unfold after_tool. by rewrite run_bind, run_decode_invalid. Qed.

Lemma after_tool_dirty self rtype output result w :
  clean result = false → is_ascii (stderr result) = true →
  after_tool self rtype (inr (output, result)) w
  = Ok (failure_text result)
       (store (logfile self)
          (content w (logfile self) +:+ "error: " +:+ failure_text result) w).
Proof.
  intros Hc Ha. rewrite after_tool_decoded, Hc by by apply utf8_valid_ascii.
  by rewrite run_bind, run_append_unicode by by rewrite failure_text_ascii.
Qed.

Lemma after_tool_unencodable self rtype output result w :
  utf8_valid (stderr result) = true → is_ascii (stderr result) = false →
  after_tool self rtype (inr (output, result)) w
  = Raise (UnicodeEncodeError ("error: " +:+ failure_text result))
      (store (logfile self) (content w (logfile self)) w).
Proof.
  intros Hv Ha. assert (clean result = false) as Hc.
  { unfold clean. destruct (stderr result); [done|]. done. }
  rewrite after_tool_decoded, Hc by done.
  by rewrite run_bind, run_append_unicode_bad by by rewrite failure_text_ascii.
Qed.

(** [after_tool] returns the empty text only for a tool that ran clean. *)
Lemma after_tool_empty self rtype output result w w' :
  after_tool self rtype (inr (output, result)) w = Ok "" w' → clean result = true.
Proof.
  destruct (utf8_valid (stderr result)) eqn:Hv; [|by rewrite after_tool_undecodable].
  rewrite after_tool_decoded by done. destruct (clean result); [done|].
  rewrite run_bind. unfold append_unicode.
  destruct (writable _); [|done]. destruct (is_ascii _); [|done].
  intros [= Hf _]. by destruct (failure_text_ne result).
Qed.

Lemma clean_valid result : clean result = true → utf8_valid (stderr result) = true.
Proof. intros [Hs _]%clean_true. rewrite Hs. by apply utf8_valid_ascii. Qed.

Lemma after_tool_html self output result w :
  clean result = true →
  after_tool self "html" (inr (output, result)) w
  = Ok "" (store (html_report_name self) (stdout result) w).
Proof.
  intros Hc. pose proof Hc as [Hs _]%clean_true.
  rewrite after_tool_decoded, Hc by by apply clean_valid. simpl.
  by rewrite !run_bind, run_write, Hs.
Qed.

Lemma after_tool_csv self output result w :
  clean result = true →
  after_tool self "csv" (inr (output, result)) w
  = (mapping_of_kernel self (csv_report_name self) "custom" output;; mret "")
      (store (csv_report_name self) (stdout result) w).
Proof.
  intros Hc. pose proof Hc as [Hs _]%clean_true.
  rewrite after_tool_decoded, Hc by by apply clean_valid. simpl. rewrite Hs.
  rewrite !run_bind, run_write. rewrite !run_bind.
  by destruct (mapping_of_kernel _ _ _ _ _).
Qed.


(** ** [run_tool] *)

Lemma trace_append_file path s w : w_trace (world_of (append_file path s w)) = w_trace w.
Proof. unfold append_file. by destruct (writable path). Qed.

(** [mapping_of_kernel] runs its one command, whether that starts or not. *)
Lemma mapping_of_kernel_trace self f m c w :
  w_trace (world_of (mapping_of_kernel self f m c w))
  = w_trace w ++ [set_linux_kernel_name_arg self f m c].
Proof.
  unfold mapping_of_kernel, log. rewrite world_of_bind, run_append, world_of_bind.
  pose proof (popen_trace (set_linux_kernel_name_arg self f m c)
                (store (logfile self) (content w (logfile self) +:+ nl +:+ "Mine: "
                   +:+ set_linux_kernel_name_arg self f m c) w)) as Ht.
  destruct (popen _ _); [|done]. by rewrite world_of_bind, run_append.
Qed.

(** What [run_tool] does after the first run of the tool. *)
Lemma run_tool_first self args w output w1 :
  mapping_of_kernel self (faux_path self) " " " " w = Ok output w1 →
  run_tool self args w =
    match popen args w1 with
    | Ok r1 w2 =>
        if utf8_valid (stderr r1) then
          if truth (stderr r1) then
            (result ← popen args; mret (output, result))
              (store (logfile self)
                 (content w2 (logfile self) +:+ nl +:+ "error occured. Retrying ") w2)
          else Ok (output, r1) w2
        else Raise (UnicodeDecodeError (stderr r1)) w2
    | Raise e w2 => Raise e w2
    end.
Proof.
  intros Hm. unfold run_tool. fold (faux_path self). rewrite run_bind, Hm, run_bind.
  destruct (popen args w1) as [r1 w2|]; [|done]. rewrite run_bind. unfold decode_utf8.
  destruct (utf8_valid (stderr r1)); [|done]. destruct (truth (stderr r1)); [|done].
  by rewrite run_bind, run_log_gen, writable_all.
Qed.

(** When the first run of the tool writes to its standard error, the
    tool is run once more, and what that second run gives is the outcome,
    whatever it wrote to its standard error. *)
Theorem run_tool_retry self args w output w1 r1 w2 r2 w3 :
  mapping_of_kernel self (faux_path self) " " " " w = Ok output w1 →
  popen args w1 = Ok r1 w2 → utf8_valid (stderr r1) = true → stderr r1 ≠ "" →
  popen args (store (logfile self)
                (content w2 (logfile self) +:+ nl +:+ "error occured. Retrying ") w2)
  = Ok r2 w3 →
  run_tool self args w = Ok (output, r2) w3.
Proof.
  intros Hm H1 Hv Hs%truth_true H2.
  by rewrite (run_tool_first _ _ _ _ _ Hm), H1, Hv, Hs, run_bind, H2.
Qed.

(** A result whose standard error does not decode is that of a second
    run: the first decode has accepted what the first run wrote, and a run
    that wrote nothing is not repeated. *)
Lemma run_tool_undecodable_retried self args w output result w2 :
  run_tool self args w = Ok (output, result) w2 →
  utf8_valid (stderr result) = false →
  w_trace w2
  = w_trace w ++ [set_linux_kernel_name_arg self (faux_path self) " " " "; args; args].
Proof.
  pose proof (mapping_of_kernel_trace self (faux_path self) " " " " w) as Hk.
  destruct (mapping_of_kernel self (faux_path self) " " " " w) as [out w1|] eqn:Hm;
    [|unfold run_tool; fold (faux_path self); by rewrite run_bind, Hm].
  rewrite (run_tool_first _ _ _ _ _ Hm). pose proof (popen_trace args w1) as H1.
  destruct (popen args w1) as [r1 w3|]; [|done].
  destruct (utf8_valid (stderr r1)) eqn:Hv; [|done].
  destruct (truth (stderr r1)); [|intros [= _ <- _]; congruence].
  rewrite run_bind. intros Hr Hbad.
  pose proof (popen_trace args (store (logfile self)
    (content w3 (logfile self) +:+ nl +:+ "error occured. Retrying ") w3)) as H2.
  destruct (popen args _) as [r2 w4|]; [|done]. injection Hr as _ _ <-.
  simpl in *. by rewrite H2, H1, Hk, <- !app_assoc.
Qed.

(** When the standard error of the first run is not valid UTF-8,
    [UnicodeDecodeError] is raised inside the [try] block and the tool is not
    run again. *)
Lemma run_tool_undecodable self args w output w1 r1 w2 :
  mapping_of_kernel self (faux_path self) " " " " w = Ok output w1 →
  popen args w1 = Ok r1 w2 → utf8_valid (stderr r1) = false →
  run_tool self args w = Raise (UnicodeDecodeError (stderr r1)) w2.
Proof. intros Hm H1 Hv. by rewrite (run_tool_first _ _ _ _ _ Hm), H1, Hv. Qed.

(** C36. The retry is not a loop: whatever the commands answer, [run_tool]
    ends after the kernel-name script and at most two runs of the tool, in
    this order. *)
Theorem run_tool_trace self args w :
  ∃ l, w_trace (world_of (run_tool self args w))
       = w_trace w ++ set_linux_kernel_name_arg self (faux_path self) " " " " :: l ∧
    (l = [] ∨ l = [args] ∨ l = [args; args]).
Proof.
  pose proof (mapping_of_kernel_trace self (faux_path self) " " " " w) as Hk.
  destruct (mapping_of_kernel self (faux_path self) " " " " w) as [output w1|e w1] eqn:Hm.
  - rewrite (run_tool_first _ _ _ _ _ Hm). simpl in Hk.
    pose proof (popen_trace args w1) as H1.
    destruct (popen args w1) as [r1 w2|e w2]; simpl in H1.
    + destruct (utf8_valid (stderr r1));
        [|exists [args]; split; [|auto]; simpl; by rewrite H1, Hk, <- app_assoc].
      destruct (truth (stderr r1)).
      * exists [args; args]. split; [|auto]. rewrite world_of_bind.
        pose proof (popen_trace args (store (logfile self)
          (content w2 (logfile self) +:+ nl +:+ "error occured. Retrying ") w2)) as H2.
        destruct (popen _ _); simpl in *; rewrite H2, H1, Hk, <- !app_assoc; done.
      * exists [args]. split; [|auto]. simpl. by rewrite H1, Hk, <- app_assoc.
    + exists [args]. split; [|auto]. simpl. by rewrite H1, Hk, <- app_assoc.
  - exists []. split; [|auto]. unfold run_tool. fold (faux_path self).
    by rewrite run_bind, Hm.
Qed.

(** ** [process_report_type] *)

(** [process_report_type] once the command line is in the log. *)
Lemma process_report_type_logged self rtype w :
  writable (logfile self) = true →
  process_report_type self rtype w =
    match run_tool self (tool_args self rtype).1 (logged_args self rtype w) with
    | Ok r w2 => after_tool self (tool_args self rtype).2 (inr r) w2
    | Raise e w2 => after_tool self (tool_args self rtype).2 (inl e) w2
    end.
Proof.
  intros Hl. rewrite process_report_type_unfold, run_bind, run_log_gen, Hl, run_bind.
  unfold try_, logged_args. by destruct (run_tool _ _ _).
Qed.

Lemma process_report_type_after self rtype w :
  process_report_type self rtype w =
    match run_tool self (tool_args self rtype).1 (logged_args self rtype w) with
    | Ok r w2 => after_tool self (tool_args self rtype).2 (inr r) w2
    | Raise e w2 => after_tool self (tool_args self rtype).2 (inl e) w2
    end.
Proof. apply process_report_type_logged, writable_all. Qed.

(** The report cannot be written: [IOError] leaves [after_tool]. *)
Lemma after_tool_unwritable self rtype output result w :
  clean result = true → writable (report_of self rtype) = false →
  after_tool self (tool_args self rtype).2 (inr (output, result)) w
  = Raise (IOError (report_of self rtype)) w.
Proof.
  intros Hc Hw. rewrite after_tool_decoded, Hc, tool_args_snd by by apply clean_valid.
  rewrite run_bind. unfold report_of in *.
  destruct (decide (rtype = "html")); simpl; by rewrite run_write_ro.
Qed.

(** Every [rtype] other than ["html"] is treated as ["csv"]. *)
Theorem process_report_type_other self rtype w :
  rtype ≠ "html" → process_report_type self rtype w = process_report_type self "csv" w.
Proof.
  intros Hr. rewrite !process_report_type_after. unfold logged_args.
  by rewrite (tool_args_other self rtype).
Qed.

(** When the tool runs clean in an HTML run, its output becomes the
    HTML report and the text returned is empty. *)
Theorem process_report_type_html self w output result w2 :
  run_tool self (tool_args self "html").1 (logged_args self "html" w)
  = Ok (output, result) w2 →
  stderr result = "" → returncode result = 0%Z →
  process_report_type self "html" w
  = Ok "" (store (html_report_name self) (stdout result) w2).
Proof.
  intros Hr Hs Hc. rewrite process_report_type_after, Hr.
  apply after_tool_html. by apply clean_true.
Qed.

(** C9. When the tool writes ASCII to its standard error (in its last run) or ends
    with a status other than 0, no report is stored: the text returned is
    the tool's standard error followed by the exit status, it is not empty,
    and only the log is written. *)
Theorem process_report_type_failed self rtype w output result w2 :
  run_tool self (tool_args self rtype).1 (logged_args self rtype w)
  = Ok (output, result) w2 →
  stderr result ≠ "" ∨ returncode result ≠ 0%Z →
  is_ascii (stderr result) = true →
  ∃ w', process_report_type self rtype w = Ok (failure_text result) w' ∧
    failure_text result ≠ "" ∧
    w_trace w' = w_trace w2 ∧
    ∀ path, path ≠ logfile self → w_files w' !! path = w_files w2 !! path.
Proof.
  intros Hr Hd Ha. rewrite process_report_type_after, Hr, after_tool_dirty.
  - eexists; split_and!; [reflexivity|apply failure_text_ne|done|].
    intros path Hp. by rewrite files_store_ne.
  - apply not_true_is_false. rewrite clean_true. tauto.
  - done.
Qed.

(** An exception in the [try] block does not leave the method: the text
    returned names it. *)
Theorem process_report_type_exn self rtype w e w2 :
  run_tool self (tool_args self rtype).1 (logged_args self rtype w) = Raise e w2 →
  ∃ w', process_report_type self rtype w
        = Ok ("Error in executing cve-check-tool" +:+ exc_info e) w' ∧
    w_trace w' = w_trace w2 ∧
    ∀ path, path ≠ logfile self → w_files w' !! path = w_files w2 !! path.
Proof.
  intros Hr. rewrite process_report_type_after, Hr, after_tool_exn.
  eexists; split_and!; [reflexivity|done|].
  intros path Hp. by rewrite files_store_ne.
Qed.

(** The text returned is empty only if the tool ran, wrote nothing to
    its standard error and ended with status 0. *)
Theorem process_report_type_empty self rtype w w' :
  process_report_type self rtype w = Ok "" w' →
  ∃ output result w2,
    run_tool self (tool_args self rtype).1 (logged_args self rtype w)
    = Ok (output, result) w2 ∧
    stderr result = "" ∧ returncode result = 0%Z.
Proof.
  rewrite process_report_type_after.
  destruct (run_tool _ _ _) as [[output result] w2|e w2].
  - intros [? ?]%after_tool_empty%clean_true. by exists output, result, w2.
  - rewrite after_tool_exn. intros Hf. exfalso. discriminate Hf.
Qed.

(** C35. In a CSV run the second call of the kernel-name script is outside
    the [try]: when the script cannot be started there, the exception leaves
    [process_report_type], the CSV report already written. *)
Theorem process_report_type_csv_escapes self w output result w2 e w3 :
  run_tool self (tool_args self "csv").1 (logged_args self "csv" w)
  = Ok (output, result) w2 →
  stderr result = "" → returncode result = 0%Z →
  mapping_of_kernel self (csv_report_name self) "custom" output
    (store (csv_report_name self) (stdout result) w2) = Raise e w3 →
  process_report_type self "csv" w = Raise e w3.
Proof.
  intros Hr Hs Hc Hm. rewrite process_report_type_after, Hr.
  change (tool_args self "csv").2 with "csv".
  rewrite after_tool_csv by by apply clean_true.
  by rewrite run_bind, Hm.
Qed.

(** When the standard error of the first run of the tool is not valid
    UTF-8, the [UnicodeDecodeError] is raised inside the [try]: the tool is
    not run again, the exception is caught, and the text returned names it. *)
Theorem process_report_type_decode_caught self rtype w output w1 r1 w2 :
  mapping_of_kernel self (faux_path self) " " " " (logged_args self rtype w)
  = Ok output w1 →
  popen (tool_args self rtype).1 w1 = Ok r1 w2 →
  utf8_valid (stderr r1) = false →
  ∃ w', process_report_type self rtype w
        = Ok ("Error in executing cve-check-tool"
              +:+ exc_info (UnicodeDecodeError (stderr r1))) w' ∧
    w_trace w' = w_trace w2 ∧
    ∀ path, path ≠ logfile self → w_files w' !! path = w_files w2 !! path.
Proof.
  intros Hm H1 Hv.
  rewrite process_report_type_after, (run_tool_undecodable _ _ _ _ _ _ _ Hm H1 Hv).
  rewrite after_tool_exn. eexists; split_and!; [reflexivity|done|].
  intros path Hp. by rewrite files_store_ne.
Qed.

(** C15. The second [decode] is after the [try]: when the standard error of the
    run that counts is not valid UTF-8, [UnicodeDecodeError] leaves
    [process_report_type], and no report and no line of the log is
    written. *)
Theorem process_report_type_decode_escapes self rtype w output result w2 :
  run_tool self (tool_args self rtype).1 (logged_args self rtype w)
  = Ok (output, result) w2 →
  utf8_valid (stderr result) = false →
  process_report_type self rtype w = Raise (UnicodeDecodeError (stderr result)) w2.
Proof.
  intros Hr Hv. rewrite process_report_type_after, Hr.
  by apply after_tool_undecodable.
Qed.

(** C30. The log is written through the ASCII codec: when the standard error
    of the tool is valid UTF-8 but not ASCII, the write of the failure
    raises [UnicodeEncodeError], which leaves [process_report_type]; the log
    has been opened, and nothing is added to it. *)
Theorem process_report_type_encode_escapes self rtype w output result w2 :
  run_tool self (tool_args self rtype).1 (logged_args self rtype w)
  = Ok (output, result) w2 →
  utf8_valid (stderr result) = true → is_ascii (stderr result) = false →
  process_report_type self rtype w
  = Raise (UnicodeEncodeError ("error: " +:+ failure_text result))
      (store (logfile self) (content w2 (logfile self)) w2).
Proof.
  intros Hr Hv Ha. rewrite process_report_type_after, Hr.
  by apply after_tool_unencodable.
Qed.

(** The report is written after the [try] block: when the tool has
    run clean and the report cannot be opened (the report directory is
    missing or read-only), [IOError] leaves [process_report_type]; the
    commands have run, and nothing is added to the log. *)
Theorem process_report_type_report_unwritable self rtype w output result w2 :
  writable (logfile self) = true → writable (report_of self rtype) = false →
  run_tool self (tool_args self rtype).1 (logged_args self rtype w)
  = Ok (output, result) w2 →
  stderr result = "" → returncode result = 0%Z →
  process_report_type self rtype w = Raise (IOError (report_of self rtype)) w2.
Proof.
  intros Hl Hw Hr Hs Hc. rewrite process_report_type_logged, Hr by done.
  apply after_tool_unwritable; [by apply clean_true|done].
Qed.

End ScanFacts.

(** ** Witnesses *)

(** The command line is put together from the configuration as it is and
    handed to the shell: a proxy with a space or a semicolon in it is more
    than one word of the command. *)
Example tool_args_proxy_unquoted :
  (tool_args (mkChecker 0 "p; id" "" "/r" "t" "/l" "/r/c" "/r/h" "/t") "csv").1
  = "https_proxy=p; id http_proxy=p; id cve-check-tool -c -a -t faux '/r/cve_check_tool_pkglist_t.faux'".
Proof. reflexivity. Qed.

Lemma run_tool_trace_witness :
  ∃ l, w_trace (world_of (@run_tool retry_env demo_self "cve-check-tool" demo_world))
       = w_trace demo_world
         ++ set_linux_kernel_name_arg demo_self (faux_path demo_self) " " " " :: l ∧
    (l = [] ∨ l = ["cve-check-tool"] ∨ l = ["cve-check-tool"; "cve-check-tool"]).
Proof. apply (run_tool_trace (HE:=retry_env)). Defined.

Lemma process_report_type_report_unwritable_witness :
  value_of (@process_report_type no_report_env demo_self "html" demo_world) = None.
Proof.
  erewrite (process_report_type_report_unwritable (HE:=no_report_env));
    [reflexivity|reflexivity|reflexivity|vm_compute; reflexivity|reflexivity|reflexivity].
Defined.

Lemma process_report_type_other_witness :
  @process_report_type clean_env demo_self "pdf" demo_world
  = @process_report_type clean_env demo_self "csv" demo_world.
Proof. by apply (process_report_type_other (HE:=clean_env)). Defined.

Lemma process_report_type_html_witness :
  value_of (@process_report_type clean_env demo_self "html" demo_world) = Some "".
Proof.
  erewrite (process_report_type_html (HE:=clean_env) _);
    [reflexivity|vm_compute; reflexivity|reflexivity..].
Defined.

Lemma process_report_type_failed_witness :
  ∃ w', @process_report_type failing_env demo_self "csv" demo_world
        = Ok (nl +:+ "cve-check-tool terminated with exit code 1") w'.
Proof.
  edestruct (process_report_type_failed (HE:=failing_env) demo_self "csv" demo_world)
    as (w' & Hr & _); [vm_compute; reflexivity|by right|reflexivity|].
  exists w'. exact Hr.
Defined.

Lemma process_report_type_exn_witness :
  ∃ w', @process_report_type broken_env demo_self "csv" demo_world
        = Ok "Error in executing cve-check-toolOSError: fork" w'.
Proof.
  edestruct (process_report_type_exn (HE:=broken_env) demo_self "csv" demo_world)
    as (w' & Hr & _); [vm_compute; reflexivity|].
  exists w'. exact Hr.
Defined.

Lemma process_report_type_empty_witness :
  ∃ output result w2,
    @run_tool clean_env demo_self (tool_args demo_self "html").1
      (logged_args demo_self "html" demo_world)
    = Ok (output, result) w2 ∧ stderr result = "" ∧ returncode result = 0%Z.
Proof.
  eapply (process_report_type_empty (HE:=clean_env) demo_self "html" demo_world).
  vm_compute. reflexivity.
Defined.

Lemma process_report_type_csv_escapes_witness :
  value_of (@process_report_type escape_env demo_self "csv" demo_world) = None.
Proof.
  erewrite (process_report_type_csv_escapes (HE:=escape_env) _);
    [reflexivity|vm_compute; reflexivity|reflexivity|reflexivity|vm_compute; reflexivity].
Defined.

Lemma run_tool_retry_witness :
  value_of (@run_tool retry_env demo_self "cve-check-tool" demo_world)
  = Some ("linux", Completed "report" "" 0).
Proof.
  erewrite (run_tool_retry (HE:=retry_env));
    [reflexivity|vm_compute; reflexivity|vm_compute; reflexivity|reflexivity|done
    |vm_compute; reflexivity].
Defined.

Lemma process_report_type_decode_caught_witness :
  ∃ w', @process_report_type undecodable_env demo_self "csv" demo_world
        = Ok ("Error in executing cve-check-toolUnicodeDecodeError: " +:+ bad_byte) w'.
Proof.
  edestruct (process_report_type_decode_caught (HE:=undecodable_env) demo_self "csv" demo_world)
    as (w' & Hr & _); [vm_compute; reflexivity..|].
  exists w'. exact Hr.
Defined.

Lemma process_report_type_decode_escapes_witness :
  value_of (@process_report_type late_undecodable_env demo_self "csv" demo_world) = None.
Proof.
  erewrite (process_report_type_decode_escapes (HE:=late_undecodable_env));
    [reflexivity|vm_compute; reflexivity|vm_compute; reflexivity].
Defined.

Lemma process_report_type_encode_escapes_witness :
  value_of (@process_report_type accent_env demo_self "html" demo_world) = None.
Proof.
  erewrite (process_report_type_encode_escapes (HE:=accent_env));
    [reflexivity|vm_compute; reflexivity|vm_compute; reflexivity|vm_compute; reflexivity].
Defined.

(** ** Runs in a healthy environment *)

Section Healthy.
(* In this section the files the plugin writes can be opened ([Writable]). *)
Context `{HE : Env} {HH : Healthy} {HA : AsciiValid} {HW : Writable}.
Implicit Types (self : ISA_CVEChecker) (w : World).

(** [mapping_of_kernel] returns, has run its command and written the log. *)
Lemma mapping_of_kernel_healthy self f m c w :
  ∃ out w', mapping_of_kernel self f m c w = Ok out w' ∧
    w_trace w' = w_trace w ++ [set_linux_kernel_name_arg self f m c] ∧
    same_outside {[logfile self]} w w'.
Proof.
  unfold mapping_of_kernel, log. rewrite run_bind, run_append, run_bind.
  edestruct popen_healthy as [out ->]. rewrite run_bind, run_append.
  eexists _, _. split_and!; [done..|].
  intros path Hp. rewrite files_store_ne by solve_not_in. simpl. apply files_store_ne. solve_not_in.
Qed.

Lemma run_tool_healthy self args w :
  ∃ output out w', run_tool self args w = Ok (output, Completed out "" 0) w' ∧
    w_trace w' = w_trace w ++ [set_linux_kernel_name_arg self (faux_path self) " " " "; args] ∧
    same_outside {[logfile self]} w w'.
Proof.
  destruct (mapping_of_kernel_healthy self (faux_path self) " " " " w)
    as (output & w1 & Hm & Ht & Hf).
  rewrite (run_tool_first _ _ _ _ _ Hm). destruct (popen_healthy args w1) as [out ->].
  exists output, out, (ran args w1). rewrite utf8_valid_ascii by done.
  split_and!; [done| |done].
  simpl. by rewrite Ht, <- app_assoc.
Qed.


Lemma same_outside_logged_args self rtype w :
  same_outside {[logfile self]} w (logged_args self rtype w).
Proof. apply same_outside_store. set_solver. Qed.

(** A run of [process_report_type] in a healthy environment: the report
    is stored, the text returned is empty. *)
Lemma process_report_type_healthy self rtype w :
  report_of self rtype ≠ logfile self →
  ∃ output out w', process_report_type self rtype w = Ok "" w' ∧
    w_trace w' = w_trace w ++ commands self rtype output ∧
    w_files w' !! report_of self rtype = Some out ∧
    same_outside {[logfile self; report_of self rtype]} w w'.
Proof.
  intros Hne. rewrite process_report_type_after, tool_args_snd.
  pose proof (same_outside_logged_args self rtype w) as Hl.
  destruct (run_tool_healthy self (tool_args self rtype).1 (logged_args self rtype w))
    as (output & out & w2 & -> & Ht & Hf).
  exists output, out. unfold commands, report_of in *. destruct (decide (rtype = "html")).
  - rewrite after_tool_html by done. eexists. split_and!; [done| |apply files_store|].
    + by rewrite app_nil_r.
    + intros path Hp. rewrite files_store_ne, Hf, Hl by solve_not_in. done.
  - rewrite after_tool_csv by done.
    edestruct (mapping_of_kernel_healthy self (csv_report_name self) "custom" output)
      as (out2 & w3 & Hm & Ht3 & Hf3).
    rewrite run_bind, Hm. exists w3. split_and!; [done| | |].
    + rewrite Ht3. simpl. by rewrite Ht, <- !app_assoc.
    + rewrite Hf3 by solve_not_in. apply files_store.
    + intros path Hp. rewrite Hf3, files_store_ne, Hf, Hl by solve_not_in. done.
Qed.

End Healthy.

(** ** Frames *)

Section Frames.
Context `{Confined X}.

Lemma mapping_of_kernel_frame Y self f m c :
  X ⊆ Y → logfile self ∈ Y → writes Y (mapping_of_kernel self f m c).
Proof. intros. unfold mapping_of_kernel, log. solve_writes. Qed.

Hint Resolve mapping_of_kernel_frame : frame.

(** [process_report_type] writes the log and the two reports, and what
    its commands write. *)
Lemma process_report_type_frame Y self rtype :
  X ⊆ Y → logfile self ∈ Y → csv_report_name self ∈ Y → html_report_name self ∈ Y →
  writes Y (process_report_type self rtype).
Proof.
  intros. apply (writes_ext _ _ _ (process_report_type_unfold self rtype)).
  unfold run_tool, after_tool, log. solve_writes.
Qed.

End Frames.

#[export] Hint Resolve @mapping_of_kernel_frame @process_report_type_frame : frame.

(** The commands and the files of a report are no part of the heap:
    [process_report_type] leaves every object as it is. *)
Lemma mapping_of_kernel_keeps `{Env} self f m c : keeps_heap (mapping_of_kernel self f m c).
Proof. unfold mapping_of_kernel, log. solve_keeps. Qed.

#[export] Hint Resolve @mapping_of_kernel_keeps : heap.

Lemma process_report_type_keeps `{Env} self rtype : keeps_heap (process_report_type self rtype).
Proof.
  apply (keeps_ext _ _ (process_report_type_unfold self rtype)).
  unfold run_tool, after_tool, log. solve_keeps.
Qed.

#[export] Hint Resolve @process_report_type_keeps : heap.

(** ** The log only grows *)

Lemma mapping_of_kernel_grows `{Confined X} p self f m c :
  p ∉ X → preserves (grows p) (mapping_of_kernel self f m c).
Proof. intros Hp. unfold mapping_of_kernel, log. solve_preserves. Qed.

#[export] Hint Resolve @mapping_of_kernel_grows : preserves.

(** A run of the tool opens one file with the mode ['wb'], its report:
    every other file that the commands leave alone keeps what is in it. *)
Lemma process_report_type_grows `{Confined X} p self rtype :
  p ∉ X → csv_report_name self ≠ p → html_report_name self ≠ p →
  preserves (grows p) (process_report_type self rtype).
Proof.
  intros Hp Hc Hh. apply (preserves_ext _ _ _ (process_report_type_unfold self rtype)).
  unfold run_tool, after_tool, log. solve_preserves.
Qed.

#[export] Hint Resolve @process_report_type_grows : preserves.

(** ** Exceptions *)

Lemma mapping_of_kernel_escapes `{Env} X self f m c :
  logfile self ∈ X → raises (escapes X self) (mapping_of_kernel self f m c).
Proof. intros. unfold mapping_of_kernel. solve_raises. Qed.

#[export] Hint Resolve @mapping_of_kernel_escapes : raises.

(** What is raised inside the [try] block stays there: the exceptions
    that leave [process_report_type] are those of the log, of the second
    decode, of the report, of the second call of the script and of the
    write of the failure. *)
Lemma process_report_type_escapes `{Env} X self rtype :
  logfile self ∈ X → csv_report_name self ∈ X → html_report_name self ∈ X →
  raises (escapes X self) (process_report_type self rtype).
Proof.
  intros. apply (raises_ext _ _ _ (process_report_type_unfold self rtype)).
  unfold after_tool. solve_raises.
Qed.

#[export] Hint Resolve @process_report_type_escapes : raises.

(** ** Commands *)

Section Commands.
Context `{Env}.

(** [mapping_of_kernel] starts its script. *)
Lemma mapping_of_kernel_spawns self f m c : spawns 1 (mapping_of_kernel self f m c).
Proof. unfold mapping_of_kernel, log. solve_spawns. Qed.

Hint Resolve mapping_of_kernel_spawns : trace.

(** The [try] block starts the script and the tool, and the tool once
    more at most. *)
Lemma run_tool_spawns self args : spawns 3 (run_tool self args).
Proof. unfold run_tool, log. solve_spawns. Qed.

(** What follows the [try] starts the script again, in a CSV run only. *)
Lemma after_tool_spawns self rtype r :
  spawns (if decide (rtype = "csv") then 1 else 0) (after_tool self rtype r).
Proof.
  unfold after_tool, log. destruct (decide (rtype = "csv")); cbv beta iota; solve_spawns.
Qed.

Hint Resolve run_tool_spawns after_tool_spawns : trace.

(** A run of [process_report_type] starts at most four commands, three for
    an HTML report. *)
Lemma process_report_type_spawns self rtype :
  spawns (if decide (rtype = "html") then 3 else 4) (process_report_type self rtype).
Proof.
  apply (spawns_ext _ _ _ (process_report_type_unfold self rtype)). unfold log.
  eapply spawns_weaken; [repeat spawns_step|].
  rewrite tool_args_snd. repeat case_decide; simplify_eq; simpl; lia.
Qed.

(** [mapping_of_kernel] starts its command and returns what it printed. *)
Lemma mapping_of_kernel_issues P self f m c :
  P (set_linux_kernel_name_arg self f m c) → issues P (mapping_of_kernel self f m c).
Proof. intros HP. unfold mapping_of_kernel, log. by solve_issues. Qed.

Lemma mapping_of_kernel_returns self f m c :
  returns (printed (set_linux_kernel_name_arg self f m c)) (mapping_of_kernel self f m c).
Proof.
  unfold mapping_of_kernel. cbv zeta.
  eapply returns_bind; [apply returns_any|intros _ _].
  eapply returns_bind; [apply returns_popen|intros p Hp].
  eapply returns_bind; [apply returns_any|intros _ _]. by apply returns_ret.
Qed.

(** The name of the kernel the [try] block hands on is what the script
    printed. *)
Lemma run_tool_returns self args :
  returns (λ r, printed (set_linux_kernel_name_arg self (faux_path self) " " " ") r.1)
    (run_tool self args).
Proof.
  unfold run_tool. cbv zeta.
  eapply returns_bind; [apply mapping_of_kernel_returns|intros output Ho].
  eapply returns_bind; [apply returns_any|intros result _].
  eapply returns_bind; [apply returns_any|intros tool_stderr _].
  destruct (truth tool_stderr); [|by apply returns_ret].
  eapply returns_bind; [apply returns_any|intros _ _].
  eapply returns_bind; [apply returns_any|intros result' _]. by apply returns_ret.
Qed.

Lemma run_tool_issues self rtype : issues (issued self) (run_tool self (tool_args self rtype).1).
Proof.
  unfold run_tool, log. solve_issues; try apply issued_tool.
  apply mapping_of_kernel_issues, issued_script.
Qed.

Lemma after_tool_issues self rtype r :
  (∀ a, r = inr a → printed (set_linux_kernel_name_arg self (faux_path self) " " " ") a.1) →
  issues (issued self) (after_tool self rtype r).
Proof.
  intros Hr. unfold after_tool, log. destruct r as [e|[output result]]; solve_issues.
  apply mapping_of_kernel_issues. rewrite decide_True by congruence.
  by apply issued_custom, (Hr (output, result)).
Qed.

(** The commands of [process_report_type] are the script on the batch
    file, the tool (twice when it wrote to its standard error), and for a
    CSV report the script on the report, with what the first run of the
    script printed as the name of the kernel. *)
Lemma process_report_type_issues self rtype :
  issues (issued self) (process_report_type self rtype).
Proof.
  apply (issues_ext _ _ _ (process_report_type_unfold self rtype)). unfold log.
  solve_issues; [apply run_tool_issues|].
  apply after_tool_issues. by eapply returns_try; [apply run_tool_returns|].
Qed.

End Commands.

#[export] Hint Resolve @mapping_of_kernel_spawns @run_tool_spawns @after_tool_spawns
  @process_report_type_spawns : trace.
#[export] Hint Resolve @process_report_type_issues : trace.

End Scan.
