(* ===== verification/ReportXml.v ===== *)
(** * ReportXml: [write_report_xml]

    The method turns the CSV report of cve-check-tool, or the error text of
    a failed run, into a JUnit-style test suite: one [testcase] per line of
    the CSV, with a [failure] child when the third field of the line starts
    with ["CVE"], and an attribute [tests] that counts the lines.

    The element tree is data ([element]); putting it into bytes is the XML
    library's work and is the interface [Etree] (lxml accepts
    [pretty_print], the two ElementTree modules raise [TypeError] on it and
    the method then writes without it).

    [is_testsuite] is the shape of a JUnit report as a decidable predicate;
    the tree the method builds always has it. *)

From S2P Require Import Prelude PyStr Sys Trace Heap Raises Checker.
Import Py Sys Trace Heap Raises Checker.

Module ReportXml.

(** ** Element trees *)

(** An element: its tag, its attributes (a dict in etree) and its children
    in document order. *)
#[warning="-register-all"] Inductive element : Type :=
| Element (tag : string) (attrib : gmap string string) (children : list element).

Definition tag (e : element) : string := let 'Element t _ _ := e in t.
Definition attrib (e : element) : gmap string string := let 'Element _ a _ := e in a.
Definition children (e : element) : list element := let 'Element _ _ c := e in c.

(** [etree.SubElement(parent, ...)]: the new element becomes the last child
    of [parent]. *)
Definition SubElement (parent child : element) : element :=
  Element (tag parent) (attrib parent) (children parent ++ [child]).

(** [e.set(key, value)] *)
Definition set (key value : string) (e : element) : element :=
  Element (tag e) (<[key := value]> (attrib e)) (children e).

(** The XML library: how a tree is written out. *)
Class Etree : Type := {
  (* [tree.write(_, encoding='UTF-8', xml_declaration=True)] *)
  tostring : element → string;
  (* the same with [pretty_print=True], where the library accepts it *)
  tostring_pretty : option (element → string);
}.

(** ** The test cases *)

(** [<failure message=... type="violation"/>] *)
Definition failure (message : string) : element :=
  Element "failure" {[ "message" := message; "type" := "violation" ]} [].

(** [<testcase classname="ISA_CVEChecker" name=...>], with its [failure]
    child when it has one. *)
Definition testcase (name : string) (fail : option string) : element :=
  Element "testcase" {[ "classname" := "ISA_CVEChecker"; "name" := name ]}
    (match fail with Some message => [failure message] | None => [] end).

(** Whether a stripped line reports a CVE:
    [len(line_sp) >= 3 and line_sp[2].startswith('CVE')]. *)
Definition is_violation (line : string) : bool :=
  let line_sp := splitn "," line 2 in
  (3 <=? length line_sp) &&
  match line_sp !! 2 with Some f => startswith f "CVE" | None => false end.

(** [line.split(',', 1)[0]] *)
Definition line_name (line : string) : string :=
  default "" (splitn "," line 1 !! 0).

(** One iteration of [for line in f], on the root and the counter. *)
Definition report_line (acc : nat * element) (line : string) : nat * element :=
  let '(num_tests, root) := acc in
  let num_tests := num_tests + 1 in
  let line := strip line in
  if is_violation line
  then (num_tests, SubElement root (testcase (line_name line) (Some line)))
  else (num_tests, SubElement root (testcase (line_name line) None)).

Section WithEnv.
Context `{HE : Env} {HX : Etree}.

Definition write_report_xml (self : ISA_CVEChecker) (result : string) : M unit :=
  let num_tests := 0 in
  let root := Element "testsuite" {[ "name" := "CVE_Plugin"; "tests" := "1" ]} [] in
  '(num_tests, root) ←
    (if truth result then
       let num_tests := 1 in
       mret (num_tests,
             SubElement root (testcase "Error in cve-check-tool" (Some result)))
     else
       f ← read_file (csv_report_name self);
       mret (foldl report_line (num_tests, root) (readlines f)));
  let root := set "tests" (str_of_nat num_tests) root in
  let output := csv_report_name self +:+ ".xml" in
  match tostring_pretty with
  | Some pretty => write_file output (pretty root)
  | None => write_file output (tostring root)
  end.

End WithEnv.

(** ** Reference definitions *)

(** The test case [write_report_xml] makes of one line of the CSV report. *)
Definition line_case (line : string) : element :=
  let line := strip line in
  testcase (line_name line) (if is_violation line then Some line else None).

(** The test suite with the given test cases, [tests] being their number. *)
Definition testsuite (cases : list element) : element :=
  Element "testsuite"
    {[ "name" := "CVE_Plugin"; "tests" := str_of_nat (length cases) ]} cases.

(** ** The shape of a JUnit report *)

(** [<failure message=... type="violation"/>], without children. *)
Definition is_failure (e : element) : bool :=
  bool_decide (tag e = "failure")
  && bool_decide (dom (attrib e) = ({[ "message"; "type" ]} : gset string))
  && bool_decide (attrib e !! "type" = Some "violation")
  && match children e with [] => true | _ => false end.

(** [<testcase classname=... name=...>], empty or with one [failure]. *)
Definition is_testcase (e : element) : bool :=
  bool_decide (tag e = "testcase")
  && bool_decide (dom (attrib e) = ({[ "classname"; "name" ]} : gset string))
  && match children e with [] => true | [f] => is_failure f | _ => false end.

(** [<testsuite name=... tests=...>]: its children are test cases and
    [tests] is their number. *)
Definition is_testsuite (e : element) : bool :=
  bool_decide (tag e = "testsuite")
  && bool_decide (dom (attrib e) = ({[ "name"; "tests" ]} : gset string))
  && bool_decide (attrib e !! "tests" = Some (str_of_nat (length (children e))))
  && forallb is_testcase (children e).

(** What the library writes for a tree: pretty-printed where it can. *)
Definition render `{Etree} (root : element) : string :=
  match tostring_pretty with
  | Some pretty => pretty root
  | None => tostring root
  end.

(** ** Sample values *)

(** A library without [pretty_print] that writes the tag and the count. *)
Definition demo_etree : Etree := {|
  tostring := λ e, tag e +:+ " tests=" +:+ default "" (attrib e !! "tests");
  tostring_pretty := None;
|}.

Definition demo_csv : string :=
  "busybox,1.24.1,CVE-2016-2147 CVE-2016-2148," +:+ nl +:+ "zlib,1.2.8,," +:+ nl.

(** ** The loop as a map *)

Lemma report_line_case acc line :
  report_line acc line = (acc.1 + 1, SubElement acc.2 (line_case line)).
Proof.
  destruct acc as [n root]. unfold report_line, line_case. simpl.
  by destruct (is_violation _).
Qed.

Lemma foldl_report_line n root lines :
  foldl report_line (n, root) lines
  = (n + length lines,
     Element (tag root) (attrib root) (children root ++ (line_case <$> lines))).
Proof.
  revert n root; induction lines as [|l lines IH]; intros n root.
  - destruct root. simpl. by rewrite Nat.add_0_r, app_nil_r.
  - change (foldl report_line (n, root) (l :: lines))
      with (foldl report_line (report_line (n, root) l) lines).
    rewrite report_line_case, IH. simpl. f_equal; [lia|]. by rewrite <- app_assoc.
Qed.

Lemma set_tests v cases :
  set "tests" v (Element "testsuite" {[ "name" := "CVE_Plugin"; "tests" := "1" ]} cases)
  = Element "testsuite" {[ "name" := "CVE_Plugin"; "tests" := v ]} cases.
Proof.
  unfold set. simpl. by f_equal.
Qed.


(** ** The elements the method builds have the shape of a JUnit report *)

Lemma dom_pair (k1 k2 v1 v2 : string) :
  dom ({[ k1 := v1; k2 := v2 ]} : gmap string string) = {[ k1; k2 ]}.
Proof. by rewrite dom_insert_L, dom_singleton_L. Qed.

Lemma lookup_pair_snd (k1 k2 v1 v2 : string) :
  k1 ≠ k2 → ({[ k1 := v1; k2 := v2 ]} : gmap string string) !! k2 = Some v2.
Proof. intros. by rewrite lookup_insert_ne, lookup_singleton_eq. Qed.

Lemma failure_is_failure message : is_failure (failure message) = true.
Proof. unfold is_failure, failure. simpl. rewrite dom_pair. by rewrite !bool_decide_eq_true_2. Qed.

Lemma testcase_is_testcase name fail : is_testcase (testcase name fail) = true.
Proof.
  unfold is_testcase, testcase. simpl. rewrite dom_pair, !bool_decide_eq_true_2 by done.
  destruct fail; [apply failure_is_failure|done].
Qed.

Lemma testsuite_is_testsuite cases :
  forallb is_testcase cases = true → is_testsuite (testsuite cases) = true.
Proof.
  intros Hc. unfold is_testsuite, testsuite. simpl.
  by rewrite dom_pair, Hc, lookup_pair_snd, !bool_decide_eq_true_2.
Qed.

Lemma line_cases_testcases lines : forallb is_testcase (line_case <$> lines) = true.
Proof.
  induction lines as [|l lines IH]; [done|]. rewrite fmap_cons. simpl.
  rewrite IH. unfold line_case. by rewrite testcase_is_testcase.
Qed.

(** ** The lines of the report *)

(** A line is a violation exactly when it has the form [n,v,CVE...], [n] and
    [v] free of commas. *)
Lemma is_violation_spec line :
  is_violation line = true ↔
  ∃ n v rest, line = n +:+ "," +:+ v +:+ "," +:+ "CVE" +:+ rest ∧
    count_char "," n = 0 ∧ count_char "," v = 0.
Proof.
  unfold is_violation. split.
  - intros [Hl Hf]%andb_prop.
    destruct (splitn "," line 2) as [|n [|v [|f l]]] eqn:Hs; try done.
    change (startswith f "CVE" = true) in Hf. apply startswith_spec in Hf as [rest ->].
    destruct (splitn_cons_inv _ _ _ _ _ Hs) as (r1 & -> & Hn & Hs1); [done|].
    destruct (splitn_cons_inv _ _ _ _ _ Hs1) as (r2 & -> & Hv & Hs2); [done|].
    rewrite splitn_0 in Hs2. injection Hs2 as -> <-. by exists n, v, rest.
  - intros (n & v & rest & -> & Hn & Hv).
    change (n +:+ "," +:+ v +:+ "," +:+ "CVE" +:+ rest)
      with (n +:+ "," ::: (v +:+ "," ::: ("CVE" +:+ rest))).
    rewrite !splitn_app_sep, splitn_0 by done.
    apply andb_true_intro. split; [done|apply (startswith_app "CVE" rest)].
Qed.

Lemma line_name_comma n rest :
  count_char "," n = 0 → line_name (n +:+ "," +:+ rest) = n.
Proof.
  intros Hn. unfold line_name.
  change (n +:+ "," +:+ rest) with (n +:+ "," ::: rest).
  by rewrite splitn_app_sep.
Qed.

Lemma line_name_plain line : count_char "," line = 0 → line_name line = line.
Proof. intros Hn. unfold line_name. by rewrite splitn_split, split_count_0 by lia. Qed.

(** The name of a test case never holds a comma. *)
Lemma line_name_no_comma line : count_char "," (line_name line) = 0.
Proof.
  unfold line_name. destruct (splitn "," line 1) as [|a l] eqn:Hs; [done|].
  simpl. by eapply splitn_head.
Qed.

(** On a line of three fields or more the test is on the third. *)
Lemma is_violation_fields n v rest :
  count_char "," n = 0 → count_char "," v = 0 →
  is_violation (n +:+ "," +:+ v +:+ "," +:+ rest) = startswith rest "CVE".
Proof.
  intros Hn Hv. unfold is_violation.
  change (n +:+ "," +:+ v +:+ "," +:+ rest) with (n +:+ "," ::: (v +:+ "," ::: rest)).
  by rewrite !splitn_app_sep, splitn_0 by done.
Qed.

(** One iteration of the loop counts the line and appends one test
    case to the suite; the test case has a [failure] child exactly when the
    line, stripped, is [n,v,CVE...] with [n] and [v] free of commas, and the
    child carries the stripped line as its message. *)
Theorem report_line_failure k root line :
  ∃ c, report_line (k, root) line = (k + 1, SubElement root c) ∧
    tag c = "testcase" ∧
    (children c = [failure (strip line)] ∨ children c = []) ∧
    (children c ≠ [] ↔
     ∃ n v rest, strip line = n +:+ "," +:+ v +:+ "," +:+ "CVE" +:+ rest ∧
       count_char "," n = 0 ∧ count_char "," v = 0).
Proof.
  exists (line_case line). rewrite report_line_case, <- is_violation_spec.
  unfold line_case. simpl.
  destruct (is_violation _); split_and!; auto; split; (done || discriminate).
Qed.

(** A line whose third field does not start with [CVE] gives a test
    case without a failure, named by the first field. *)
Theorem report_line_clean k root n v rest :
  strip (n +:+ "," +:+ v +:+ "," +:+ rest) = n +:+ "," +:+ v +:+ "," +:+ rest →
  count_char "," n = 0 → count_char "," v = 0 → startswith rest "CVE" = false →
  report_line (k, root) (n +:+ "," +:+ v +:+ "," +:+ rest)
  = (k + 1, SubElement root (testcase n None)).
Proof.
  intros Hs Hn Hv Hr. rewrite report_line_case. unfold line_case.
  by rewrite Hs, is_violation_fields, Hr, line_name_comma.
Qed.

(** A line [n,v,CVE...] with white space around it gives a test case
    named [n] that fails with the line, the white space removed, as its
    message. *)
Theorem report_line_violation k root ws1 n v rest ws2 :
  all_chars Ascii.is_space ws1 = true → all_chars Ascii.is_space ws2 = true →
  strip (n +:+ "," +:+ v +:+ "," +:+ "CVE" +:+ rest)
  = n +:+ "," +:+ v +:+ "," +:+ "CVE" +:+ rest →
  count_char "," n = 0 → count_char "," v = 0 →
  report_line (k, root) (ws1 +:+ (n +:+ "," +:+ v +:+ "," +:+ "CVE" +:+ rest) +:+ ws2)
  = (k + 1,
     SubElement root (testcase n (Some (n +:+ "," +:+ v +:+ "," +:+ "CVE" +:+ rest)))).
Proof.
  intros H1 H2 Hs Hn Hv. rewrite report_line_case. unfold line_case.
  rewrite strip_app_ws, Hs by done.
  rewrite (proj2 (is_violation_spec _)) by by exists n, v, rest.
  by rewrite line_name_comma.
Qed.

Lemma report_line_violation_witness :
  report_line (0, testsuite [])
    (" " +:+ ("busybox" +:+ "," +:+ "1.24.1" +:+ "," +:+ "CVE" +:+ "-2016-2147,") +:+ nl)
  = (1, SubElement (testsuite [])
          (testcase "busybox" (Some "busybox,1.24.1,CVE-2016-2147,"))).
Proof. by apply (report_line_violation 0 _ " " "busybox" "1.24.1" "-2016-2147," nl). Defined.

Lemma report_line_clean_witness :
  report_line (0, testsuite []) ("zlib" +:+ "," +:+ "1.2.8" +:+ "," +:+ ",")
  = (1, SubElement (testsuite []) (testcase "zlib" None)).
Proof. by apply (report_line_clean 0 _ "zlib" "1.2.8" ","). Defined.

(** ** [write_report_xml] *)

(** A call that returns has written the XML file and nothing else,
    whatever can and cannot be opened. *)
Lemma write_report_xml_store `{Env} `{Etree} self result w w' :
  write_report_xml self result w = Ok tt w' →
  ∃ s, w' = store (csv_report_name self +:+ ".xml") s w.
Proof.
  unfold write_report_xml. rewrite run_bind.
  assert (∀ s w0, write_file (csv_report_name self +:+ ".xml") s w0 = Ok tt w' →
                  ∃ s', w' = store (csv_report_name self +:+ ".xml") s' w0) as Hw.
  { intros s w0. unfold write_file. destruct (writable _); [|done]. intros [= <-]. eauto. }
  destruct (truth result).
  - rewrite run_ret. destruct tostring_pretty; apply Hw.
  - rewrite run_bind. unfold read_file. destruct (w_files w !! _); [|done].
    rewrite run_ret. destruct (foldl _ _ _). destruct tostring_pretty; apply Hw.
Qed.

Section XmlFacts.
(* In this section the files the plugin writes can be opened ([Writable]). *)
Context `{HE : Env} {HX : Etree} {HW : Writable}.

Lemma write_report_xml_run self result w :
  write_report_xml self result w =
    if truth result then
      Ok tt (store (csv_report_name self +:+ ".xml")
               (render (testsuite [testcase "Error in cve-check-tool" (Some result)])) w)
    else
      match w_files w !! csv_report_name self with
      | Some f =>
          Ok tt (store (csv_report_name self +:+ ".xml")
                   (render (testsuite (line_case <$> readlines f))) w)
      | None => Raise (IOError (csv_report_name self)) w
      end.
Proof.
  unfold write_report_xml, render, testsuite. rewrite run_bind.
  destruct (truth result).
  - rewrite run_ret. unfold SubElement. simpl. rewrite set_tests.
    by destruct tostring_pretty; rewrite run_write.
  - rewrite run_bind. unfold read_file.
    destruct (w_files w !! csv_report_name self) as [f|]; [|done].
    rewrite run_ret, foldl_report_line. simpl. rewrite set_tests, length_fmap.
    by destruct tostring_pretty; rewrite run_write.
Qed.


(** C7. With an empty [result] and a CSV report in place, the XML file holds
    the test suite with one test case per line of the report, in the order
    of the lines, and [tests] is the number of lines; no other file
    changes. *)
Theorem write_report_xml_csv self w f :
  w_files w !! csv_report_name self = Some f →
  write_report_xml self "" w
  = Ok tt (store (csv_report_name self +:+ ".xml")
             (render (testsuite (line_case <$> readlines f))) w).
Proof. intros Hf. by rewrite write_report_xml_run, Hf. Qed.

(** With a [result] that is not empty the CSV report is not read: the XML
    file holds a suite of one failing test case whose message is
    [result]. *)
Theorem write_report_xml_error self result w :
  result ≠ "" →
  write_report_xml self result w
  = Ok tt (store (csv_report_name self +:+ ".xml")
             (render (testsuite [testcase "Error in cve-check-tool" (Some result)])) w).
Proof. intros Hr%truth_true. by rewrite write_report_xml_run, Hr. Qed.

(** With an empty [result] and no CSV report the method raises [IOError]
    and writes nothing. *)
Theorem write_report_xml_missing self w :
  w_files w !! csv_report_name self = None →
  write_report_xml self "" w = Raise (IOError (csv_report_name self)) w.
Proof. intros Hf. by rewrite write_report_xml_run, Hf. Qed.

(** Whenever the method returns, what it wrote is a test suite whose
    attribute [tests] is the number of its children, all of them test
    cases, and it wrote to the XML file only. *)
Theorem write_report_xml_suite self result w w' :
  write_report_xml self result w = Ok tt w' →
  ∃ cases, w' = store (csv_report_name self +:+ ".xml") (render (testsuite cases)) w ∧
    attrib (testsuite cases) !! "tests" = Some (str_of_nat (length cases)) ∧
    Forall (λ c, tag c = "testcase") cases.
Proof.
  rewrite write_report_xml_run. destruct (truth result).
  - intros [= <-]. eexists; split_and!; [done|done|by repeat constructor].
  - destruct (w_files w !! _) as [f|]; [|done]. intros [= <-].
    eexists; split_and!; [done|done|]. by apply Forall_fmap, Forall_true.
Qed.

(** C26. Wherever the method has something to report, an error text or a
    CSV report in place, it returns, and the tree it hands to the XML
    library is a JUnit test suite: a [testsuite] with the attributes [name]
    and [tests], [tests] the number of its children, each child a
    [testcase] with the attributes [classname] and [name] that is empty or
    holds one [failure] of type [violation] with a message. *)
Theorem write_report_xml_junit self result w :
  result ≠ "" ∨ is_Some (w_files w !! csv_report_name self) →
  ∃ root, is_testsuite root = true ∧
    write_report_xml self result w
    = Ok tt (store (csv_report_name self +:+ ".xml") (render root) w).
Proof.
  intros Hr. rewrite write_report_xml_run. destruct (truth result) eqn:Ht.
  - eexists. split; [|done]. apply testsuite_is_testsuite. simpl.
    by rewrite testcase_is_testcase.
  - destruct Hr as [Hr%truth_true|[f Hf]]; [congruence|]. rewrite Hf.
    eexists. split; [|done]. apply testsuite_is_testsuite, line_cases_testcases.
Qed.

End XmlFacts.

(** ** Witnesses *)

Lemma write_report_xml_junit_witness :
  ∃ root, is_testsuite root = true ∧
    @write_report_xml plain_env demo_etree demo_self ""
      (store "/build/report/cve_report" demo_csv demo_world)
    = Ok tt (store "/build/report/cve_report.xml" (@render demo_etree root)
               (store "/build/report/cve_report" demo_csv demo_world)).
Proof.
  apply (write_report_xml_junit (HE:=plain_env) (HX:=demo_etree)). right. by_decide.
Defined.

Lemma write_report_xml_csv_witness :
  @write_report_xml plain_env demo_etree demo_self ""
    (store "/build/report/cve_report" demo_csv demo_world)
  = Ok tt (store "/build/report/cve_report.xml" "testsuite tests=2"
             (store "/build/report/cve_report" demo_csv demo_world)).
Proof.
  rewrite (write_report_xml_csv (HE:=plain_env) (HX:=demo_etree) _ _ demo_csv); [by vm_compute|].
  apply files_store.
Defined.

Lemma write_report_xml_error_witness :
  @write_report_xml plain_env demo_etree demo_self "boom" demo_world
  = Ok tt (store "/build/report/cve_report.xml" "testsuite tests=1" demo_world).
Proof. rewrite (write_report_xml_error (HE:=plain_env) (HX:=demo_etree)); [by vm_compute|done]. Defined.

Lemma write_report_xml_missing_witness :
  @write_report_xml plain_env demo_etree demo_self "" demo_world
  = Raise (IOError "/build/report/cve_report") demo_world.
Proof. rewrite (write_report_xml_missing (HE:=plain_env) (HX:=demo_etree)); [by vm_compute|done]. Defined.

Lemma write_report_xml_suite_witness :
  ∃ cases,
    store "/build/report/cve_report.xml" "testsuite tests=1" demo_world
    = store "/build/report/cve_report.xml" (@render demo_etree (testsuite cases)) demo_world ∧
    attrib (testsuite cases) !! "tests" = Some (str_of_nat (length cases)) ∧
    Forall (λ c, tag c = "testcase") cases.
Proof.
  apply (write_report_xml_suite (HE:=plain_env) (HX:=demo_etree) demo_self "boom").
  by vm_compute.
Defined.

(** ** Frames *)

(** [write_report_xml] writes the XML file only. *)
Lemma write_report_xml_frame `{Env} `{Etree} Y self result :
  csv_report_name self +:+ ".xml" ∈ Y → writes Y (write_report_xml self result).
Proof. intros. unfold write_report_xml. solve_writes. Qed.

#[export] Hint Resolve @write_report_xml_frame : frame.

(** And it leaves every object as it is. *)
Lemma write_report_xml_keeps `{Env} `{Etree} self result :
  keeps_heap (write_report_xml self result).
Proof. unfold write_report_xml. solve_keeps. Qed.

#[export] Hint Resolve @write_report_xml_keeps : heap.

(** The summary is the one file [write_report_xml] writes. *)
Lemma write_report_xml_grows `{Env} `{Etree} p self result :
  xml_path self ≠ p → preserves (grows p) (write_report_xml self result).
Proof. intros Hx. unfold write_report_xml. fold (xml_path self). solve_preserves. Qed.

#[export] Hint Resolve @write_report_xml_grows : preserves.

(** ** Exceptions *)

(** [write_report_xml] raises for the CSV report when it is not there,
    and for the XML file when it cannot be opened. *)
Lemma write_report_xml_escapes `{Env} `{Etree} X self result :
  xml_path self ∈ X → raises (escapes X self) (write_report_xml self result).
Proof. intros. unfold write_report_xml, xml_path in *. solve_raises. Qed.

#[export] Hint Resolve @write_report_xml_escapes : raises.

(** ** Commands *)

(** [write_report_xml] starts no command. *)
Lemma write_report_xml_spawns `{Env} `{Etree} self result : spawns 0 (write_report_xml self result).
Proof. unfold write_report_xml. solve_spawns. Qed.

#[export] Hint Resolve @write_report_xml_spawns : trace.

End ReportXml.
