(* ===== verification/Report.v ===== *)
(** * Report: [process_report]

    The method the framework calls once all packages are recorded: when the
    batch file exists and the checker is initialized it produces the CSV
    report, the HTML report, removes the batch file and writes the XML
    summary of the CSV report.  The text handed to [write_report_xml] is
    what the HTML run returned: the value of the CSV run is overwritten.

    [process_report_guard] and [process_report_run] give the method in
    closed form; the theorems are its cases: nothing to do, the summary of a
    clean run, the failing test case of a failed HTML run, and the three
    ways an exception leaves it.  Then come the whole call in a healthy
    environment, the files it writes, the heap, which it leaves as it is,
    and the commands it starts, seven at most. *)

From S2P Require Import Prelude PyStr Utf8 Sys Trace Heap Raises Checker Scan ReportXml.
Import Py Utf8 Sys Trace Heap Raises Checker Scan ReportXml.

Module Report.

Section WithEnv.
Context `{Env} `{Etree}.

Definition process_report (self : ISA_CVEChecker) : M unit :=
  present ← isfile (reportdir self +:+ pkglist +:+ "_" +:+ timestamp self +:+ ".faux");
  if negb present then mret tt
  else
    is_on ← initialized self;
    if is_on : bool then
      log self ("Creating report in CSV format." +:+ nl);;
      result ← process_report_type self "csv";
      log self ("Creating report in HTML format." +:+ nl);;
      result ← process_report_type self "html";
      remove (reportdir self +:+ pkglist_faux self);;
      log self ("Creating report in XML format." +:+ nl);;
      write_report_xml self result
    else mret tt.

End WithEnv.

(** ** Reference definitions *)

(** The world in which [write_report_xml] starts when the two runs of
    the tool have left the world [w2]. *)
Definition before_xml (self : ISA_CVEChecker) (w2 : World) : World :=
  logged self ("Creating report in XML format." +:+ nl) (unlink (faux_path self) w2).

(** ** Sample values *)

(** A world that holds a batch file of one line. *)
Definition batch_world : World :=
  store (faux_path demo_self) ("busybox,1.24.1, CVE-2016-2147," +:+ nl) demo_world.

(** Both runs of the tool go well: script, tool and script for the CSV
    report, script and tool for the HTML report. *)
Definition report_env : Env :=
  scripted [ok "linux"; ok ("busybox,1.24.1,CVE-2016-2148," +:+ nl); ok "linux";
            ok "linux"; ok "<html/>"].

(** The CSV run of the tool fails, the HTML run goes well. *)
Definition csv_fails_env : Env :=
  scripted [ok "linux"; inr (Completed "" "" 1); ok "linux"; ok "<html/>"].

(** The CSV run goes well, the HTML run fails. *)
Definition html_fails_env : Env :=
  scripted [ok "linux"; ok ("busybox,1.24.1,CVE-2016-2148," +:+ nl); ok "linux";
            ok "linux"; inr (Completed "" "" 1)].

(** The tool writes a warning the first time it is run for a report. *)
Definition stubborn_env : Env :=
  scripted [ok "linux"; inr (Completed "" "warning" 0); ok "report"; ok "linux";
            ok "linux"; inr (Completed "" "warning" 0); ok "<html/>"].

(** Every command succeeds, prints a word and deletes the batch file. *)
Definition sweeping_env : Env := {|
  exec := λ trace fs cmd, (ok "done", delete (faux_path demo_self) fs);
  exc_info := λ e, "error";
  utf8_valid := utf8_ok;
  writable := λ path, true;
|}.

#[global] Instance sweeping_writable : @Writable sweeping_env.
Proof. by intros path. Qed.

#[global] Instance sweeping_ascii_valid : @AsciiValid sweeping_env.
Proof. intros s. apply utf8_ok_ascii. Qed.

(** ** Steps of [process_report] *)

Lemma run_log `{Writable} self s w : log self s w = Ok tt (logged self s w).
Proof. apply run_append. Qed.

Lemma run_remove path w s :
  w_files w !! path = Some s → remove path w = Ok tt (unlink path w).
Proof. unfold remove. by intros ->. Qed.

Lemma files_removed_ne path path' w :
  path ≠ path' → w_files (unlink path w) !! path' = w_files w !! path'.
Proof. intros. unfold unlink. simpl. by rewrite lookup_delete_ne. Qed.

Lemma files_removed path w : w_files (unlink path w) !! path = None.
Proof. unfold unlink. simpl. by rewrite lookup_delete_eq. Qed.

Lemma xml_path_last self : last_char (xml_path self) = Some "l"%char.
Proof. unfold xml_path. by rewrite last_char_app. Qed.

Lemma faux_ne_xml self : faux_path self ≠ xml_path self.
Proof. apply last_char_ne. by rewrite faux_path_last, xml_path_last. Qed.

Lemma csv_ne_faux self : wf_checker self → csv_report_name self ≠ faux_path self.
Proof. intros. apply last_char_ne. by rewrite faux_path_last, csv_report_last. Qed.

Lemma csv_ne_logfile self : wf_checker self → csv_report_name self ≠ logfile self.
Proof. intros. apply last_char_ne. by rewrite logfile_last, csv_report_last. Qed.

(** The files [write_report_xml] finds are those the runs of the tool
    left, the batch file and the log apart. *)
Lemma files_before_xml self w2 path :
  path ≠ logfile self → path ≠ faux_path self →
  w_files (before_xml self w2) !! path = w_files w2 !! path.
Proof.
  intros. unfold before_xml. by rewrite files_logged_ne, files_removed_ne.
Qed.

(** Behind a guard that fails [process_report] does nothing, whatever
    can and cannot be opened. *)
Lemma process_report_skip `{Env} `{Etree} self w :
  w_files w !! faux_path self = None ∨ flag self w = false →
  process_report self w = Ok tt w.
Proof.
  intros Hg. unfold process_report. fold (pkglist_faux self). fold (faux_path self).
  rewrite run_bind. unfold isfile. case_bool_decide as Hb; [|done]. cbn [negb].
  rewrite run_bind, run_initialized.
  destruct Hg as [Hn| ->]; [|done]. rewrite Hn in Hb. by destruct Hb.
Qed.

(** A call that raises had a batch file and a checker that was on. *)
Lemma process_report_Raise `{Env} `{Etree} self w e w' :
  process_report self w = Raise e w' →
  is_Some (w_files w !! faux_path self) ∧ flag self w = true.
Proof.
  destruct (w_files w !! faux_path self) eqn:Hb;
    [|by rewrite process_report_skip by by left].
  destruct (flag self w) eqn:Hi; [done|]. by rewrite process_report_skip by by right.
Qed.

(** A call that returns has done nothing when a guard fails, and has
    removed the batch file otherwise, whatever can and cannot be opened. *)
Lemma process_report_batch `{Env} `{Etree} self w w' :
  wf_checker self → process_report self w = Ok tt w' →
  if bool_decide (is_Some (w_files w !! faux_path self)) && flag self w
  then w_files w' !! faux_path self = None else w' = w.
Proof.
  intros Hwf. unfold process_report. fold (pkglist_faux self). fold (faux_path self).
  rewrite run_bind. unfold isfile.
  destruct (bool_decide _); [|by intros [= <-]]. cbn [negb].
  rewrite run_bind, run_initialized. destruct (flag self w); [|by intros [= <-]]. cbn [andb].
  rewrite run_bind, run_log_gen. destruct (writable (logfile self)) eqn:Hw; [|done].
  rewrite run_bind. destruct (process_report_type self "csv" _) as [r1 w1|]; [|done].
  rewrite run_bind, run_log_gen, Hw, run_bind.
  destruct (process_report_type self "html" _) as [r2 w2|]; [|done].
  rewrite run_bind. destruct (w_files w2 !! faux_path self) as [b|] eqn:Hb;
    [rewrite (run_remove _ _ _ Hb)|unfold remove; by rewrite Hb].
  rewrite run_bind, run_log_gen, Hw. intros (s & ->)%write_report_xml_store.
  rewrite files_store_ne by (intros E; by apply (faux_ne_xml self)).
  rewrite files_store_ne by by apply not_eq_sym, faux_ne_logfile. apply files_removed.
Qed.

(** With a batch file and an initialized checker the first thing
    [process_report] does is to write to the log: when the log cannot be
    opened, [IOError] leaves the method at once, no command is started, and
    the batch file stays where it is. *)
Theorem process_report_log_unwritable `{Env} `{Etree} self w :
  is_Some (w_files w !! faux_path self) → flag self w = true →
  writable (logfile self) = false →
  process_report self w = Raise (IOError (logfile self)) w.
Proof.
  intros Hb Hi Hl. unfold process_report. fold (pkglist_faux self). fold (faux_path self).
  rewrite run_bind. unfold isfile. rewrite bool_decide_eq_true_2 by done.
  cbn [negb]. by rewrite run_bind, run_initialized, Hi, run_bind, run_log_gen, Hl.
Qed.

Lemma process_report_log_unwritable_witness :
  @process_report no_log_env demo_etree demo_self batch_world
  = Raise (IOError "/build/log/isafw_cvelog") batch_world.
Proof. apply (process_report_log_unwritable (H:=no_log_env) (H0:=demo_etree)); by_decide || done. Defined.

Section ReportFacts.
(* In this section the files the plugin writes can be opened ([Writable]). *)
Context `{HE : Env} {HX : Etree} {HW : Writable}.
Implicit Types (self : ISA_CVEChecker) (w : World).

(** [process_report] behind its two guards. *)
Lemma process_report_guard self w :
  process_report self w =
    if bool_decide (is_Some (w_files w !! faux_path self)) && flag self w then
      (result ← process_report_type self "csv";
       log self ("Creating report in HTML format." +:+ nl);;
       result ← process_report_type self "html";
       remove (faux_path self);;
       log self ("Creating report in XML format." +:+ nl);;
       write_report_xml self result)
        (logged self ("Creating report in CSV format." +:+ nl) w)
    else Ok tt w.
Proof.
  unfold process_report. fold (pkglist_faux self). fold (faux_path self).
  rewrite run_bind. unfold isfile.
  destruct (bool_decide _); [|done]. cbn [negb]. rewrite run_bind, run_initialized.
  destruct (flag self w); [|done]. cbn [andb]. by rewrite run_bind, run_log.
Qed.

(** [process_report] when both runs of the tool return and the batch
    file is still there: the XML summary of what the HTML run returned. *)
Lemma process_report_run self w r1 w1 r2 w2 :
  is_Some (w_files w !! faux_path self) → flag self w = true →
  process_report_type self "csv" (logged self ("Creating report in CSV format." +:+ nl) w)
  = Ok r1 w1 →
  process_report_type self "html" (logged self ("Creating report in HTML format." +:+ nl) w1)
  = Ok r2 w2 →
  is_Some (w_files w2 !! faux_path self) →
  process_report self w = write_report_xml self r2 (before_xml self w2).
Proof.
  intros Hb Hi H1 H2 [b Hb2]. rewrite process_report_guard, Hi, bool_decide_eq_true_2 by done.
  simpl. rewrite run_bind, H1, run_bind, run_log, run_bind, H2.
  by rewrite run_bind, (run_remove _ _ _ Hb2), run_bind, run_log.
Qed.


(** ** [process_report] *)

(** Without a batch file [process_report] does nothing: no command is
    run and no file is written, the log included. *)
Theorem process_report_no_batch self w :
  w_files w !! faux_path self = None → process_report self w = Ok tt w.
Proof.
  intros Hb. rewrite process_report_guard, bool_decide_eq_false_2; [done|].
  rewrite Hb. by intros [? ?].
Qed.

(** A checker that is not initialized produces no report and keeps the
    batch file: [process_report] does nothing. *)
Theorem process_report_off self w :
  flag self w = false → process_report self w = Ok tt w.
Proof. intros Hi. by rewrite process_report_guard, Hi, andb_false_r. Qed.

(** C6. When both runs of the tool return and the HTML run returns the empty
    text, the batch file is removed and the XML summary holds one test case
    per line of the CSV report the runs left; nothing else changes after the
    runs but the log. *)
Theorem process_report_summary self w r1 w1 w2 f :
  wf_checker self →
  is_Some (w_files w !! faux_path self) → flag self w = true →
  process_report_type self "csv" (logged self ("Creating report in CSV format." +:+ nl) w)
  = Ok r1 w1 →
  process_report_type self "html" (logged self ("Creating report in HTML format." +:+ nl) w1)
  = Ok "" w2 →
  is_Some (w_files w2 !! faux_path self) →
  w_files w2 !! csv_report_name self = Some f →
  ∃ w', process_report self w = Ok tt w' ∧
    w_files w' !! xml_path self = Some (render (testsuite (line_case <$> readlines f))) ∧
    w_files w' !! faux_path self = None ∧
    w_trace w' = w_trace w2 ∧
    ∀ path, path ≠ xml_path self → path ≠ faux_path self → path ≠ logfile self →
      w_files w' !! path = w_files w2 !! path.
Proof.
  intros Hwf Hb Hi H1 H2 Hb2 Hf.
  rewrite (process_report_run self w r1 w1 "" w2) by done.
  rewrite (write_report_xml_run self "" _), files_before_xml, Hf
    by auto using csv_ne_faux, csv_ne_logfile.
  eexists; split_and!; [reflexivity|apply files_store|..|done|].
  - rewrite files_store_ne by (intros E; by apply (faux_ne_xml self)).
    unfold before_xml. rewrite files_logged_ne by by apply faux_ne_logfile.
    apply files_removed.
  - intros path H3 H4 H5. by rewrite files_store_ne, files_before_xml.
Qed.

(** When the HTML run returns a text that is not empty, the XML summary
    is a single failing test case with that text, whatever the CSV run
    returned and whatever the CSV report holds. *)
Theorem process_report_html_failed self w r1 w1 r2 w2 :
  is_Some (w_files w !! faux_path self) → flag self w = true →
  process_report_type self "csv" (logged self ("Creating report in CSV format." +:+ nl) w)
  = Ok r1 w1 →
  process_report_type self "html" (logged self ("Creating report in HTML format." +:+ nl) w1)
  = Ok r2 w2 →
  is_Some (w_files w2 !! faux_path self) → r2 ≠ "" →
  process_report self w
  = Ok tt (store (xml_path self)
             (render (testsuite [testcase "Error in cve-check-tool" (Some r2)]))
             (before_xml self w2)).
Proof.
  intros Hb Hi H1 H2 Hb2 Hr%truth_true.
  rewrite (process_report_run self w r1 w1 r2 w2) by done.
  by rewrite write_report_xml_run, Hr.
Qed.

(** C21. The text the CSV run returns is dropped: when the CSV run fails and
    the HTML run goes well, no failing test case is written; with no CSV
    report from an earlier call, [process_report] raises [IOError] after
    it has removed the batch file. *)
Theorem process_report_csv_failure_dropped self w r1 w1 w2 :
  wf_checker self →
  is_Some (w_files w !! faux_path self) → flag self w = true →
  process_report_type self "csv" (logged self ("Creating report in CSV format." +:+ nl) w)
  = Ok r1 w1 → r1 ≠ "" →
  process_report_type self "html" (logged self ("Creating report in HTML format." +:+ nl) w1)
  = Ok "" w2 →
  is_Some (w_files w2 !! faux_path self) →
  w_files w2 !! csv_report_name self = None →
  process_report self w = Raise (IOError (csv_report_name self)) (before_xml self w2).
Proof.
  intros Hwf Hb Hi H1 _ H2 Hb2 Hf.
  rewrite (process_report_run self w r1 w1 "" w2) by done.
  by rewrite (write_report_xml_run self "" _), files_before_xml, Hf
    by auto using csv_ne_faux, csv_ne_logfile.
Qed.

(** An exception that leaves the CSV run leaves [process_report]: the
    HTML run does not take place and the batch file is not removed. *)
Theorem process_report_csv_raises self w e w1 :
  is_Some (w_files w !! faux_path self) → flag self w = true →
  process_report_type self "csv" (logged self ("Creating report in CSV format." +:+ nl) w)
  = Raise e w1 →
  process_report self w = Raise e w1.
Proof.
  intros Hb Hi H1. rewrite process_report_guard, Hi, bool_decide_eq_true_2 by done.
  simpl. by rewrite run_bind, H1.
Qed.

(** C40. When a run of the tool has taken the batch file away,
    [os.remove] raises [OSError] and no XML summary is written. *)
Theorem process_report_batch_gone self w r1 w1 r2 w2 :
  is_Some (w_files w !! faux_path self) → flag self w = true →
  process_report_type self "csv" (logged self ("Creating report in CSV format." +:+ nl) w)
  = Ok r1 w1 →
  process_report_type self "html" (logged self ("Creating report in HTML format." +:+ nl) w1)
  = Ok r2 w2 →
  w_files w2 !! faux_path self = None →
  process_report self w = Raise (OSError (faux_path self)) w2.
Proof.
  intros Hb Hi H1 H2 Hb2. rewrite process_report_guard, Hi, bool_decide_eq_true_2 by done.
  simpl. rewrite run_bind, H1, run_bind, run_log, run_bind, H2, run_bind.
  unfold remove. by rewrite Hb2.
Qed.

End ReportFacts.

(** ** Witnesses *)

Lemma process_report_no_batch_witness :
  @process_report report_env demo_etree demo_self demo_world = Ok tt demo_world.
Proof. by apply (process_report_no_batch (HE:=report_env) (HX:=demo_etree)). Defined.

Lemma process_report_off_witness :
  @process_report report_env demo_etree demo_off batch_world
  = Ok tt batch_world.
Proof. by apply (process_report_off (HE:=report_env) (HX:=demo_etree)). Defined.

Lemma process_report_summary_witness :
  ∃ w', @process_report report_env demo_etree demo_self batch_world = Ok tt w' ∧
    w_files w' !! xml_path demo_self = Some "testsuite tests=1" ∧
    w_files w' !! faux_path demo_self = None.
Proof.
  edestruct (process_report_summary (HE:=report_env) (HX:=demo_etree) demo_self batch_world)
    as (w' & Hr & Hx & Hb & _);
    [by exists demo_config|by_decide|done|vm_compute; reflexivity
    |vm_compute; reflexivity|by_decide|vm_compute; reflexivity|].
  exists w'. split_and!; [exact Hr| |exact Hb]. rewrite Hx. vm_compute. reflexivity.
Defined.

Lemma process_report_html_failed_witness :
  ∃ w', @process_report html_fails_env demo_etree demo_self batch_world = Ok tt w' ∧
    w_files w' !! xml_path demo_self = Some "testsuite tests=1".
Proof.
  erewrite (process_report_html_failed (HE:=html_fails_env) (HX:=demo_etree) demo_self batch_world);
    [|by_decide|done|vm_compute; reflexivity|vm_compute; reflexivity|by_decide|done].
  eexists. split; [reflexivity|]. by vm_compute.
Defined.

Lemma process_report_csv_failure_dropped_witness :
  ∃ w', @process_report csv_fails_env demo_etree demo_self batch_world
        = Raise (IOError "/build/report/cve_report") w'.
Proof.
  erewrite (process_report_csv_failure_dropped (HE:=csv_fails_env) (HX:=demo_etree) demo_self batch_world);
    [|by exists demo_config|by_decide|done|vm_compute; reflexivity|done
     |vm_compute; reflexivity|by_decide|by vm_compute].
  eexists. reflexivity.
Defined.

Lemma process_report_csv_raises_witness :
  ∃ w', @process_report escape_env demo_etree demo_self batch_world
        = Raise (OSError "fork") w' ∧
    is_Some (w_files w' !! faux_path demo_self).
Proof.
  erewrite (process_report_csv_raises (HE:=escape_env) (HX:=demo_etree) demo_self batch_world);
    [|by_decide|done|vm_compute; reflexivity].
  eexists. split; [reflexivity|]. by_decide.
Defined.

Lemma process_report_batch_gone_witness :
  ∃ w', @process_report sweeping_env demo_etree demo_self batch_world
        = Raise (OSError "/build/report/cve_check_tool_pkglist_20160101.faux") w'.
Proof.
  erewrite (process_report_batch_gone (HE:=sweeping_env) (HX:=demo_etree) demo_self batch_world);
    [|by_decide|done|vm_compute; reflexivity|vm_compute; reflexivity|by vm_compute].
  eexists. reflexivity.
Defined.

(** ** The whole report in a healthy environment *)

(** The five files of a checker are five. *)
Lemma own_files_ne self :
  wf_checker self →
  logfile self ≠ csv_report_name self ∧ logfile self ≠ html_report_name self ∧
  logfile self ≠ faux_path self ∧ logfile self ≠ xml_path self ∧
  csv_report_name self ≠ html_report_name self ∧
  csv_report_name self ≠ faux_path self ∧ csv_report_name self ≠ xml_path self ∧
  html_report_name self ≠ faux_path self ∧ html_report_name self ≠ xml_path self ∧
  faux_path self ≠ xml_path self.
Proof.
  intros Hwf. split_and!; apply last_char_ne;
    by rewrite ?logfile_last, ?csv_report_last, ?html_report_last, ?faux_path_last,
      ?xml_path_last.
Qed.

Section HealthyReport.
(* In this section the files the plugin writes can be opened ([Writable]). *)
Context `{HE : Env} {HH : Healthy} {HA : AsciiValid} {HW : Writable} {HX : Etree}.
Implicit Types (self : ISA_CVEChecker) (w : World).

(** The two runs of the tool in a healthy environment. *)
Lemma process_report_runs self w :
  wf_checker self →
  ∃ k1 k2 csv html w1 w2,
    process_report_type self "csv" (logged self ("Creating report in CSV format." +:+ nl) w)
    = Ok "" w1 ∧
    process_report_type self "html" (logged self ("Creating report in HTML format." +:+ nl) w1)
    = Ok "" w2 ∧
    w_trace w2 = w_trace w ++ commands self "csv" k1 ++ commands self "html" k2 ∧
    w_files w2 !! csv_report_name self = Some csv ∧
    w_files w2 !! html_report_name self = Some html ∧
    same_outside {[logfile self; csv_report_name self; html_report_name self]} w w2.
Proof.
  intros Hwf. destruct (own_files_ne self Hwf) as (N1&N2&N3&N4&N5&N6&N7&N8&N9&N10).
  edestruct (process_report_type_healthy self "csv") as (k1 & csv & w1 & R1 & Ht1 & Hc1 & Hf1);
    [done|].
  edestruct (process_report_type_healthy self "html") as (k2 & html & w2 & R2 & Ht2 & Hh2 & Hf2);
    [done|].
  exists k1, k2, csv, html, w1, w2. split_and!; [exact R1|exact R2|..].
  - by rewrite Ht2, trace_logged, Ht1, trace_logged, <- app_assoc.
  - rewrite Hf2, files_logged_ne by solve_not_in. exact Hc1.
  - exact Hh2.
  - intros path Hp. by rewrite Hf2, files_logged_ne, Hf1, files_logged_ne by solve_not_in.
Qed.

(** The whole of [process_report] in a healthy environment. *)
Lemma process_report_all_well self w :
  wf_checker self → is_Some (w_files w !! faux_path self) → flag self w = true →
  ∃ k1 k2 csv html w', process_report self w = Ok tt w' ∧
    w_trace w' = w_trace w ++ commands self "csv" k1 ++ commands self "html" k2 ∧
    w_files w' !! faux_path self = None ∧
    w_files w' !! csv_report_name self = Some csv ∧
    w_files w' !! html_report_name self = Some html ∧
    w_files w' !! xml_path self = Some (render (testsuite (line_case <$> readlines csv))) ∧
    same_outside (own_files self) w w'.
Proof.
  intros Hwf Hb Hi. destruct (own_files_ne self Hwf) as (N1&N2&N3&N4&N5&N6&N7&N8&N9&N10).
  destruct (process_report_runs self w Hwf)
    as (k1 & k2 & csv & html & w1 & w2 & R1 & R2 & Ht & Hc & Hh & Hf).
  assert (is_Some (w_files w2 !! faux_path self)) as Hb2 by (rewrite Hf by solve_not_in; done).
  rewrite (process_report_run self w "" w1 "" w2), write_report_xml_run by done.
  change (truth "") with false. cbv iota.
  rewrite files_before_xml, Hc by done. fold (xml_path self).
  exists k1, k2, csv, html. eexists. split_and!; [done|exact Ht|..].
  - rewrite files_store_ne by done. unfold before_xml.
    rewrite files_logged_ne by done. apply files_removed.
  - by rewrite files_store_ne, files_before_xml.
  - by rewrite files_store_ne, files_before_xml.
  - apply files_store.
  - intros path Hp. unfold own_files in Hp.
    by rewrite files_store_ne, files_before_xml, Hf by solve_not_in.
Qed.

(** C4. In a healthy environment (every command starts, writes nothing to
    its standard error, ends with status 0 and changes no file) a call with a
    batch file and an initialized checker returns; it has run the script and
    the tool for the CSV report, the script on that report, and the script
    and the tool for the HTML report, in this order; the batch file is
    removed, both reports are stored, the XML summary holds one test case
    per line of the CSV report, and no other file but the log has changed. *)
Theorem process_report_healthy self w :
  wf_checker self → is_Some (w_files w !! faux_path self) → flag self w = true →
  ∃ k1 k2 csv html w', process_report self w = Ok tt w' ∧
    w_trace w' = w_trace w ++ commands self "csv" k1 ++ commands self "html" k2 ∧
    w_files w' !! faux_path self = None ∧
    w_files w' !! csv_report_name self = Some csv ∧
    w_files w' !! html_report_name self = Some html ∧
    w_files w' !! xml_path self = Some (render (testsuite (line_case <$> readlines csv))) ∧
    same_outside (own_files self) w w'.
Proof. apply process_report_all_well. Qed.

End HealthyReport.

Lemma process_report_healthy_witness :
  ∃ w', @process_report report_env demo_etree demo_self batch_world = Ok tt w' ∧
    length (w_trace w') = 5 ∧
    w_files w' !! faux_path demo_self = None.
Proof.
  destruct (process_report_healthy (HE:=report_env)
              (HH:=scripted_healthy ["linux"; "busybox,1.24.1,CVE-2016-2148," +:+ nl; "linux";
                                     "linux"; "<html/>"])
              (HX:=demo_etree) demo_self batch_world)
    as (k1 & k2 & csv & html & w' & Hr & Ht & Hb & _);
    [by exists demo_config|by_decide|done|].
  exists w'. split_and!; [exact Hr|by rewrite Ht|exact Hb].
Defined.

(** ** Frames *)

(** [process_report] writes the log, the two reports, the batch file and
    the XML summary, and what its commands write. *)
Lemma process_report_frame `{Confined X} `{Etree} Y self :
  X ⊆ Y → logfile self ∈ Y → csv_report_name self ∈ Y → html_report_name self ∈ Y →
  faux_path self ∈ Y → xml_path self ∈ Y → writes Y (process_report self).
Proof.
  intros. unfold process_report, log. fold (pkglist_faux self). fold (faux_path self).
  unfold xml_path in *. solve_writes.
Qed.

#[export] Hint Resolve @process_report_frame : frame.

(** [process_report] reads the flag and assigns nothing: it leaves every
    object as it is, whether it returns or raises. *)
Lemma process_report_keeps `{Env} `{Etree} self : keeps_heap (process_report self).
Proof. unfold process_report, log, initialized. solve_keeps. Qed.

#[export] Hint Resolve @process_report_keeps : heap.

(** [process_report] opens the log with the mode ['a'] and removes or
    replaces four other files: a file that is none of these and that the
    commands leave alone keeps what is in it. *)
Lemma process_report_grows `{Confined X} `{Etree} p self :
  p ∉ X → faux_path self ≠ p → csv_report_name self ≠ p → html_report_name self ≠ p →
  xml_path self ≠ p → preserves (grows p) (process_report self).
Proof.
  intros Hp Hf Hc Hh Hx. unfold process_report, log, initialized.
  fold (faux_path self). solve_preserves.
Qed.

#[export] Hint Resolve @process_report_grows : preserves.

(** ** Exceptions *)

Lemma process_report_escapes `{Env} `{Etree} X self :
  logfile self ∈ X → csv_report_name self ∈ X → html_report_name self ∈ X →
  xml_path self ∈ X → raises (escapes X self) (process_report self).
Proof.
  intros. unfold process_report, initialized. fold (pkglist_faux self). fold (faux_path self).
  solve_raises.
Qed.

#[export] Hint Resolve @process_report_escapes : raises.

(** C23. The exceptions that can leave [process_report] are these and no
    others: [IOError] for the log, a report or the XML summary when that
    file cannot be opened, [IOError] for the CSV report when it is not
    there to be read, [OSError] for the batch file when it is gone before
    it is removed, [UnicodeDecodeError] for bytes of the tool that are not
    UTF-8, [UnicodeEncodeError] for a text that is not ASCII, and what the
    environment raises when a command cannot be started.  (The XML library
    is taken to build and write the tree without raising.) *)
Theorem process_report_raises `{Env} `{Etree} self w e w' :
  process_report self w = Raise e w' → escapes (report_files self) self e.
Proof. apply process_report_escapes; unfold report_files; set_solver. Qed.

Lemma process_report_raises_witness :
  @escapes no_log_env (report_files demo_self) demo_self (IOError "/build/log/isafw_cvelog").
Proof.
  apply (process_report_raises (H:=no_log_env) (H0:=demo_etree) demo_self batch_world _
           batch_world).
  by vm_compute.
Defined.

(** ** Commands *)

Section Commands.
Context `{Env} `{Etree}.

(** The bound of [process_report], as the rules of [spawns] find it: four
    commands for the CSV report, three for the HTML report. *)
Lemma process_report_cost self : spawns 7 (process_report self).
Proof.
  unfold process_report, log. eapply spawns_weaken; [repeat spawns_step|].
  simpl. lia.
Qed.

(** C14. Whatever the commands do, and whether it returns or raises,
    [process_report] starts at most seven of them, after those already
    started: the kernel-name script and the tool, the tool once more and the
    script again for the CSV report; the script and the tool, and the tool
    once more, for the HTML report. *)
Theorem process_report_spawns self w :
  ∃ l, w_trace (world_of (process_report self w)) = w_trace w ++ l ∧ length l ≤ 7.
Proof. apply process_report_cost. Qed.

(** The commands of [process_report] are those of its two runs; the XML
    summary starts none. *)
Lemma process_report_issues self : issues (issued self) (process_report self).
Proof. unfold process_report, log, initialized. solve_issues. Qed.

End Commands.

#[export] Hint Resolve @process_report_cost @process_report_issues : trace.

(** The bound is reached: a tool that writes to its standard error the
    first time it is run for a report is run four times, and the script
    three times. *)
Example process_report_spawns_tight :
  length (w_trace (world_of (@process_report stubborn_env demo_etree demo_self batch_world)))
  = 7.
Proof. vm_compute. reflexivity. Qed.

End Report.
