(* ===== verification/Plugin.v ===== *)
(** * Plugin: the callbacks the ISA framework calls

    The module keeps one checker in the global [CVEChecker], [None] until
    [init] has run.  [init], [getPluginName], [process_package] and
    [process_report] are the four entry points; the last two are named
    [plugin_process_package] and [plugin_process_report] here, since the
    methods they forward to carry the plain names.  Calling either before
    [init] is a method call on [None].

    The calls the framework makes are the type [call]; [handle] runs the
    callback of a call.  A sequence of calls is run in two ways:
    [run_calls] ends with the first exception, [attempts] makes every call
    and notes its [outcome], the plugin being left after an exception with
    the global it had and the world the call has made, the objects
    included.  [step] and [reachable] give the plugin as a transition
    system, with the steps that return and those that raise.

    [session] is what a user of the plugin has to keep in mind between
    [init] and the report (has [init] run, is the checker on, which lines
    are in the batch file), with its own steps, labelled by call and
    outcome; [implements] relates the two, and [attempts_implements] is
    the refinement; what the session promises of every sequence of calls
    (package calls only append to the batch, a session that is off is
    frozen) is proved of the session and carried over to the plugin.  The
    last sections take sequences of calls through an
    environment in which every file can be opened, and through one in
    which the log cannot, bound the files the plugin writes, take a whole
    session through a healthy environment, and bound the commands a
    sequence of calls starts ([cost]). *)

From S2P Require Import Prelude PyStr PatchList Sys Trace Heap Raises Checker Scan ReportXml Report.
Import Py PatchList Sys Trace Heap Raises Checker Scan ReportXml Report.

Module Plugin.

(** The module's global state: [CVEChecker]. *)
Record globals : Type := mkGlobals {
  CVEChecker : option ISA_CVEChecker;
}.

(** The state when the module has just been imported: [CVEChecker = None]. *)
Definition imported : globals := mkGlobals None.

Section WithEnv.
Context `{Env} `{Etree}.

(** [init] returns the globals it leaves: [CVEChecker] is assigned once
    the constructor has returned. *)
Definition init (ISA_config : ISA_config) (g : globals) : M globals :=
  self ← new_ISA_CVEChecker ISA_config;
  mret (mkGlobals (Some self)).

Definition getPluginName : string := "ISA_CVEChecker".

Definition plugin_process_package (ISA_pkg : ISA_pkg) (g : globals) : M unit :=
  match CVEChecker g with
  | Some self => process_package self ISA_pkg
  | None => raise (AttributeError "process_package")
  end.

Definition plugin_process_report (g : globals) : M unit :=
  match CVEChecker g with
  | Some self => process_report self
  | None => raise (AttributeError "process_report")
  end.

End WithEnv.

(** ** The framework's calls *)

(** What the framework can ask of the plugin. *)
Inductive call : Type :=
| Init (cfg : ISA_config)
| ProcessPackage (pkg : ISA_pkg)
| ProcessReport.

(** How a call ends. *)
Inductive outcome : Type :=
| Returned
| Raised (e : exn).

#[global] Instance outcome_eq_dec : EqDecision outcome.
Proof. solve_decision. Defined.

Definition is_init (c : call) : bool :=
  match c with Init _ => true | _ => false end.

(** The commands a call may start: [which] for [init], none for a
    package, seven for the reports. *)
Definition cost (c : call) : nat :=
  match c with Init _ => 1 | ProcessPackage _ => 0 | ProcessReport => 7 end.

Section Machine.
Context `{Env} `{Etree}.

(** The callback a call runs, and the globals it leaves: only [init]
    assigns [CVEChecker]. *)
Definition handle (c : call) (g : globals) : M globals :=
  match c with
  | Init cfg => init cfg g
  | ProcessPackage pkg => plugin_process_package pkg g;; mret g
  | ProcessReport => plugin_process_report g;; mret g
  end.

(** A sequence of calls, stopped by the first exception. *)
Fixpoint run_calls (cs : list call) (g : globals) : M globals :=
  match cs with
  | [] => mret g
  | c :: cs' => g' ← handle c g; run_calls cs' g'
  end.

(** A call as the one who makes it sees it: its outcome, and the state
    the plugin is left in.  A call that raises has assigned no global; what
    it did to the world before it raised stays done. *)
Definition attempt (c : call) (st : globals * World) : outcome * (globals * World) :=
  match handle c st.1 st.2 with
  | Ok g' w' => (Returned, (g', w'))
  | Raise e w' => (Raised e, (st.1, w'))
  end.

(** A sequence of calls, each made whatever the outcome of the ones
    before. *)
Fixpoint attempts (cs : list call) (st : globals * World)
  : list outcome * (globals * World) :=
  match cs with
  | [] => ([], st)
  | c :: cs' =>
      let r := attempt c st in
      let rs := attempts cs' r.2 in
      (r.1 :: rs.1, rs.2)
  end.

(** One step of the plugin: a call that returns, or one that raises. *)
Inductive step : globals * World → call → outcome → globals * World → Prop :=
| Step_return g w c g' w' :
    handle c g w = Ok g' w' → step (g, w) c Returned (g', w')
| Step_raise g w c e w' :
    handle c g w = Raise e w' → step (g, w) c (Raised e) (g, w').

(** The states the plugin can be in, from its import in any world. *)
Inductive reachable : globals * World → Prop :=
| reachable_imported w : reachable (imported, w)
| reachable_step st c o st' : reachable st → step st c o st' → reachable st'.

End Machine.

(** ** The session the plugin implements *)

(** What a user of the plugin keeps track of: nothing before the first
    [init]; after it, whether the checker is on, and the lines of the batch
    file ([None]: there is no batch file). *)
Inductive session : Type :=
| no_session
| mkSession (on : bool) (batch : option (list string)).

(** A call that cannot open a file raises [IOError]; the calls for
    packages end in no other way. *)
Definition returned_or_io (o : outcome) : Prop :=
  match o with
  | Returned | Raised (IOError _) => True
  | Raised _ => False
  end.

(** The steps of a session.  [init] starts a session, in any state:
    whether the checker is on depends on the lookup of the tool, the batch
    on what is at the path of the new configuration; an [init] that raises
    leaves the session there was, the batch file apart, which its command
    may have changed.  Without a session the other calls raise.  A complete
    package is recorded by a checker that is on, also when the call raises
    for the log; one that is not complete switches the checker off,
    whether the call returns or raises; a checker that is off ignores every
    package.  A report that returns has removed the batch file, if it had
    anything to do; one that raises has left the checker on. *)
Inductive session_step : session → call → outcome → session → Prop :=
| session_init s cfg o b :
    session_step s (Init cfg) Returned (mkSession o b)
| session_init_early cfg p :
    session_step no_session (Init cfg) (Raised (IOError p)) no_session
| session_init_kept o b b' cfg p :
    session_step (mkSession o b) (Init cfg) (Raised (IOError p)) (mkSession o b')
| session_early c a :
    is_init c = false →
    session_step no_session c (Raised (AttributeError a)) no_session
| session_record b pkg :
    complete pkg = true →
    session_step (mkSession true b) (ProcessPackage pkg) Returned
      (mkSession true (Some (default [] b ++ faux_lines pkg)))
| session_record_unlogged b pkg p :
    complete pkg = true →
    session_step (mkSession true b) (ProcessPackage pkg) (Raised (IOError p))
      (mkSession true (Some (default [] b ++ faux_lines pkg)))
| session_record_refused b pkg p :
    complete pkg = true →
    session_step (mkSession true b) (ProcessPackage pkg) (Raised (IOError p))
      (mkSession true b)
| session_reject b pkg o :
    complete pkg = false → returned_or_io o →
    session_step (mkSession true b) (ProcessPackage pkg) o (mkSession false b)
| session_ignore b pkg o :
    returned_or_io o →
    session_step (mkSession false b) (ProcessPackage pkg) o (mkSession false b)
| session_no_report o b :
    o = false ∨ b = None →
    session_step (mkSession o b) ProcessReport Returned (mkSession o b)
| session_report ls :
    session_step (mkSession true (Some ls)) ProcessReport Returned (mkSession true None)
| session_report_raise ls e b' :
    session_step (mkSession true (Some ls)) ProcessReport (Raised e) (mkSession true b').

(** A sequence of steps of the session, by the calls and their
    outcomes. *)
Inductive session_steps : session → list (call * outcome) → session → Prop :=
| session_nil s : session_steps s [] s
| session_cons s c o s' cs s'' :
    session_step s c o s' → session_steps s' cs s'' →
    session_steps s ((c, o) :: cs) s''.

(** The calls of a sequence that all returned. *)
Definition all_returned (cs : list call) : list (call * outcome) :=
  (λ c, (c, Returned)) <$> cs.

(** [implements g w s]: the plugin in state [g] and world [w] is in the
    session [s]. *)
Definition implements (g : globals) (w : World) (s : session) : Prop :=
  match s with
  | no_session => CVEChecker g = None
  | mkSession on batch =>
      ∃ self, CVEChecker g = Some self ∧ wf_checker self ∧ live (ref self) w ∧
        flag self w = on ∧
        w_files w !! faux_path self = concat <$> batch
  end.

(** The batch with the lines [ls] added: the batch file is created by
    the first line written to it. *)
Definition grown (b : option (list string)) (ls : list string) : option (list string) :=
  match ls with
  | [] => b
  | _ => Some (default [] b ++ ls)
  end.

(** The batch a file holds: its text as one piece. *)
Definition batch_of (w : World) (self : ISA_CVEChecker) : option (list string) :=
  (λ c, [c]) <$> w_files w !! faux_path self.

(** A healthy environment for a whole session: the lookup finds the
    tool, and the tool reports one line. *)
Definition session_env : Env :=
  scripted (ok <$> ["/usr/bin/cve-check-tool"; "linux"; "busybox,1.24.1,CVE-2016-2148," +:+ nl;
                    "linux"; "linux"; "<html/>"]).

(** The exceptions a call can end with: [init] raises for the log of the
    configuration when it cannot be opened; without a checker the other
    calls raise [AttributeError]; with one, a package call raises for the
    batch file or the log when the file cannot be opened, and a report
    call what [process_report] lets through. *)
Definition may_raise `{Env} (c : call) (g : globals) (e : exn) : Prop :=
  match c with
  | Init cfg =>
      e = IOError (cfg_logdir cfg +:+ "/isafw_cvelog") ∧
      writable (cfg_logdir cfg +:+ "/isafw_cvelog") = false
  | ProcessPackage _ =>
      match CVEChecker g with
      | Some self =>
          ∃ path, e = IOError path ∧ writable path = false ∧
            (path = faux_path self ∨ path = logfile self)
      | None => ∃ a, e = AttributeError a
      end
  | ProcessReport =>
      match CVEChecker g with
      | Some self => escapes (report_files self) self e
      | None => ∃ a, e = AttributeError a
      end
  end.

(** The commands of a sequence of calls that starts with the globals
    [g]: the lookup of the tool, when there is a call of [init]; the
    commands of the report of the checker there is at the start, or of a
    checker that a call of [init] builds. *)
Definition session_issued `{Env} (g : globals) (cs : list call) (cmd : string) : Prop :=
  (cmd = "which cve-check-tool" ∧ ∃ cfg, Init cfg ∈ cs) ∨
  (∃ self, CVEChecker g = Some self ∧ issued self cmd) ∨
  (∃ cfg l, Init cfg ∈ cs ∧ issued (of_config cfg l) cmd).

(** The invariant of the reachable states: the checker, once there is
    one, is an object [__init__] builds, and it is there in the heap. *)
Definition wf_state (st : globals * World) : Prop :=
  ∀ self, CVEChecker st.1 = Some self → wf_checker self ∧ live (ref self) st.2.

(** ** The callbacks *)

Section PluginFacts.
Context `{HE : Env} {HX : Etree}.
Implicit Types (g : globals) (w : World) (self : ISA_CVEChecker) (st : globals * World).

Lemma init_Ok cfg g w g' w' :
  init cfg g w = Ok g' w' → g' = mkGlobals (Some (of_config cfg (next_object w))).
Proof.
  unfold init. rewrite run_bind.
  destruct (new_ISA_CVEChecker cfg w) as [self w1|] eqn:Hi; [|done].
  apply init_Ok_inv in Hi as ->. by intros [= <- _].
Qed.

Lemma init_world cfg g w : world_of (init cfg g w) = world_of (new_ISA_CVEChecker cfg w).
Proof. unfold init. rewrite world_of_bind. by destruct (new_ISA_CVEChecker cfg w). Qed.

Lemma handle_package pkg g w self :
  CVEChecker g = Some self →
  handle (ProcessPackage pkg) g w =
    match process_package self pkg w with
    | Ok _ w' => Ok g w'
    | Raise e w' => Raise e w'
    end.
Proof.
  simpl. unfold plugin_process_package. intros ->. rewrite run_bind.
  by destruct (process_package _ _ _).
Qed.

Lemma handle_report g w self :
  CVEChecker g = Some self →
  handle ProcessReport g w =
    match process_report self w with
    | Ok _ w' => Ok g w'
    | Raise e w' => Raise e w'
    end.
Proof.
  simpl. unfold plugin_process_report. intros ->. rewrite run_bind.
  by destruct (process_report _ _).
Qed.

Lemma run_calls_cons c cs g w :
  run_calls (c :: cs) g w =
    match handle c g w with
    | Ok g' w' => run_calls cs g' w'
    | Raise e w' => Raise e w'
    end.
Proof. reflexivity. Qed.

(** Before [init] the other callbacks raise and do nothing. *)
Lemma handle_None c g w :
  CVEChecker g = None → is_init c = false →
  ∃ a, handle c g w = Raise (AttributeError a) w.
Proof.
  intros Hg Hc. destruct c; [done|..]; simpl;
    [unfold plugin_process_package|unfold plugin_process_report]; rewrite Hg; eauto.
Qed.

(** Only [init] assigns the global. *)
Lemma handle_globals c g w g' w' :
  is_init c = false → handle c g w = Ok g' w' → g' = g.
Proof.
  destruct c; [done|..]; intros _; simpl; rewrite run_bind;
    [destruct (plugin_process_package _ _ _)|destruct (plugin_process_report _ _)];
    by intros [= <- _].
Qed.

(** C24. The exceptions that can leave a callback are those of
    [may_raise] and no others: [IOError] for the log from [init];
    [AttributeError] from the other callbacks before [init];
    [IOError] for the batch file or the log from [process_package];
    from [process_report] the errors of the files, of the codecs and of
    the commands that [process_report] lets through.  In every case
    [IOError] for a file that is opened means that the file cannot be
    opened.  (The XML library is taken to build and write the tree
    without raising.) *)
Theorem callbacks_raise c g w e w' : handle c g w = Raise e w' → may_raise c g e.
Proof.
  destruct c as [cfg|pkg|]; [|destruct (CVEChecker g) as [self|] eqn:Hg..]; unfold may_raise.
  - simpl. unfold init. rewrite run_bind.
    destruct (new_ISA_CVEChecker cfg w) eqn:Hi; [done|]. intros [= <- _]. by eapply init_Raise.
  - rewrite Hg, (handle_package _ _ _ _ Hg).
    destruct (process_package self pkg w) eqn:Hp; [done|]. intros [= <- _].
    by eapply process_package_Raise.
  - rewrite Hg. destruct (handle_None (ProcessPackage pkg) g w Hg eq_refl) as [a ->].
    intros [= <- _]. eauto.
  - rewrite Hg, (handle_report _ _ _ Hg).
    destruct (process_report self w) eqn:Hp; [done|]. intros [= <- _].
    eapply process_report_escapes; [..|exact Hp]; unfold report_files; set_solver.
  - rewrite Hg. destruct (handle_None ProcessReport g w Hg eq_refl) as [a ->].
    intros [= <- _]. eauto.
Qed.

(** The objects that are there stay there through every call. *)
Lemma handle_live c g w l : live l w → live l (world_of (handle c g w)).
Proof.
  intros Hl. destruct c as [cfg|pkg|]; [|destruct (CVEChecker g) as [self|] eqn:Hg..].
  - simpl. rewrite init_world. eapply live_lookup; [|done]. by apply init_others.
  - rewrite (handle_package _ _ _ _ Hg).
    pose proof (process_package_live self pkg w l Hl). by destruct (process_package _ _ _).
  - by destruct (handle_None (ProcessPackage pkg) g w) as [a ->].
  - rewrite (handle_report _ _ _ Hg).
    pose proof (process_report_keeps self w) as Hk.
    destruct (process_report _ _); by apply (live_heap w).
  - by destruct (handle_None ProcessReport g w) as [a ->].
Qed.

(** ** Calls and their outcomes *)

Lemma attempt_world c g w : (attempt c (g, w)).2.2 = world_of (handle c g w).
Proof. unfold attempt. simpl. by destruct (handle c g w). Qed.

Lemma attempt_globals c g w : is_init c = false → (attempt c (g, w)).2.1 = g.
Proof.
  intros Hc. unfold attempt. simpl. destruct (handle c g w) eqn:Hh; [|done].
  simpl. by eapply handle_globals.
Qed.

Lemma attempt_Ok c g w g' w' :
  handle c g w = Ok g' w' → attempt c (g, w) = (Returned, (g', w')).
Proof. unfold attempt. simpl. by intros ->. Qed.

Lemma attempt_Raise c g w e w' :
  handle c g w = Raise e w' → attempt c (g, w) = (Raised e, (g, w')).
Proof. unfold attempt. simpl. by intros ->. Qed.


Lemma step_attempt st c o st' : step st c o st' → attempt c st = (o, st').
Proof. intros [g w c' g' w' Hh|g w c' e w' Hh]; [by apply attempt_Ok|by apply attempt_Raise]. Qed.

Lemma attempts_cons c cs st :
  attempts (c :: cs) st
  = ((attempt c st).1 :: (attempts cs (attempt c st).2).1, (attempts cs (attempt c st).2).2).
Proof. reflexivity. Qed.

Lemma attempts_length cs st : length (attempts cs st).1 = length cs.
Proof. revert st. induction cs as [|c cs IH]; intros st; [done|]. simpl. by rewrite IH. Qed.


(** A sequence of calls that returns is one whose calls all return. *)
Lemma run_calls_attempts cs g w g' w' :
  run_calls cs g w = Ok g' w' →
  attempts cs (g, w) = ((λ _, Returned) <$> cs, (g', w')).
Proof.
  revert g w. induction cs as [|c cs IH]; intros g w; [by intros [= <- <-]|].
  rewrite run_calls_cons, attempts_cons.
  destruct (handle c g w) as [g1 w1|] eqn:Hh; [|done]. intros Hr.
  rewrite (attempt_Ok _ _ _ _ _ Hh). cbn [fst snd]. by rewrite (IH _ _ Hr).
Qed.

(** A sequence that ends with an exception leaves the world its calls
    made up to there. *)
Lemma run_calls_world cs g w :
  ∃ n, world_of (run_calls cs g w) = (attempts (take n cs) (g, w)).2.2.
Proof.
  revert g w. induction cs as [|c cs IH]; intros g w; [by exists 0|].
  rewrite run_calls_cons. destruct (handle c g w) as [g1 w1|e w1] eqn:Hh.
  - destruct (IH g1 w1) as [n Hn]. exists (S n).
    by rewrite firstn_cons, attempts_cons, (attempt_Ok _ _ _ _ _ Hh).
  - exists 1. by rewrite firstn_cons, take_0, attempts_cons, (attempt_Raise _ _ _ _ _ Hh).
Qed.

(** ** The invariant *)

(** The checker after a call is the one before it, or the new object of
    an [init] that returned. *)
Lemma attempt_checker c g w self :
  CVEChecker (attempt c (g, w)).2.1 = Some self →
  CVEChecker g = Some self ∨ (wf_checker self ∧ live (ref self) (attempt c (g, w)).2.2).
Proof.
  rewrite attempt_world. unfold attempt. simpl.
  destruct (handle c g w) as [g' w'|] eqn:Hh; cbn [fst snd]; [|by auto].
  destruct c as [cfg|pkg|]; [|apply handle_globals in Hh as ->; by auto..].
  simpl in Hh. pose proof (init_world cfg g w) as Hw. rewrite Hh in Hw.
  simpl in Hw. subst w'. apply init_Ok in Hh as ->. intros [= <-]. right.
  split; [apply of_config_wf|apply init_live].
Qed.

(** Every call keeps the invariant, whether it returns or raises. *)
Lemma attempt_wf c st : wf_state st → wf_state (attempt c st).2.
Proof.
  destruct st as [g w]. intros Hwf self Hs.
  destruct (attempt_checker c g w self Hs) as [Hg|?]; [|done].
  destruct (Hwf self Hg) as [? Hl]. split; [done|].
  rewrite attempt_world. by apply handle_live.
Qed.

Lemma reachable_inv st : reachable st → wf_state st.
Proof.
  induction 1 as [w|st c o st' _ IH Hstep]; [by intros self|].
  apply step_attempt in Hstep. replace st' with (attempt c st).2 by by rewrite Hstep.
  by apply attempt_wf.
Qed.

(** C29. In every state the plugin can reach from its import, by any calls
    in any order, those that raised included, the checker (when there is
    one) is an object [__init__] builds, its three paths the ones derived
    from the configuration, and it is an object of the heap. *)
Theorem reachable_wf g w self :
  reachable (g, w) → CVEChecker g = Some self →
  wf_checker self ∧ live (ref self) w.
Proof. intros Hr%reachable_inv. apply Hr. Qed.

(** Before [init] has run, a call of [process_package] or
    [process_report] raises [AttributeError], nothing is written, and the
    calls that follow are not made. *)
Theorem calls_before_init c cs g w :
  CVEChecker g = None → is_init c = false →
  ∃ a, run_calls (c :: cs) g w = Raise (AttributeError a) w.
Proof.
  intros Hg Hc. rewrite run_calls_cons.
  destruct (handle_None c g w) as [a ->]; eauto.
Qed.

(** ** The session *)

Lemma content_batch w path (b : option (list string)) :
  w_files w !! path = concat <$> b → content w path = concat (default [] b).
Proof. unfold content. intros ->. by destruct b. Qed.

Lemma batch_of_file w self : w_files w !! faux_path self = concat <$> batch_of w self.
Proof.
  unfold batch_of. destruct (w_files w !! _); [|done]. simpl. by rewrite str_app_nil_r.
Qed.

(** The session of a checker in a world. *)
Lemma implements_checker g w self :
  CVEChecker g = Some self → wf_checker self → live (ref self) w →
  implements g w (mkSession (flag self w) (batch_of w self)).
Proof. intros. exists self. split_and!; [done..|]. apply batch_of_file. Qed.

(** Without a session a call other than [init] raises. *)
Lemma early_implements c g w :
  implements g w no_session → is_init c = false →
  ∃ s', session_step no_session c (attempt c (g, w)).1 s' ∧
    implements (attempt c (g, w)).2.1 (attempt c (g, w)).2.2 s'.
Proof.
  intros Hg Hc. destruct (handle_None c g w Hg Hc) as [a Hh].
  rewrite (attempt_Raise _ _ _ _ _ Hh). exists no_session. split; [by constructor|done].
Qed.

(** A call of [init] is a step of the session, whatever went before:
    when it returns, the checker is the new one of the configuration, and
    the batch is what is found at its path; when it raises, the session is
    the one there was. *)
Lemma init_implements cfg g w s :
  implements g w s →
  ∃ s', session_step s (Init cfg) (attempt (Init cfg) (g, w)).1 s' ∧
    implements (attempt (Init cfg) (g, w)).2.1 (attempt (Init cfg) (g, w)).2.2 s'.
Proof.
  intros Hs. rewrite attempt_world. unfold attempt. simpl.
  pose proof (init_world cfg g w) as Hw. rewrite Hw.
  destruct (init cfg g w) as [g' w'|e w'] eqn:Hi; cbn [fst snd].
  - apply init_Ok in Hi as ->. eexists. split; [apply session_init|].
    apply implements_checker; [done|apply of_config_wf|apply init_live].
  - assert (e = IOError (cfg_logdir cfg +:+ "/isafw_cvelog")) as ->.
    { unfold init in Hi. rewrite run_bind in Hi.
      destruct (new_ISA_CVEChecker cfg w) eqn:Hn; [done|]. injection Hi as <- _.
      by eapply init_Raise. }
    destruct s as [|o b]; [exists no_session; split; [constructor|done]|].
    destruct Hs as (self & Hg & Hwf & Hl & Ho & Hb).
    pose proof (init_others cfg w _ Hl) as Hk.
    exists (mkSession o (batch_of (world_of (new_ISA_CVEChecker cfg w)) self)).
    split; [constructor|]. rewrite <- Ho, <- (flag_lookup self w _ Hk).
    apply implements_checker; [done..|by apply (live_lookup w)].
Qed.

(** A package call is a step of the session. *)
Lemma package_implements pkg g w s :
  implements g w s →
  ∃ s', session_step s (ProcessPackage pkg) (attempt (ProcessPackage pkg) (g, w)).1 s' ∧
    implements (attempt (ProcessPackage pkg) (g, w)).2.1
      (attempt (ProcessPackage pkg) (g, w)).2.2 s'.
Proof.
  destruct s as [|o b]; [intros; by apply early_implements|].
  intros (self & Hg & Hwf & Hl & <- & Hb). unfold attempt.
  rewrite (handle_package _ _ _ _ Hg), process_package_gen. cbv zeta. cbn [fst snd].
  pose proof (faux_ne_logfile self Hwf) as Hne.
  destruct (flag self w) eqn:Hi; [destruct (complete pkg) eqn:Hc|];
    repeat (destruct (writable _)); cbn [fst snd].
  - eexists; split; [by apply session_record|]. exists self. split_and!; [done..|].
    rewrite files_logged_ne, files_store by done. simpl.
    by rewrite concat_app, (content_batch _ _ b).
  - eexists; split; [by apply session_record_unlogged|]. exists self.
    split_and!; [done..|]. rewrite files_store. simpl.
    by rewrite concat_app, (content_batch _ _ b).
  - eexists; split; [by apply session_record_refused|]. by exists self.
  - eexists; split; [by apply session_reject|]. exists self.
    split_and!; [done..|by apply assigned_is_Some|apply flag_switched|].
    by rewrite files_logged_ne.
  - eexists; split; [by apply session_reject|]. exists self.
    split_and!; [done..|by apply assigned_is_Some|apply flag_switched|done].
  - eexists; split; [by apply session_ignore|]. exists self.
    split_and!; [done..|]. by rewrite files_logged_ne.
  - eexists; split; [by apply session_ignore|]. by exists self.
Qed.

(** A report call is a step of the session. *)
Lemma report_implements g w s :
  implements g w s →
  ∃ s', session_step s ProcessReport (attempt ProcessReport (g, w)).1 s' ∧
    implements (attempt ProcessReport (g, w)).2.1 (attempt ProcessReport (g, w)).2.2 s'.
Proof.
  destruct s as [|o b]; [intros; by apply early_implements|].
  intros (self & Hg & Hwf & Hl & <- & Hb). unfold attempt.
  rewrite (handle_report _ _ _ Hg). cbn [fst snd].
  pose proof (process_report_keeps self w) as Hk. unfold same_heap in Hk.
  destruct (process_report self w) as [[] w1|e w1] eqn:Hr; cbn [fst snd world_of] in *;
    pose proof (flag_heap self w w1 Hk) as Hf; pose proof (live_heap w w1 _ Hk Hl) as Hl1.
  - apply process_report_batch in Hr; [|done].
    destruct (bool_decide _ && _) eqn:Hgd.
    + apply andb_true_iff in Hgd as [[ls' Hs]%bool_decide_eq_true Hi].
      rewrite Hi. destruct b as [ls|]; [|by rewrite Hs in Hb].
      eexists; split; [apply session_report|]. exists self.
      split_and!; [done..|congruence|done].
    + subst w1. exists (mkSession (flag self w) b). split; [|by exists self].
      apply session_no_report. apply andb_false_iff in Hgd as [Hn|Hi]; [right|by left].
      apply bool_decide_eq_false in Hn. destruct b; [|done].
      destruct Hn. by rewrite Hb.
  - apply process_report_Raise in Hr as [[c Hc] Hi]. rewrite Hi.
    destruct b as [ls|]; [|by rewrite Hc in Hb].
    exists (mkSession true (batch_of w1 self)). split; [constructor|].
    rewrite <- Hi, <- Hf. by apply implements_checker.
Qed.

(** One call is one step of the session, with the outcome of the call. *)
Lemma attempt_implements c g w s :
  implements g w s →
  ∃ s', session_step s c (attempt c (g, w)).1 s' ∧
    implements (attempt c (g, w)).2.1 (attempt c (g, w)).2.2 s'.
Proof.
  intros Hi. destruct c;
    [by apply init_implements|by apply package_implements|by apply report_implements].
Qed.

(** A sequence of calls is a sequence of steps of the session. *)
Lemma attempts_session cs g w s :
  implements g w s →
  ∃ s', session_steps s (zip cs (attempts cs (g, w)).1) s' ∧
    implements (attempts cs (g, w)).2.1 (attempts cs (g, w)).2.2 s'.
Proof.
  revert g w s. induction cs as [|c cs IH]; intros g w s Hi.
  - exists s. split; [constructor|done].
  - destruct (attempt_implements c g w s Hi) as (s1 & Hs1 & Hi1).
    rewrite attempts_cons. destruct (attempt c (g, w)) as [o [g1 w1]]. cbn [fst snd] in *.
    destruct (IH g1 w1 s1 Hi1) as (s' & Hs' & Hi').
    exists s'. split; [by econstructor|done].
Qed.

Lemma zip_returned cs : zip cs ((λ _, Returned) <$> cs) = all_returned cs.
Proof. unfold all_returned. induction cs as [|c cs IH]; [done|]. simpl. by f_equal. Qed.

(** C2. The plugin implements the session.  From its import, whatever
    calls are made in whatever order and however each of them ends, the
    calls and their outcomes are steps of the session, from no session to
    a session that the state the plugin is left in implements: the checker
    is on or off as the session says, and the batch file holds the lines
    the session has. *)
Theorem attempts_implements cs w :
  ∃ s', session_steps no_session (zip cs (attempts cs (imported, w)).1) s' ∧
    implements (attempts cs (imported, w)).2.1 (attempts cs (imported, w)).2.2 s'.
Proof. by apply attempts_session. Qed.

(** A sequence of calls that returns, [init] among them or not, takes
    a state that implements a session to a state that implements the
    session the calls lead to, in every environment. *)
Theorem run_calls_implements cs g w g' w' s :
  implements g w s → run_calls cs g w = Ok g' w' →
  ∃ s', session_steps s (all_returned cs) s' ∧ implements g' w' s'.
Proof.
  intros Hi Hr%run_calls_attempts.
  destruct (attempts_session cs g w s Hi) as (s' & Hs & Hi'). rewrite Hr in Hs, Hi'.
  exists s'. split; [|done]. by rewrite <- zip_returned.
Qed.

(** ** What the session promises *)

(** These are facts of the session alone, proved by induction on its
    steps; through the refinement they are facts of the plugin, in every
    environment and whatever the outcome of each call. *)

(** A session that is off stays as it is until the next [init]. *)
Lemma session_off_frozen b cs s' :
  session_steps (mkSession false b) cs s' →
  Forall (λ co, is_init co.1 = false) cs → s' = mkSession false b.
Proof.
  intros Hs. remember (mkSession false b) as s eqn:Es in Hs. revert Es.
  induction Hs as [s|s c o s1 cs s2 Hstep _ IH]; [done|].
  intros -> [Hc Hcs]%Forall_cons. apply IH; [|done].
  by inversion Hstep; subst.
Qed.

Lemma grown_grown b l1 l2 : grown (grown b l1) l2 = grown b (l1 ++ l2).
Proof.
  destruct l1 as [|x l1], l2 as [|y l2]; simpl; try done.
  - by rewrite app_nil_r.
  - by rewrite <- app_assoc.
Qed.

Lemma faux_lines_cons pkg : ∃ x l, faux_lines pkg = x :: l.
Proof. unfold faux_lines. eauto. Qed.

(** One package call adds the lines of the package to the batch, or
    nothing, and does not switch the session on. *)
Lemma session_package s pkg o s' :
  session_step s (ProcessPackage pkg) o s' →
  match s with
  | no_session => s' = no_session
  | mkSession on b =>
      ∃ on' rec, rec `sublist_of` [pkg] ∧
        s' = mkSession on' (grown b (rec ≫= faux_lines)) ∧ (on' = true → on = true)
  end.
Proof.
  inversion 1; subst; [done|..].
  - exists true, [pkg]. split_and!; [done| |done]. rewrite bind_cons, app_nil_r.
    by destruct (faux_lines_cons pkg) as (x & l & ->).
  - exists true, [pkg]. split_and!; [done| |done]. rewrite bind_cons, app_nil_r.
    by destruct (faux_lines_cons pkg) as (x & l & ->).
  - exists true, []. split_and!; [by apply sublist_nil_l|done..].
  - exists false, []. split_and!; [by apply sublist_nil_l|done..].
  - exists false, []. split_and!; [by apply sublist_nil_l|done..].
Qed.

(** Package calls only append to the batch: what it holds after them is
    what it held, followed by the lines of some of the packages, in the
    order of the calls. *)
Lemma session_packages s pkgs os s' :
  session_steps s (zip (ProcessPackage <$> pkgs) os) s' → length os = length pkgs →
  match s with
  | no_session => s' = no_session
  | mkSession on b =>
      ∃ on' rec, rec `sublist_of` pkgs ∧
        s' = mkSession on' (grown b (rec ≫= faux_lines)) ∧ (on' = true → on = true)
  end.
Proof.
  revert s os. induction pkgs as [|pkg pkgs IH]; intros s os Hs Hl.
  - inversion Hs; subst. destruct s' as [|on b]; [done|]. by exists on, [].
  - destruct os as [|o os]; [done|]. injection Hl as Hl. simpl in Hs.
    inversion Hs as [|? ? ? s1 ? ? Hstep Hrest]; subst.
    apply session_package in Hstep. apply IH in Hrest; [|done].
    destruct s as [|on b]; [by subst|].
    destruct Hstep as (on1 & rec1 & Hsub1 & -> & Hon1).
    destruct Hrest as (on2 & rec2 & Hsub2 & -> & Hon2).
    exists on2, (rec1 ++ rec2). split_and!; [|by rewrite grown_grown, bind_app|by auto].
    change (pkg :: pkgs) with ([pkg] ++ pkgs). by apply sublist_app.
Qed.

(** A sequence of calls without [init] keeps the global. *)
Lemma attempts_globals cs g w :
  Forall (λ c, is_init c = false) cs → (attempts cs (g, w)).2.1 = g.
Proof.
  intros Hcs. revert w. induction Hcs as [|c cs Hc _ IH]; intros w; [done|].
  rewrite attempts_cons. cbn [fst snd]. pose proof (attempt_globals c g w Hc) as Hg.
  destruct (attempt c (g, w)) as [o [g1 w1]]. cbn [fst snd] in *. subst g1. apply IH.
Qed.

Lemma zip_non_init cs (os : list outcome) :
  Forall (λ c, is_init c = false) cs →
  Forall (λ co : call * outcome, is_init co.1 = false) (zip cs os).
Proof.
  intros Hcs. revert os. induction Hcs as [|c cs Hc _ IH]; intros [|o os]; simpl; auto.
Qed.

(** C20. A checker that is off is frozen: in every environment, whatever
    package and report calls are made and however each of them ends, the
    checker is still off afterwards and the batch file is what it was. *)
Theorem off_checker_frozen cs g w self :
  CVEChecker g = Some self → wf_checker self → live (ref self) w →
  flag self w = false → Forall (λ c, is_init c = false) cs →
  (attempts cs (g, w)).2.1 = g ∧
  flag self (attempts cs (g, w)).2.2 = false ∧
  w_files (attempts cs (g, w)).2.2 !! faux_path self = w_files w !! faux_path self.
Proof.
  intros Hg Hwf Hl Hi Hcs. pose proof (attempts_globals cs g w Hcs) as Hg'.
  destruct (attempts_session cs g w _ (implements_checker g w self Hg Hwf Hl))
    as (s' & Hs & Hi').
  rewrite Hi in Hs. apply session_off_frozen in Hs as ->; [|by apply zip_non_init].
  rewrite Hg' in Hi'. destruct Hi' as (self' & Hg2 & _ & _ & Hoff & Hb).
  assert (self' = self) as -> by congruence.
  split_and!; [done..|]. by rewrite Hb, <- batch_of_file.
Qed.

(** C11. Package calls only append to the batch file: in every
    environment, whatever can and cannot be opened and however each call
    ends, the batch file after the calls holds what it held before,
    followed by the lines of some of the packages, each once and in the
    order of the calls. *)
Theorem packages_only_append pkgs g w self :
  CVEChecker g = Some self → wf_checker self → live (ref self) w →
  ∃ rec, rec `sublist_of` pkgs ∧
    content (attempts (ProcessPackage <$> pkgs) (g, w)).2.2 (faux_path self)
    = content w (faux_path self) +:+ concat (rec ≫= faux_lines).
Proof.
  intros Hg Hwf Hl.
  assert ((attempts (ProcessPackage <$> pkgs) (g, w)).2.1 = g) as Hg'
    by by apply attempts_globals, Forall_fmap, Forall_true.
  destruct (attempts_session (ProcessPackage <$> pkgs) g w _
              (implements_checker g w self Hg Hwf Hl)) as (s' & Hs & Hi').
  apply session_packages in Hs; [|by rewrite attempts_length, length_fmap].
  destruct Hs as (on' & rec & Hsub & -> & _). exists rec. split; [done|].
  rewrite Hg' in Hi'.
  destruct Hi' as (self' & Hg2 & _ & _ & _ & Hb).
  assert (self' = self) as -> by congruence.
  rewrite (content_batch _ _ _ Hb). unfold batch_of, content.
  destruct (rec ≫= faux_lines) as [|x l]; simpl.
  - destruct (w_files w !! faux_path self); simpl; by rewrite ?str_app_nil_r.
  - destruct (w_files w !! faux_path self); simpl; by rewrite ?str_app_nil_r.
Qed.

(** ** The step relation and the executable run *)


(** ** Where the log cannot be opened *)

(** With a log that cannot be opened, a checker that is off is of no use
    and does no harm: a package call raises and a report call returns, and
    neither changes anything. *)
Lemma attempt_dead c g w self :
  CVEChecker g = Some self → writable (logfile self) = false →
  flag self w = false → is_init c = false →
  (attempt c (g, w)).2 = (g, w).
Proof.
  intros Hg Hl Hi Hc. unfold attempt. destruct c as [|pkg|]; [done|..]; cbn [fst snd].
  - by rewrite (handle_package _ _ _ _ Hg), process_package_gen, Hi, Hl.
  - by rewrite (handle_report _ _ _ Hg), process_report_skip by by right.
Qed.

Lemma attempts_dead cs g w self :
  CVEChecker g = Some self → writable (logfile self) = false →
  flag self w = false → Forall (λ c, is_init c = false) cs →
  (attempts cs (g, w)).2 = (g, w).
Proof.
  intros Hg Hl Hi Hcs. induction Hcs as [|c cs Hc _ IH]; [done|].
  by rewrite attempts_cons, (attempt_dead c g w self).
Qed.

(** C10. One package that is not complete, given to a checker whose log
    cannot be opened, ends the session although the call fails: the call
    raises [IOError] for the log, and whatever package and report calls
    follow and however they end, the plugin is left with the checker
    switched off and nothing else changed: no file written, no command
    run. *)
Theorem unlogged_reject_ends_session self pkg cs g w :
  CVEChecker g = Some self → flag self w = true → complete pkg = false →
  writable (logfile self) = false →
  Forall (λ c, is_init c = false) cs →
  head (attempts (ProcessPackage pkg :: cs) (g, w)).1 = Some (Raised (IOError (logfile self))) ∧
  (attempts (ProcessPackage pkg :: cs) (g, w)).2 = (g, switched false self w).
Proof.
  intros Hg Hi Hc Hl Hcs.
  assert (attempt (ProcessPackage pkg) (g, w)
          = (Raised (IOError (logfile self)), (g, switched false self w))) as Ha.
  { apply attempt_Raise.
    rewrite (handle_package _ _ _ _ Hg), process_package_gen, Hi, Hc. cbv zeta. by rewrite Hl. }
  rewrite attempts_cons, Ha. cbn [fst snd head].
  by rewrite (attempts_dead cs g _ self) by (done || apply flag_switched).
Qed.

(** ** Where every file can be opened *)

(* From here on the files the plugin writes can be opened ([Writable]). *)
Context {HW : Writable}.

(** A call of a checker that is off returns and leaves it off; it writes the log at most. *)
Lemma handle_off c g w self :
  CVEChecker g = Some self → flag self w = false → is_init c = false →
  ∃ w', handle c g w = Ok g w' ∧ w_heap w' = w_heap w ∧ w_trace w' = w_trace w ∧
    ∀ path, path ≠ logfile self → w_files w' !! path = w_files w !! path.
Proof.
  intros Hg Hi Hc. destruct c as [|pkg|]; [done|..].
  - rewrite (handle_package _ _ _ _ Hg), process_package_run, Hi.
    eexists; split_and!; [done..|]. intros path Hp. by rewrite files_logged_ne.
  - rewrite (handle_report _ _ _ Hg), process_report_skip by by right. eauto.
Qed.

Lemma run_calls_off cs g w self :
  CVEChecker g = Some self → flag self w = false →
  Forall (λ c, is_init c = false) cs →
  ∃ w', run_calls cs g w = Ok g w' ∧ w_heap w' = w_heap w ∧ w_trace w' = w_trace w ∧
    ∀ path, path ≠ logfile self → w_files w' !! path = w_files w !! path.
Proof.
  intros Hg Hi Hcs. revert w Hi. induction Hcs as [|c cs Hc _ IH]; intros w Hi; [by eexists|].
  destruct (handle_off c g w self) as (w1 & Hh & Hk & Ht & Hf); [done..|].
  destruct (IH w1) as (w2 & Hr & Hk2 & Ht2 & Hf2); [by rewrite (flag_heap self w w1)|].
  exists w2. rewrite run_calls_cons, Hh. split_and!; [done|congruence|congruence|].
  intros path Hp. by rewrite Hf2, Hf.
Qed.

(** The calls for a list of complete packages, one after the other: the
    batch file is there after the first. *)
Lemma run_packages pkgs g self w :
  CVEChecker g = Some self → wf_checker self → flag self w = true →
  Forall (λ p, complete p = true) pkgs →
  ∃ w', run_calls (ProcessPackage <$> pkgs) g w = Ok g w' ∧
    w_files w' !! faux_path self
    = (if pkgs is [] then w_files w !! faux_path self
       else Some (content w (faux_path self) +:+ concat (pkgs ≫= faux_lines))) ∧
    w_trace w' = w_trace w ∧ w_heap w' = w_heap w ∧
    ∀ path, path ≠ faux_path self → path ≠ logfile self →
      w_files w' !! path = w_files w !! path.
Proof.
  intros Hg Hwf%faux_ne_logfile Hi Hp. revert w Hi.
  induction Hp as [|pkg pkgs Hc _ IH]; intros w Hi; [by exists w|].
  rewrite fmap_cons, run_calls_cons.
  rewrite (handle_package _ _ _ self), process_package_run, Hi, Hc by done.
  cbv zeta. edestruct IH as (w' & -> & Hf & Ht & Hk & Ho); [by rewrite flag_logged, flag_store|].
  exists w'. split_and!; [done|..].
  - rewrite Hf, bind_cons, concat_app. destruct pkgs.
    + by rewrite files_logged_ne, files_store, str_app_nil_r.
    + by rewrite content_logged_ne, content_store, str_app_assoc by by apply not_eq_sym.
  - by rewrite Ht.
  - by rewrite Hk.
  - intros path H1 H2. by rewrite Ho, files_logged_ne, files_store_ne.
Qed.

(** C17. A sequence of complete packages given to a checker that is on is
    recorded in full: the calls all return, the checker stays on, and the
    batch file grows by the lines of the packages in the order of the calls;
    no command is run, no other file but the log changes, and no object. *)
Theorem packages_recorded pkgs g self w :
  CVEChecker g = Some self → wf_checker self → flag self w = true →
  Forall (λ p, complete p = true) pkgs →
  ∃ w', run_calls (ProcessPackage <$> pkgs) g w = Ok g w' ∧
    content w' (faux_path self)
    = content w (faux_path self) +:+ concat (pkgs ≫= faux_lines) ∧
    w_trace w' = w_trace w ∧ w_heap w' = w_heap w ∧
    ∀ path, path ≠ faux_path self → path ≠ logfile self →
      w_files w' !! path = w_files w !! path.
Proof.
  intros Hg Hwf Hi Hp.
  destruct (run_packages pkgs g self w Hg Hwf Hi Hp) as (w' & Hr & Hf & Ht & Hk & Ho).
  exists w'. split_and!; [done| |done..]. unfold content at 1. rewrite Hf.
  destruct pkgs; [|done]. by rewrite str_app_nil_r.
Qed.

(** C18. One package without a name, a version or a patch ends the session:
    the checker is switched off, and whatever package and report calls
    follow, they return without recording anything, running any command or
    writing any file but the log, and the checker is off at the end. *)
Theorem incomplete_package_disables self pkg cs g w :
  CVEChecker g = Some self → flag self w = true →
  name pkg = "" ∨ version pkg = "" ∨ patch_files pkg = [] →
  Forall (λ c, is_init c = false) cs →
  ∃ w', run_calls (ProcessPackage pkg :: cs) g w = Ok g w' ∧
    flag self w' = false ∧ w_trace w' = w_trace w ∧
    ∀ path, path ≠ logfile self → w_files w' !! path = w_files w !! path.
Proof.
  intros Hg Hi Hc%complete_false Hcs. rewrite run_calls_cons.
  rewrite (handle_package _ _ _ self), process_package_run, Hi, Hc by done.
  edestruct (run_calls_off cs g) as (w' & -> & Hk & Ht & Hf);
    [done|by rewrite flag_logged, flag_switched|done|].
  exists w'. split_and!; [done| |done|].
  - by rewrite (flag_heap self _ w' Hk), flag_logged, flag_switched.
  - intros path Hp. by rewrite Hf, files_logged_ne.
Qed.

End PluginFacts.

(** ** Witnesses *)

Lemma reachable_wf_witness :
  ∃ w, wf_checker (of_config demo_config 2) ∧ live 2 w.
Proof.
  eexists.
  eapply (reachable_wf (HE:=clean_env) (HX:=demo_etree)
            (mkGlobals (Some (of_config demo_config 2)))); [|done].
  eapply reachable_step; [apply (reachable_imported demo_world)|].
  apply (Step_return _ _ (Init demo_config)). vm_compute. reflexivity.
Defined.

Lemma callbacks_raise_witness :
  @may_raise no_log_env (Init demo_config) imported (IOError "/build/log/isafw_cvelog").
Proof.
  eapply (callbacks_raise (HE:=no_log_env) (HX:=demo_etree) (Init demo_config) imported
            demo_world).
  vm_compute. reflexivity.
Defined.

Lemma calls_before_init_witness :
  ∃ a, @run_calls report_env demo_etree [ProcessReport; Init demo_config] imported demo_world
       = Raise (AttributeError a) demo_world.
Proof. by apply (calls_before_init (HE:=report_env) (HX:=demo_etree)). Defined.

Lemma run_calls_implements_witness :
  ∃ g' w' s',
    @run_calls session_env demo_etree
      [Init demo_config; ProcessPackage demo_pkg; ProcessReport] imported demo_world
    = Ok g' w' ∧
    session_steps no_session
      (all_returned [Init demo_config; ProcessPackage demo_pkg; ProcessReport]) s' ∧
    implements g' w' s'.
Proof.
  edestruct (λ g' w', run_calls_implements (HE:=session_env) (HX:=demo_etree)
               [Init demo_config; ProcessPackage demo_pkg; ProcessReport] imported demo_world
               g' w' no_session)
    as (s' & Hs & Hi); [done|vm_compute; reflexivity|].
  eexists _, _, s'. split_and!; [vm_compute; reflexivity|exact Hs|exact Hi].
Defined.

(** A session in which the log cannot be opened: [init] raises and
    leaves no checker, and so do the calls after it. *)
Example attempts_without_log :
  (@attempts no_log_env demo_etree
     [Init demo_config; ProcessPackage demo_pkg; ProcessReport] (imported, demo_world)).1
  = [Raised (IOError "/build/log/isafw_cvelog"); Raised (AttributeError "process_package");
     Raised (AttributeError "process_report")].
Proof. by vm_compute. Qed.

Lemma unlogged_reject_ends_session_witness :
  head (@attempts no_log_env demo_etree
          [ProcessPackage (mkPkg "zlib" "1.2.8" [] []); ProcessPackage demo_pkg; ProcessReport]
          (mkGlobals (Some demo_self), demo_world)).1
  = Some (Raised (IOError "/build/log/isafw_cvelog")) ∧
  (@attempts no_log_env demo_etree
     [ProcessPackage (mkPkg "zlib" "1.2.8" [] []); ProcessPackage demo_pkg; ProcessReport]
     (mkGlobals (Some demo_self), demo_world)).2
  = (mkGlobals (Some demo_self), switched false demo_self demo_world).
Proof.
  apply (unlogged_reject_ends_session (HE:=no_log_env) (HX:=demo_etree) demo_self);
    [done|by vm_compute|done|done|by repeat constructor].
Defined.

Lemma off_checker_frozen_witness :
  (@attempts report_env demo_etree [ProcessPackage demo_pkg; ProcessReport]
     (mkGlobals (Some demo_off), batch_world)).2.1 = mkGlobals (Some demo_off) ∧
  flag demo_off (@attempts report_env demo_etree [ProcessPackage demo_pkg; ProcessReport]
                   (mkGlobals (Some demo_off), batch_world)).2.2 = false ∧
  w_files (@attempts report_env demo_etree [ProcessPackage demo_pkg; ProcessReport]
             (mkGlobals (Some demo_off), batch_world)).2.2 !! faux_path demo_off
  = w_files batch_world !! faux_path demo_off.
Proof.
  apply (off_checker_frozen (HE:=report_env) (HX:=demo_etree));
    [done|by exists demo_config|by eexists; vm_compute|by vm_compute|by repeat constructor].
Defined.

Lemma packages_only_append_witness :
  ∃ rec, rec `sublist_of` [mkPkg "zlib" "1.2.8" [] []; demo_pkg] ∧
    content (@attempts no_log_env demo_etree
               (ProcessPackage <$> [mkPkg "zlib" "1.2.8" [] []; demo_pkg])
               (mkGlobals (Some demo_self), batch_world)).2.2 (faux_path demo_self)
    = content batch_world (faux_path demo_self) +:+ concat (rec ≫= faux_lines).
Proof.
  apply (packages_only_append (HE:=no_log_env) (HX:=demo_etree));
    [done|by exists demo_config|by eexists; vm_compute].
Defined.

Lemma packages_recorded_witness :
  ∃ w', @run_calls report_env demo_etree
          (ProcessPackage <$> [demo_pkg; mkPkg "zlib" "1.2.8" ["fix.patch"] []])
          (mkGlobals (Some demo_self)) demo_world = Ok (mkGlobals (Some demo_self)) w' ∧
    content w' (faux_path demo_self)
    = "busybox,1.24.1, CVE-2016-2147," +:+ nl +:+ "busybox-static,1.24.1, CVE-2016-2147,"
      +:+ nl +:+ "zlib,1.2.8,," +:+ nl.
Proof.
  edestruct (packages_recorded (HE:=report_env) (HX:=demo_etree)
               [demo_pkg; mkPkg "zlib" "1.2.8" ["fix.patch"] []]
               (mkGlobals (Some demo_self)) demo_self demo_world)
    as (w' & Hr & Hf & _); [done|by exists demo_config|by vm_compute|by repeat constructor|].
  exists w'. split; [exact Hr|]. rewrite Hf. reflexivity.
Defined.

Lemma incomplete_package_disables_witness :
  ∃ w', @run_calls report_env demo_etree
          [ProcessPackage (mkPkg "zlib" "1.2.8" [] []); ProcessPackage demo_pkg; ProcessReport]
          (mkGlobals (Some demo_self)) demo_world
        = Ok (mkGlobals (Some demo_self)) w' ∧
    flag demo_self w' = false ∧
    w_files w' !! faux_path demo_self = None ∧ w_trace w' = [].
Proof.
  edestruct (incomplete_package_disables (HE:=report_env) (HX:=demo_etree) demo_self
               (mkPkg "zlib" "1.2.8" [] [])
               [ProcessPackage demo_pkg; ProcessReport] (mkGlobals (Some demo_self)) demo_world)
    as (w' & Hr & Hoff & Ht & Hf); [done|by vm_compute|by right; right|by repeat constructor|].
  exists w'. split_and!; [exact Hr|exact Hoff| |exact Ht]. by rewrite Hf.
Defined.

(** ** What the plugin writes *)

Section PluginFrames.
Context `{HC : Confined X} {HX : Etree}.
Implicit Types (g : globals) (w : World) (self : ISA_CVEChecker).

Lemma handle_frame c g self :
  is_init c = false → CVEChecker g = Some self →
  writes (X ∪ own_files self) (handle c g).
Proof.
  intros Hc Hg. unfold own_files. destruct c as [|pkg|]; [done|..]; unfold handle;
    [unfold plugin_process_package|unfold plugin_process_report]; rewrite Hg; solve_writes.
Qed.

(** C27. Between two calls of [init] the plugin changes no file but the five
    of its checker, and those its commands change, however the calls end;
    and the checker stays the one it was. *)
Theorem attempts_writes cs g w self :
  CVEChecker g = Some self → Forall (λ c, is_init c = false) cs →
  (attempts cs (g, w)).2.1 = g ∧
  same_outside (X ∪ own_files self) w (attempts cs (g, w)).2.2.
Proof.
  intros Hg Hcs. split; [by apply attempts_globals|].
  revert w. induction Hcs as [|c cs Hc _ IH]; intros w; [done|].
  rewrite attempts_cons. cbn [fst snd].
  pose proof (handle_frame c g self Hc Hg w) as Hw. rewrite <- attempt_world in Hw.
  pose proof (attempt_globals c g w Hc) as Hg1.
  destruct (attempt c (g, w)) as [o [g1 w1]]. cbn [fst snd] in *. subst g1.
  by etrans.
Qed.

(** An invariant that every call keeps, and a relation that every call
    preserves where the invariant holds, hold of a sequence of calls. *)
Lemma attempts_preserved (R : relation World) `{!PreOrder R} (I : globals * World → Prop) :
  (∀ c st, I st → I (attempt c st).2) →
  (∀ c g w, I (g, w) → R w (world_of (handle c g w))) →
  ∀ cs st, I st → R st.2 (attempts cs st).2.2.
Proof.
  intros HI HR cs. induction cs as [|c cs IH]; intros [g w] Hst; [reflexivity|].
  rewrite attempts_cons. cbn [fst snd]. etrans; [|apply IH, HI, Hst].
  rewrite attempt_world. by apply HR.
Qed.

(** A path that ends like a log is none of the files a checker removes
    or replaces. *)
Lemma log_ne_files self p :
  wf_checker self → last_char p = Some "g"%char →
  faux_path self ≠ p ∧ csv_report_name self ≠ p ∧ html_report_name self ≠ p ∧ xml_path self ≠ p.
Proof.
  intros Hwf Hp. split_and!; apply last_char_ne;
    by rewrite Hp, ?csv_report_last, ?html_report_last, ?faux_path_last, ?xml_path_last.
Qed.

Lemma handle_grows c g p :
  (∀ self, CVEChecker g = Some self → wf_checker self) → last_char p = Some "g"%char → p ∉ X →
  preserves (grows p) (handle c g).
Proof.
  intros Hwf Hl Hp. destruct c as [cfg|pkg|]; simpl.
  - unfold init. solve_preserves.
  - unfold plugin_process_package. solve_preserves.
  - unfold plugin_process_report. destruct (CVEChecker g) as [self|] eqn:Hg; solve_preserves.
    destruct (log_ne_files self p) as (? & ? & ? & ?); [by apply Hwf|done|].
    by apply process_report_grows.
Qed.

(** C13. The logs are append-only.  Over every sequence of calls, from
    every state in which the checker is one that [__init__] builds, and
    however each call ends, the log of a configuration (the one in use or
    any other) holds at the end what it held at the start, followed by
    what was added: every write to a log opens it with the mode ['a'],
    and the files that are removed or opened with ['wb'] (the batch file,
    the two reports, the summary) are never a log.  The environment is
    one whose commands leave the log alone. *)
Theorem log_append_only cs st logdir :
  wf_state st → logdir +:+ "/isafw_cvelog" ∉ X →
  grows (logdir +:+ "/isafw_cvelog") st.2 (attempts cs st).2.2.
Proof.
  intros Hst Hp. apply (attempts_preserved _ wf_state); [apply attempt_wf| |done].
  intros c g w Hwf. apply handle_grows; [|by rewrite last_char_app|done].
  intros self Hg. by apply (Hwf self).
Qed.

End PluginFrames.

(** ** A whole session in a healthy environment *)

Section HealthySession.
(* In this section the files the plugin writes can be opened ([Writable]). *)
Context `{HE : Env} {HH : Healthy} {HA : AsciiValid} {HW : Writable} {HX : Etree}.
Implicit Types (g : globals) (w : World) (self : ISA_CVEChecker).

Lemma run_calls_app cs cs' g w :
  run_calls (cs ++ cs') g w =
    match run_calls cs g w with
    | Ok g1 w1 => run_calls cs' g1 w1
    | Raise e w1 => Raise e w1
    end.
Proof.
  revert g w. induction cs as [|c cs IH]; intros g w; [done|].
  rewrite <- app_comm_cons, !run_calls_cons. by destruct (handle c g w).
Qed.

(** [init] where the lookup finds the tool: the checker is a new object
    and it is on, and only the log is written. *)
Lemma init_healthy cfg g w :
  tool_found w = true →
  ∃ w1, init cfg g w = Ok (mkGlobals (Some (of_config cfg (next_object w)))) w1 ∧
    flag (of_config cfg (next_object w)) w1 = true ∧
    w_trace w1 = w_trace w ++ ["which cve-check-tool"] ∧
    same_outside {[logfile (of_config cfg (next_object w))]} w w1.
Proof.
  unfold init, tool_found. rewrite run_bind, init_run.
  destruct (exec_healthy (w_trace w) (w_files w) "which cve-check-tool") as [out ->].
  cbv zeta. rewrite writable_all. cbn [fst]. intros ->. eexists. split_and!; [done| |done|].
  - by rewrite flag_logged, flag_switched.
  - intros path Hp. rewrite files_logged_ne by solve_not_in. done.
Qed.

(** C5. In a healthy environment in which the tool is installed, a whole
    session comes to its end: [init], then one complete package or more,
    then the report, all return; the commands started are the lookup, then
    those of the CSV and of the HTML report; the batch file is gone, the CSV
    report is stored and the XML summary holds one test case per line of it;
    no file but the five of the checker has changed. *)
Theorem session_completes cfg pkg pkgs g w :
  let self := of_config cfg (next_object w) in
  tool_found w = true → Forall (λ p, complete p = true) (pkg :: pkgs) →
  ∃ k1 k2 csv w',
    run_calls (Init cfg :: (ProcessPackage <$> pkg :: pkgs) ++ [ProcessReport]) g w
    = Ok (mkGlobals (Some self)) w' ∧
    w_trace w' = w_trace w ++ "which cve-check-tool"
                 :: commands self "csv" k1 ++ commands self "html" k2 ∧
    flag self w' = true ∧
    w_files w' !! faux_path self = None ∧
    w_files w' !! csv_report_name self = Some csv ∧
    w_files w' !! xml_path self
    = Some (render (testsuite (line_case <$> readlines csv))) ∧
    same_outside (own_files self) w w'.
Proof.
  intros self Hfound Hp.
  assert (wf_checker self) as Hwf by apply of_config_wf.
  destruct (init_healthy cfg g w Hfound) as (w1 & Hi & Ho1 & Ht1 & Hf1). fold self in Hi, Ho1, Hf1.
  destruct (run_packages (pkg :: pkgs) (mkGlobals (Some self)) self w1 eq_refl Hwf Ho1 Hp)
    as (w2 & Hr & Hb & Ht2 & Hk2 & Hf2).
  destruct (process_report_all_well self w2 Hwf) as (k1 & k2 & csv & html & w3 & R & Ht3 & Hx);
    [by rewrite Hb|by rewrite (flag_heap self w1 w2)|].
  destruct Hx as (Hb3 & Hc3 & _ & Hx3 & Hf3).
  exists k1, k2, csv, w3. rewrite run_calls_cons. unfold handle at 1. rewrite Hi.
  rewrite run_calls_app, Hr, run_calls_cons.
  rewrite (handle_report _ _ self), R by done.
  split_and!; [done| | |done..|].
  - by rewrite Ht3, Ht2, Ht1, <- app_assoc.
  - pose proof (process_report_keeps self w2) as Hk3. rewrite R in Hk3.
    by rewrite (flag_heap self w2 w3 Hk3), (flag_heap self w1 w2 Hk2).
  - destruct (own_files_ne self Hwf) as (N1&N2&N3&N4&N5&N6&N7&N8&N9&N10).
    intros path Hn. unfold own_files in Hn.
    rewrite Hf3, Hf2, Hf1 by (done || solve_not_in). done.
Qed.

End HealthySession.

Lemma session_completes_witness :
  ∃ w', @run_calls session_env demo_etree
          [Init demo_config; ProcessPackage demo_pkg; ProcessReport] imported demo_world
        = Ok (mkGlobals (Some (of_config demo_config 2))) w' ∧
    length (w_trace w') = 6 ∧
    w_files w' !! xml_path demo_self = Some "testsuite tests=1".
Proof.
  destruct (session_completes (HE:=session_env) (HH:=scripted_healthy _) (HX:=demo_etree)
              demo_config demo_pkg [] imported demo_world)
    as (k1 & k2 & csv & w' & Hr & Ht & _);
    [vm_compute; reflexivity|by repeat constructor|].
  exists w'. split_and!; [exact Hr|by rewrite Ht|].
  vm_compute in Hr. injection Hr as <-. vm_compute. reflexivity.
Defined.

(** ** Commands *)

Section PluginCommands.
Context `{HE : Env} {HX : Etree}.

Lemma handle_spawns c g : spawns (cost c) (handle c g).
Proof.
  destruct c; simpl; unfold init, plugin_process_package, plugin_process_report;
    solve_spawns.
Qed.

(** A sequence of calls starts at most as many commands as its calls
    allow, one for each [init] and seven for each report, whatever the
    commands do and however the calls end; the commands started before
    stay in the record. *)
Theorem attempts_spawns cs st :
  ∃ l, w_trace (attempts cs st).2.2 = w_trace st.2 ++ l ∧
    length l ≤ sum_list (cost <$> cs).
Proof.
  revert st. induction cs as [|c cs IH]; intros [g w].
  - exists []. by rewrite app_nil_r.
  - rewrite attempts_cons. cbn [fst snd].
    destruct (handle_spawns c g w) as (l1 & Hl1 & ?). rewrite <- attempt_world in Hl1.
    destruct (IH (attempt c (g, w)).2) as (l2 & -> & ?).
    exists (l1 ++ l2). rewrite Hl1, <- app_assoc, length_app, fmap_cons. simpl. split; [done|lia].
Qed.

(** The commands of one call. *)
Lemma handle_issues c g : issues (session_issued g [c]) (handle c g).
Proof.
  destruct c as [cfg|pkg|]; simpl.
  - unfold init. solve_issues. eapply issues_weaken; [apply init_issues|].
    intros cmd ->. left. split; [done|]. exists cfg. set_solver.
  - unfold plugin_process_package. solve_issues.
  - unfold plugin_process_report. destruct (CVEChecker g) as [self|] eqn:Hg; solve_issues.
    eapply issues_weaken; [apply process_report_issues|].
    intros cmd Hc. right. left. by exists self.
Qed.

(** The checker after a call is the one before, or the one the call of
    [init] built. *)
Lemma attempt_config c g w self :
  CVEChecker (attempt c (g, w)).2.1 = Some self →
  CVEChecker g = Some self ∨ ∃ cfg l, c = Init cfg ∧ self = of_config cfg l.
Proof.
  unfold attempt. simpl. destruct (handle c g w) as [g' w'|] eqn:Hh; cbn [fst snd]; [|by auto].
  destruct c as [cfg|pkg|]; [|apply handle_globals in Hh as ->; by auto..].
  simpl in Hh. apply init_Ok in Hh as ->. intros [= <-]. right. by exists cfg, (next_object w).
Qed.

(** More calls, more commands. *)
Lemma session_issued_mono g cs cs' cmd :
  (∀ cfg, Init cfg ∈ cs → Init cfg ∈ cs') → session_issued g cs cmd → session_issued g cs' cmd.
Proof.
  intros Hm [[E [cfg Hc]]|[?|(cfg & l & Hc & ?)]].
  - left. split; [done|]. exists cfg. by apply Hm.
  - by right; left.
  - right; right. exists cfg, l. split; [by apply Hm|done].
Qed.

Lemma session_issued_rest c g w cs cmd :
  session_issued (attempt c (g, w)).2.1 cs cmd → session_issued g (c :: cs) cmd.
Proof.
  intros [?|[(self & Hg & Hi)|?]].
  - apply (session_issued_mono g cs); [by right|by left].
  - apply attempt_config in Hg as [Hg|(cfg & l & -> & ->)]; [right; left; by exists self|].
    right. right. exists cfg, l. split; [by left|done].
  - apply (session_issued_mono g cs); [by right|by right; right].
Qed.

(** The commands of a sequence of calls. *)
Lemma attempts_commands cs g w :
  ∃ l, w_trace (attempts cs (g, w)).2.2 = w_trace w ++ l ∧ Forall (session_issued g cs) l.
Proof.
  revert g w. induction cs as [|c cs IH]; intros g w.
  - exists []. by rewrite app_nil_r.
  - rewrite attempts_cons. cbn [fst snd].
    destruct (handle_issues c g w) as (l1 & Hl1 & H1). rewrite <- attempt_world in Hl1.
    destruct (attempt c (g, w)) as [o [g1 w1]] eqn:Ha. cbn [fst snd] in *.
    destruct (IH g1 w1) as (l2 & -> & H2). exists (l1 ++ l2).
    rewrite Hl1, <- app_assoc. split; [done|]. apply Forall_app. split.
    + eapply Forall_impl; [exact H1|]. intros cmd. apply session_issued_mono.
      by intros cfg ->%list_elem_of_singleton; left.
    + eapply Forall_impl; [exact H2|]. intros cmd Hc. apply (session_issued_rest c g w).
      by rewrite Ha.
Qed.

(** A sequence of calls without [init] starts the commands of the report
    of the checker, and no others. *)
Lemma attempts_issued cs g self w :
  CVEChecker g = Some self → Forall (λ c, is_init c = false) cs →
  ∃ l, w_trace (attempts cs (g, w)).2.2 = w_trace w ++ l ∧ Forall (issued self) l.
Proof.
  intros Hg Hcs. destruct (attempts_commands cs g w) as (l & Hl & Hi). exists l.
  split; [done|]. eapply Forall_impl; [exact Hi|].
  assert (∀ cfg, Init cfg ∉ cs) as Hn.
  { intros cfg Hc. by eapply Forall_forall in Hc; [|exact Hcs]. }
  intros cmd [[_ [cfg Hc]]|[(self' & Hg' & ?)|(cfg & l' & Hc & _)]]; [by destruct (Hn cfg)| |by destruct (Hn cfg)].
  by simplify_eq.
Qed.

(** C12. The commands the plugin starts, in every environment, from every
    state, for every sequence of calls and however each call ends: the
    lookup [which cve-check-tool], for a call of [init], and the commands
    of the report of a checker (the one there is at the start, or one
    that a call of [init] of the sequence builds), which are the
    kernel-name script on the batch file, the tool with the command line
    of the CSV or of the HTML report, and the script on the CSV report
    with, as the name of the kernel, what the environment let the first
    run of the script print.  The commands started before stay in the
    record. *)
Theorem attempts_issues cs g w :
  ∃ l, w_trace (attempts cs (g, w)).2.2 = w_trace w ++ l ∧ Forall (session_issued g cs) l.
Proof. apply attempts_commands. Qed.

End PluginCommands.

Lemma log_append_only_witness :
  grows ("/build/log" +:+ "/isafw_cvelog") batch_world
    (@attempts report_env demo_etree
       [ProcessPackage demo_pkg; ProcessReport; Init demo_config; ProcessPackage demo_pkg]
       (mkGlobals (Some demo_self), batch_world)).2.2.
Proof.
  apply (log_append_only (X:=∅) (H:=report_env) (HX:=demo_etree)
           [ProcessPackage demo_pkg; ProcessReport; Init demo_config; ProcessPackage demo_pkg]
           (mkGlobals (Some demo_self), batch_world) "/build/log"); [|done].
  intros self [= <-]. split; [by exists demo_config|by eexists; vm_compute].
Defined.

Lemma attempts_writes_witness :
  same_outside (∅ ∪ own_files demo_self) batch_world
    (@attempts report_env demo_etree [ProcessPackage demo_pkg; ProcessReport]
       (mkGlobals (Some demo_self), batch_world)).2.2.
Proof.
  apply (attempts_writes (X:=∅) (H:=report_env) (HX:=demo_etree));
    [done|by repeat constructor].
Defined.

End Plugin.
