(* ===== verification/CommandLine.v ===== *)
(** * CommandLine: what the shell reads in the commands of the plugin

    The plugin builds its commands by concatenation: the command line of
    the tool in [process_report_type] ([tool_args]) and that of the
    kernel-name script in [mapping_of_kernel]
    ([set_linux_kernel_name_arg]).  This file reads them with the shell
    of [Shell] and compares what is read with what is meant
    ([tool_words], [script_words]).

    The tool is given the certificate and the batch file between single
    quotes, which the code does not escape: the command line is read as
    meant exactly when these have no single quote in them.  The script is
    given its file without quotes, and in the mode [custom] the text its
    own first run printed, as it is: what the shell reads there is what it
    reads in that text.  With the commands a sequence of calls starts
    ([Plugin.attempts_issued]) this says what the shell is asked to do in
    a whole session ([commands_read]). *)

From S2P Require Import Prelude PyStr Shell Sys Trace Raises Checker Scan ReportXml Report Plugin.
Import Py Shell Sys Trace Raises Checker Scan ReportXml Report Plugin.

Module CommandLine.

(** ** What the commands are meant to be *)

(** The words the tool is meant to be started with: the two assignments
    of the proxy, the name of the tool, its options, the batch file. *)
Definition tool_words (self : ISA_CVEChecker) (rtype : string) : list token :=
  (if truth (proxy self)
   then [Word ("https_proxy=" +:+ proxy self); Word ("http_proxy=" +:+ proxy self)]
   else [])
  ++ [Word "cve-check-tool"]
  ++ (if truth (cacert self) then [Word "--cacert"; Word (cacert self)] else [])
  ++ (if decide (rtype ≠ "html") then [Word "-c"] else [])
  ++ [Word "-a"; Word "-t"; Word "faux"; Word (faux_path self)].

(** The kernel-name script and the list of kernel versions. *)
Definition script_path (self : ISA_CVEChecker) : string :=
  tmp_dir self +:+ "/work/x86_64-linux/cve-check-tool-native/git-r0/set_linux_name.sh".

Definition versions_path (self : ISA_CVEChecker) : string :=
  tmp_dir self +:+ "/work/x86_64-linux/cve-check-tool-native/git-r0/mentor_kernel_versions.txt".

(** The two commands of [mapping_of_kernel]: the script is made
    executable, then run on [file] with the list of versions. *)
Definition script_words (self : ISA_CVEChecker) (file : list token) : list token :=
  [Word "chmod"; Word "+x"; Word (script_path self); AndIf; Word (script_path self)]
  ++ file ++ [Word (versions_path self)].

(** [reads file fts]: written without quotes before a blank, [file] is
    read as the tokens [fts]. *)
Definition reads (file : string) (fts : list token) : Prop :=
  ∀ s, lex Plain None (file +:+ " " ::: s) = (fts ++.) <$> lex Plain None s.

(** A configuration whose texts can be written into a command line as
    the code does: no single quote in the certificate, nothing but plain
    characters in what is written without quotes. *)
Definition plain_config (self : ISA_CVEChecker) : bool :=
  plain (proxy self) && quote_free (cacert self) && plain (reportdir self)
  && plain (timestamp self) && plain (tmp_dir self).

(** What the shell is meant to read in a command of a report; for the
    script on the CSV report, what it reads after [Custom] is what it
    reads in the text that the first run of the script printed. *)
Inductive expected `{Env} (self : ISA_CVEChecker) : option (list token) → Prop :=
| expected_script :
    expected self (Some (script_words self [Word (faux_path self)]))
| expected_tool rtype :
    expected self (Some (tool_words self rtype))
| expected_custom out :
    printed (set_linux_kernel_name_arg self (faux_path self) " " " ") out →
    expected self ((λ ts, script_words self [Word (csv_report_name self)] ++ Word "Custom" :: ts)
                   <$> tokens out).

(** ** Sample values *)

(** A report directory with a blank in it. *)
Definition spaced_self : ISA_CVEChecker :=
  of_config (mkConfig "" "" "/build/my reports" "20160101" "/build/log" "/build/tmp") 0.

(** A report directory with single quotes in it. *)
Definition quoted_self : ISA_CVEChecker :=
  of_config (mkConfig "" "" "/r';id;'" "t" "/l" "/t") 0.

(** The first run of the script prints more than a name. *)
Definition talkative_env : Env :=
  scripted [ok "linux;id"; ok ("busybox,1.24.1,CVE-2016-2148," +:+ nl)].

(** ** The command line of the tool *)

(** Reads a command line whose parts are constants, plain texts and
    quoted texts. *)
Ltac lex_go :=
  repeat first
    [ rewrite lex_quote by done
    | rewrite lex_quoted by done
    | rewrite lex_plain by done
    | rewrite extend_Some
    | progress autorewrite with pystr_rw
    | progress cbn ].

(** The command line of the tool, part by part. *)
Lemma tool_args_parts self rtype :
  (tool_args self rtype).1
  = (if truth (proxy self)
     then "https_proxy=" +:+ proxy self +:+ " http_proxy=" +:+ proxy self +:+ " " else "")
    +:+ "cve-check-tool "
    +:+ (if truth (cacert self) then "--cacert " +:+ quote (cacert self) +:+ " " else "")
    +:+ (if decide (rtype ≠ "html") then "-c " else "")
    +:+ "-a -t faux " +:+ quote (faux_path self).
Proof.
  unfold tool_args, quote, faux_path.
  destruct (truth (proxy self)), (truth (cacert self)), (decide (rtype ≠ "html"));
    cbn [fst]; by autorewrite with pystr_rw.
Qed.

Lemma quote_free_faux_path self :
  quote_free (faux_path self) = quote_free (reportdir self) && quote_free (timestamp self).
Proof.
  unfold faux_path, pkglist_faux. rewrite !quote_free_app.
  by rewrite andb_true_r.
Qed.

Lemma plain_faux_path self :
  plain (faux_path self) = plain (reportdir self) && plain (timestamp self).
Proof. unfold faux_path, pkglist_faux. rewrite !plain_app. by rewrite andb_true_r. Qed.

Lemma tool_args_tokens self rtype :
  plain (proxy self) = true → quote_free (cacert self) = true →
  quote_free (faux_path self) = true →
  tokens (tool_args self rtype).1 = Some (tool_words self rtype).
Proof.
  intros Hp Hc Hf. rewrite tool_args_parts. unfold tokens, tool_words.
  by destruct (truth (proxy self)), (truth (cacert self)), (decide (rtype ≠ "html")); lex_go.
Qed.

(** The words of the tool have no quote in them when the shell reads
    them as they are meant. *)
Lemma tool_words_quotable self rtype :
  Forall (λ t, quotable t = true) (tool_words self rtype) →
  quote_free (cacert self) = true ∧ quote_free (faux_path self) = true.
Proof.
  unfold tool_words. rewrite !Forall_app, !Forall_cons. intros (_ & _ & Hc & _ & _ & _ & _ & Hf & _).
  split; [|done]. revert Hc. destruct (cacert self); [done|]. cbn [truth].
  rewrite !Forall_cons. by intros (_ & ? & _).
Qed.

(** C8. The command line of the tool is read by the shell as the words
    it is meant to be (the assignments of the proxy, [cve-check-tool],
    [--cacert] with the certificate, [-c] for the CSV report, [-a -t faux]
    and the batch file, each path one word whatever blanks, dollars or
    semicolons it holds) exactly when there is no single quote in the
    certificate, the report directory and the time stamp: the single
    quotes the code puts around them are not escaped.  The proxy is not
    quoted and is taken to be plain. *)
Theorem tool_args_quoting self rtype :
  plain (proxy self) = true →
  tokens (tool_args self rtype).1 = Some (tool_words self rtype)
  ↔ quote_free (cacert self) = true ∧ quote_free (reportdir self) = true
    ∧ quote_free (timestamp self) = true.
Proof.
  intros Hp. rewrite <- andb_true_iff, <- quote_free_faux_path. split.
  - intros Ht. by apply tool_words_quotable with rtype, tokens_quotable with (tool_args self rtype).1.
  - intros [Hc Hf]. by apply tool_args_tokens.
Qed.

(** ** The command line of the script *)

Lemma set_linux_kernel_name_arg_parts self file mode custom :
  set_linux_kernel_name_arg self file mode custom
  = "chmod +x " +:+ script_path self +:+ "  && " +:+ script_path self +:+ " " +:+ file
    +:+ " " +:+ versions_path self +:+ " "
    +:+ (if decide (mode ≠ "custom") then "" else "Custom " +:+ custom).
Proof.
  unfold set_linux_kernel_name_arg, script_path, versions_path.
  destruct (decide (mode ≠ "custom")); by autorewrite with pystr_rw.
Qed.

Lemma plain_script_path self : plain (tmp_dir self) = true → plain (script_path self) = true.
Proof. intros Ht. unfold script_path. by rewrite plain_app, Ht. Qed.

Lemma plain_versions_path self : plain (tmp_dir self) = true → plain (versions_path self) = true.
Proof. intros Ht. unfold versions_path. by rewrite plain_app, Ht. Qed.

Lemma extend_None_app u w : w ≠ "" → extend None (u +:+ w) = Some (u +:+ w).
Proof. intros Hw. apply extend_None. by destruct u, w. Qed.

Lemma reads_plain w : plain w = true → w ≠ "" → reads w [Word w].
Proof. intros Hw Hne s. by rewrite lex_plain, extend_None by done. Qed.

Lemma reads_blank w1 w2 fts :
  plain w1 = true → w1 ≠ "" → reads w2 fts → reads (w1 +:+ " " +:+ w2) (Word w1 :: fts).
Proof.
  intros H1 N1 H2 s. rewrite str_app_assoc, lex_plain, extend_None by done.
  rewrite !str_app_cons, str_app_nil_l, lex_blank, H2.
  by destruct (lex Plain None s).
Qed.

(** The command line of the script is read as: make the script
    executable, then run it on what the file is read as and the list of
    versions; in the mode [custom], what follows is what is read in
    [custom_name]. *)
Lemma script_command_reads self file mode custom fts :
  plain (tmp_dir self) = true → reads file fts →
  tokens (set_linux_kernel_name_arg self file mode custom)
  = if decide (mode ≠ "custom") then Some (script_words self fts)
    else (λ ts, script_words self fts ++ Word "Custom" :: ts) <$> tokens custom.
Proof.
  intros Ht Hf. pose proof (plain_script_path self Ht) as Hs.
  pose proof (plain_versions_path self Ht) as Hv.
  assert (extend None (script_path self) = Some (script_path self)) as Es
    by by apply extend_None_app.
  assert (extend None (versions_path self) = Some (versions_path self)) as Ev
    by by apply extend_None_app.
  rewrite set_linux_kernel_name_arg_parts. unfold tokens, script_words.
  destruct (decide (mode ≠ "custom")); lex_go; rewrite ?Es; lex_go; rewrite Hf; lex_go;
    rewrite Ev; lex_go; [done|].
  destruct (lex Plain None custom); [|done]. cbn. by rewrite <- app_assoc.
Qed.

(** C25. With a plain temporary directory and a plain file name the
    command line of [mapping_of_kernel] is read as two commands joined by
    [&&]: [chmod +x] on the script, then the script with the file and the
    list of kernel versions as its two arguments.  In the mode [custom]
    the word [Custom] follows, and after it whatever the shell reads in
    [custom_name]: the text is pasted into the command line as it is. *)
Theorem script_command_tokens self file mode custom :
  plain (tmp_dir self) = true → plain file = true → file ≠ "" →
  tokens (set_linux_kernel_name_arg self file mode custom)
  = if decide (mode ≠ "custom") then Some (script_words self [Word file])
    else (λ ts, script_words self [Word file] ++ Word "Custom" :: ts) <$> tokens custom.
Proof. intros Ht Hf Hne. by apply script_command_reads, reads_plain. Qed.

(** C31. The batch file is given to the tool between single quotes and to
    the script without: with a blank in the report directory (and no
    quote) the tool is started with the path of the batch file as one
    word, and the script with the two halves of it as two. *)
Theorem script_path_split self r1 r2 :
  plain (proxy self) = true → quote_free (cacert self) = true → plain (tmp_dir self) = true →
  plain r1 = true → r1 ≠ "" → plain (r2 +:+ pkglist_faux self) = true →
  reportdir self = r1 +:+ " " +:+ r2 →
  tokens (tool_args self "csv").1 = Some (tool_words self "csv") ∧
  tokens (set_linux_kernel_name_arg self (faux_path self) " " " ")
  = Some (script_words self [Word r1; Word (r2 +:+ pkglist_faux self)]).
Proof.
  intros Hp Hc Ht H1 N1 H2 Hr. split.
  - apply tool_args_tokens; [done..|]. unfold faux_path.
    rewrite Hr, !str_app_assoc, 2 quote_free_app.
    by rewrite (plain_quote_free r1), (plain_quote_free (r2 +:+ _)).
  - rewrite (script_command_reads self _ _ _ [Word r1; Word (r2 +:+ pkglist_faux self)]);
      [done..|].
    unfold faux_path. rewrite Hr, !str_app_assoc. apply reads_blank; [done..|].
    apply reads_plain; [done|]. unfold pkglist_faux, pkglist. by destruct r2.
Qed.

(** ** The commands of a session *)

Lemma plain_config_spec self :
  plain_config self = true ↔
  plain (proxy self) = true ∧ quote_free (cacert self) = true ∧ plain (reportdir self) = true
  ∧ plain (timestamp self) = true ∧ plain (tmp_dir self) = true.
Proof. unfold plain_config. rewrite !andb_true_iff. tauto. Qed.

Lemma faux_path_ne self : faux_path self ≠ "".
Proof. intros E. pose proof (faux_path_last self) as Hl. by rewrite E in Hl. Qed.

(** With a plain configuration every command of a report is read as it
    is meant. *)
Lemma issued_expected `{Env} self cmd :
  wf_checker self → plain_config self = true → issued self cmd → expected self (tokens cmd).
Proof.
  intros [cfg Hwf] (Hp & Hc & Hr & Ht & Hd)%plain_config_spec.
  assert (plain (faux_path self) = true) as Hf by by rewrite plain_faux_path, Hr, Ht.
  destruct 1 as [|rtype|out Hout].
  - rewrite script_command_tokens, decide_True by auto using faux_path_ne. constructor.
  - rewrite tool_args_tokens by auto using plain_quote_free. constructor.
  - rewrite script_command_tokens, decide_False; [by constructor|by auto|done| |].
    + rewrite Hwf. cbn [csv_report_name of_config]. rewrite plain_app.
      replace (cfg_reportdir cfg) with (reportdir self) by by rewrite Hwf. by rewrite Hr.
    + rewrite Hwf. cbn. by destruct (cfg_reportdir cfg).
Qed.

(** C16. What the shell is asked to do between two calls of [init], in
    every environment and however the calls end, when the configuration is
    plain (no single quote in the certificate, plain characters only in
    the proxy, the report directory, the time stamp and the temporary
    directory): every command started is read as [chmod +x] on the script
    and the script on the batch file, or as the tool with its options and
    the batch file, or as [chmod +x] on the script and the script on the
    CSV report followed by [Custom] and by whatever the shell reads in the
    text printed by the first run of the script. *)
Theorem commands_read `{HE : Env} {HX : Etree} cs g self w :
  CVEChecker g = Some self → wf_checker self → plain_config self = true →
  Forall (λ c, is_init c = false) cs →
  ∃ l, w_trace (attempts cs (g, w)).2.2 = w_trace w ++ l ∧
    Forall (λ cmd, expected self (tokens cmd)) l.
Proof.
  intros Hg Hwf Hp Hcs. destruct (attempts_issued cs g self w Hg Hcs) as (l & Hl & Hi).
  exists l. split; [done|]. eapply Forall_impl; [exact Hi|].
  intros cmd. by apply issued_expected.
Qed.

(** ** Witnesses *)

Lemma tool_args_quoting_witness :
  tokens (tool_args demo_self "csv").1 = Some (tool_words demo_self "csv")
  ↔ quote_free (cacert demo_self) = true ∧ quote_free (reportdir demo_self) = true
    ∧ quote_free (timestamp demo_self) = true.
Proof. apply (tool_args_quoting demo_self "csv"). reflexivity. Defined.

Lemma script_command_tokens_witness :
  tokens (set_linux_kernel_name_arg demo_self "/build/report/cve_report" "custom" ("linux" +:+ nl))
  = (λ ts, script_words demo_self [Word "/build/report/cve_report"] ++ Word "Custom" :: ts)
    <$> tokens ("linux" +:+ nl).
Proof.
  apply (script_command_tokens demo_self "/build/report/cve_report" "custom"); by vm_compute.
Defined.

Lemma script_path_split_witness :
  tokens (tool_args spaced_self "csv").1 = Some (tool_words spaced_self "csv") ∧
  tokens (set_linux_kernel_name_arg spaced_self (faux_path spaced_self) " " " ")
  = Some (script_words spaced_self
            [Word "/build/my"; Word ("reports" +:+ pkglist_faux spaced_self)]).
Proof. apply (script_path_split spaced_self "/build/my" "reports"); by vm_compute. Defined.

Lemma commands_read_witness :
  ∃ l, w_trace (@attempts report_env demo_etree [ProcessPackage demo_pkg; ProcessReport]
                  (mkGlobals (Some demo_self), batch_world)).2.2
       = w_trace batch_world ++ l ∧
    Forall (λ cmd, @expected report_env demo_self (tokens cmd)) l.
Proof.
  apply (commands_read (HE:=report_env) (HX:=demo_etree));
    [done|by exists demo_config|by vm_compute|by repeat constructor].
Defined.

(** With single quotes in the report directory the shell reads three
    commands where one is meant. *)
Example tool_args_quote_escapes :
  tokens (tool_args quoted_self "csv").1
  = Some [Word "cve-check-tool"; Word "-c"; Word "-a"; Word "-t"; Word "faux"; Word "/r"; Semi;
          Word "id"; Semi; Word "/cve_check_tool_pkglist_t.faux"].
Proof. vm_compute. reflexivity. Qed.

(** What the first run of the script prints is read by the shell in the
    command line of the second: here a second command. *)
Example script_output_is_read :
  (tokens <$> w_trace (world_of (@process_report_type talkative_env demo_self "csv" batch_world)))
    !! 2
  = Some (Some (script_words demo_self [Word (csv_report_name demo_self)]
                ++ [Word "Custom"; Word "linux"; Semi; Word "id"])).
Proof. vm_compute. reflexivity. Qed.

End CommandLine.
